(** * R7 Verspaetung: the delay model and its controller

    A shallow embedding of [Backend/models/delay.js] and of the handlers of
    [Backend/controllers/delayController.js] that read it, followed by the
    properties of the delay-resolution algorithm.

    Conventions of the embedding.
    - JavaScript numbers that the code only ever uses as integers (minutes,
      seconds, epoch milliseconds, counts) are [Z]; a division is carried out
      in [Q] and brought back by [Math_round] or [Math_floor], as the source
      does with [Math.round] and [Math.floor].
    - Strings are [string]; a literal holds the UTF-8 bytes of the source
      literal.
    - [null] and [undefined] are [None].
    - An [async] function is a function of the module state that returns a
      result or a thrown exception together with the new state: the run of
      a call that no other call overlaps. The availability probe, whose
      flag every other function reads, is also given in the two pieces
      around its [await], to state what overlapping calls do. *)

From Stdlib Require Import ZArith QArith Qround String Ascii List Bool Lia.
From Stdlib Require Import DecimalString Sorted Lqa.
From stdpp Require Import base gmap strings.

Import ListNotations.
Local Open Scope string_scope.
Local Open Scope Z_scope.

(** ** JavaScript primitives used by the source *)

Module JS.

(** [Math.round x]: the integer nearest to [x], a tie going up. *)
Definition Math_round (x : Q) : Z := Qfloor (x + (1 # 2))%Q.

(** [Math.floor x]. *)
Definition Math_floor (x : Q) : Z := Qfloor x.

(** [Math.max(...xs)] on a non-empty list of integers. *)
Definition Math_max (x : Z) (xs : list Z) : Z := fold_left Z.max xs x.

(** Truthiness of a string: every string but the empty one. *)
Definition truthy_string (s : string) : bool := negb (String.eqb s "").

(** Truthiness of a field that holds a string, [null] or [undefined]. *)
Definition truthy_ostring (o : option string) : bool :=
  match o with
  | Some s => truthy_string s
  | None => false
  end.

(** Truthiness of a field that holds a number or [null]. *)
Definition truthy_onumber (o : option Z) : bool :=
  match o with
  | Some n => negb (n =? 0)
  | None => false
  end.

(** [a || b] on string-or-null operands. *)
Definition or_ostring (a b : option string) : option string :=
  if truthy_ostring a then a else b.

(** [a || 'literal'] where the right operand is a string literal. *)
Definition or_string (a : option string) (b : string) : string :=
  match a with
  | Some s => if truthy_string s then s else b
  | None => b
  end.

(** [a || false] on a boolean-or-undefined operand. *)
Definition or_false (a : option bool) : bool :=
  match a with
  | Some b => b
  | None => false
  end.

(** [String(n)] on an integer. *)
Definition String_of_integer (n : Z) : string := NilZero.string_of_int (Z.to_int n).

(** [x < y] on numbers. *)
Definition lt (x y : Q) : bool := negb (Qle_bool y x).

(** The double that the literal [0.05] denotes. *)
Definition literal_0_05 : Q := 3602879701896397 # 72057594037927936.

(** The local time zone of the server, as the two abstract operations of
    ECMA-262 (21.4.1): [LocalTime t] is the local time value at the instant
    [t], and [UTC t] the instant that the local time value [t] denotes (the
    earlier one where a local time occurs twice, the offset before the
    transition where it is skipped). Both are in milliseconds. *)
Record TimeZone : Type := {
  LocalTime : Z -> Z;
  UTC : Z -> Z
}.

(** A zone at a fixed offset from UTC, in milliseconds, all year round. *)
Definition fixed_zone (offset : Z) : TimeZone :=
  {| LocalTime := fun t => t + offset; UTC := fun t => t - offset |}.

Definition zone_UTC : TimeZone := fixed_zone 0.

(** [zone] is at the offset [offset] from UTC at every instant. *)
Definition at_fixed_offset (zone : TimeZone) (offset : Z) : Prop :=
  forall t, LocalTime zone t = t + offset /\ UTC zone t = t - offset.

(** Local-time reading and writing of a [Date], on its time value in
    milliseconds. A getter reads the field off the local time value; a
    setter replaces the field in the local time value and converts the
    result back with [UTC] (MakeTime, MakeDate). A field set outside its
    range carries into the next one. *)
Definition MinFromTime (t : Z) : Z := (t / 60000) mod 60.
Definition HourFromTime (t : Z) : Z := (t / 3600000) mod 24.
Definition SecFromTime (t : Z) : Z := (t / 1000) mod 60.
Definition msFromTime (t : Z) : Z := t mod 1000.

Definition getMinutes (zone : TimeZone) (t : Z) : Z := MinFromTime (LocalTime zone t).
Definition getHours (zone : TimeZone) (t : Z) : Z := HourFromTime (LocalTime zone t).
Definition setMinutes (zone : TimeZone) (t : Z) (minutes : Z) : Z :=
  UTC zone (LocalTime zone t + (minutes - MinFromTime (LocalTime zone t)) * 60000).
Definition setHours (zone : TimeZone) (t : Z) (hours : Z) : Z :=
  UTC zone (LocalTime zone t + (hours - HourFromTime (LocalTime zone t)) * 3600000).
Definition setSeconds (zone : TimeZone) (t : Z) (seconds : Z) : Z :=
  UTC zone (LocalTime zone t + (seconds - SecFromTime (LocalTime zone t)) * 1000).
Definition setMilliseconds (zone : TimeZone) (t : Z) (ms : Z) : Z :=
  UTC zone (LocalTime zone t + (ms - msFromTime (LocalTime zone t))).

(** Letters of the Basic Latin block. *)
Definition is_upper_ascii (c : ascii) : bool :=
  ((65 <=? nat_of_ascii c) && (nat_of_ascii c <=? 90))%nat.
Definition is_lower_ascii (c : ascii) : bool :=
  ((97 <=? nat_of_ascii c) && (nat_of_ascii c <=? 122))%nat.

(** Second byte of the UTF-8 form of a Latin-1 Supplement letter, whose
    first byte is 0xC3: U+00C0..U+00DE without the sign U+00D7 are the
    capitals, U+00E0..U+00FE without U+00F7 the small letters. *)
Definition is_C3 (c : ascii) : bool := (nat_of_ascii c =? 195)%nat.
Definition is_upper_latin1_tail (d : ascii) : bool :=
  ((128 <=? nat_of_ascii d) && (nat_of_ascii d <=? 158)
   && negb (nat_of_ascii d =? 151))%nat.
Definition is_lower_latin1_tail (d : ascii) : bool :=
  ((160 <=? nat_of_ascii d) && (nat_of_ascii d <=? 190)
   && negb (nat_of_ascii d =? 183))%nat.

Definition shift_up (c : ascii) : ascii := ascii_of_nat (nat_of_ascii c + 32).
Definition shift_down (c : ascii) : ascii := ascii_of_nat (nat_of_ascii c - 32).

(** What [s.toLowerCase()] is for a string [s] of code points up to U+00FF:
    the capitals A..Z and U+00C0..U+00DE (without U+00D7) become their
    small letters, every other code point stays. The function of the
    engine itself, defined on every string by the Unicode tables, is a
    parameter of the model (see [toLowerCase] below); this table is what is
    known of it. *)
Fixpoint toLowerCase_latin1 (s : string) : string :=
  match s with
  | EmptyString => EmptyString
  | String c rest =>
      match rest with
      | String d rest' =>
          if is_C3 c && is_upper_latin1_tail d
          then String c (String (shift_up d) (toLowerCase_latin1 rest'))
          else String (if is_upper_ascii c then shift_up c else c)
                      (toLowerCase_latin1 rest)
      | EmptyString =>
          String (if is_upper_ascii c then shift_up c else c) EmptyString
      end
  end.

(** [s.toUpperCase()], on the code points up to U+00FF whose capital is a
    single code point of that range; other code points are left as they
    are. In JavaScript the letters U+00DF, U+00FF and U+00B5, and letters
    beyond U+00FF, have capitals that the model does not produce; none of
    these capitals contains R, E, B, 7 or a space, so the departure filter
    reads a label the same way on the model. *)
Fixpoint toUpperCase (s : string) : string :=
  match s with
  | EmptyString => EmptyString
  | String c rest =>
      match rest with
      | String d rest' =>
          if is_C3 c && is_lower_latin1_tail d
          then String c (String (shift_down d) (toUpperCase rest'))
          else String (if is_lower_ascii c then shift_down c else c)
                      (toUpperCase rest)
      | EmptyString =>
          String (if is_lower_ascii c then shift_down c else c) EmptyString
      end
  end.

(** [s.includes(sub)]: [sub] occurs in [s] at some position. *)
Fixpoint includes (s sub : string) : bool :=
  if String.prefix sub s then true
  else match s with
       | EmptyString => false
       | String _ rest => includes rest sub
       end.

End JS.

(** ** delay.js: status classification *)

(** [getDelayStatus(delayMinutes)], lines 155-160. *)
Definition getDelayStatus (delayMinutes : Z) : string :=
  if delayMinutes <=? 0 then "on-time"
  else if delayMinutes <=? 5 then "slight-delay"
  else if delayMinutes <=? 10 then "delayed"
  else "heavily-delayed".

(** The four statuses of the classification, from the mildest to the most
    severe, and the rank of a status in that order. *)
Definition delay_statuses : list string :=
  ["on-time"; "slight-delay"; "delayed"; "heavily-delayed"].

Definition severity (status : string) : Z :=
  if String.eqb status "on-time" then 0
  else if String.eqb status "slight-delay" then 1
  else if String.eqb status "delayed" then 2
  else 3.


(** ** Exceptions and the module state *)

(** The outcome of evaluating a JavaScript expression: a value, or a thrown
    error with its [message]. *)
Inductive Exn (A : Type) : Type :=
| Return (a : A)
| Throw (message : string).
Arguments Return {A} a.
Arguments Throw {A} message.

(** A computation over a mutable state [S]. A [throw] keeps the state as it
    was when the error was raised, as a mutation made inside a [try] block
    survives the [catch]. *)
Definition M (S A : Type) : Type := S -> Exn A * S.

Definition ret {S A} (a : A) : M S A := fun st => (Return a, st).

Definition throw {S A} (message : string) : M S A := fun st => (Throw message, st).

Definition bind {S A B} (m : M S A) (k : A -> M S B) : M S B :=
  fun st =>
    match m st with
    | (Return a, st') => k a st'
    | (Throw message, st') => (Throw message, st')
    end.

(** [try { body } catch (error) { handler(error.message) }]. *)
Definition try_catch {S A} (body : M S A) (handler : string -> M S A) : M S A :=
  fun st =>
    match body st with
    | (Return a, st') => (Return a, st')
    | (Throw message, st') => handler message st'
    end.

Definition gets {S A} (f : S -> A) : M S A := fun st => (Return (f st), st).

Definition modify {S} (f : S -> S) : M S unit := fun st => (Return tt, f st).

(** An expression that may throw but touches no state. *)
Definition lift_exn {S A} (e : Exn A) : M S A := fun st => (e, st).

Notation "'let*' x ':=' c 'in' k" := (bind c (fun x => k))
  (at level 10, x name, c at level 100, k at level 200).

(** [xs.map(f)] where the callback may throw: the first error aborts the
    map. *)
Fixpoint map_exn {A B} (f : A -> Exn B) (xs : list A) : Exn (list B) :=
  match xs with
  | [] => Return []
  | x :: xs' =>
      match f x with
      | Throw message => Throw message
      | Return y =>
          match map_exn f xs' with
          | Throw message => Throw message
          | Return ys => Return (y :: ys)
          end
      end
  end.

(** [xs.map(f)] where the callback has effects: elements are visited from
    left to right. *)
Fixpoint map_M {S A B} (f : A -> M S B) (xs : list A) : M S (list B) :=
  match xs with
  | [] => ret []
  | x :: xs' =>
      let* y := f x in
      let* ys := map_M f xs' in
      ret (y :: ys)
  end.

(** [for (const x of xs) { body }]. *)
Fixpoint for_of {S A} (xs : list A) (body : A -> M S unit) : M S unit :=
  match xs with
  | [] => ret tt
  | x :: xs' => let* _ := body x in for_of xs' body
  end.

(** ** Data *)

(** An ISO 8601 string as [Date.prototype.toISOString] prints it, kept as the
    epoch milliseconds it denotes. *)
Definition Timestamp : Type := Z.

(** A [Date] object: [new Date(text)] has a time value when [text] parses
    and is an Invalid Date otherwise. *)
Inductive Date : Type :=
| ValidDate (ms : Z)
| InvalidDate.

(** [date.toISOString()] throws a RangeError on an Invalid Date. *)
Definition toISOString (date : Date) : Exn Timestamp :=
  match date with
  | ValidDate ms => Return ms
  | InvalidDate => Throw "Invalid time value"
  end.

(** An entry of the static table [R7_STOPS]. *)
Module Stop.
Record t : Type := {
  id : string;
  name : string;
  searchName : string;
  hafasId : option string;
  order : Z
}.
End Stop.

Module Coordinates.
Record t : Type := { latitude : Q; longitude : Q }.
End Coordinates.

(** A location of the upstream directory, as [hafasClient.locations]
    returns it. *)
Module Location.
Record t : Type := {
  id : string;
  name : string;
  type : string;
  location : option Coordinates.t
}.
End Location.

Module Line.
Record t : Type := { name : option string; product : option string }.
End Line.

Module Remark.
Record t : Type := { text : string }.
End Remark.

(** An upstream departure object. [plannedWhen] and [when] are ISO strings
    upstream; the record keeps [new Date(text)] of a non-empty text and
    [None] for a field that is [null], [undefined] or empty, which is the
    test the source makes before it builds the [Date]. *)
Module Departure.
Record t : Type := {
  plannedWhen : option Date;
  when : option Date;
  delay : option Z;
  cancelled : option bool;
  platform : option string;
  plannedPlatform : option string;
  direction : option string;
  line : option Line.t;
  remarks : option (list Remark.t)
}.
End Departure.

(** The record [calculateDelay] returns. *)
Module DepartureRecord.
Record t : Type := {
  scheduledDeparture : option Timestamp;
  expectedDeparture : option Timestamp;
  delayMinutes : Z;
  status : string;
  cancelled : bool;
  platform : option string;
  direction : option string;
  lineName : string;
  remarks : list string
}.
End DepartureRecord.

(** The snapshot of a stop that has data: the object pushed on the two
    paths of [fetchRealDelayData] that reach the departures, and the object
    [generateSimulatedData] builds. [isSimulated] is [false] where the
    source leaves the field out. *)
Module StopData.
Record t : Type := {
  stopId : string;
  stopName : string;
  stopOrder : Z;
  hafasId : option string;
  hafasName : string;
  location : option Coordinates.t;
  scheduledDeparture : option Timestamp;
  expectedArrival : option Timestamp;
  delayMinutes : Z;
  status : string;
  cancelled : bool;
  platform : option string;
  direction : option string;
  lineName : string;
  remarks : list string;
  upcomingDepartures : list DepartureRecord.t;
  lastUpdated : Timestamp;
  isSimulated : bool
}.
End StopData.

(** The snapshot of a stop whose lookup failed. *)
Module StopError.
Record t : Type := {
  stopId : string;
  stopName : string;
  stopOrder : Z;
  error : string;
  departures : list DepartureRecord.t;
  lastUpdated : Timestamp
}.
End StopError.

(** One element of the list [fetchRealDelayData] returns, with the property
    reads the callers make on it. A property the object does not have reads
    as [undefined]. *)
Module Snapshot.
Inductive t : Type :=
| Data (d : StopData.t)
| Failed (e : StopError.t).

Definition stopId (s : t) : string :=
  match s with
  | Data d => StopData.stopId d
  | Failed e => StopError.stopId e
  end.

Definition stopOrder (s : t) : Z :=
  match s with
  | Data d => StopData.stopOrder d
  | Failed e => StopError.stopOrder e
  end.

Definition error (s : t) : option string :=
  match s with
  | Data _ => None
  | Failed e => Some (StopError.error e)
  end.

Definition scheduledDeparture (s : t) : option Timestamp :=
  match s with
  | Data d => StopData.scheduledDeparture d
  | Failed _ => None
  end.

Definition cancelled (s : t) : option bool :=
  match s with
  | Data d => Some (StopData.cancelled d)
  | Failed _ => None
  end.

(** The controllers read [delayMinutes] only on snapshots that passed the
    filter on [scheduledDeparture], which no [Failed] snapshot does; the
    value given here for [Failed] is never used in a sum. *)
Definition delayMinutes (s : t) : Z :=
  match s with
  | Data d => StopData.delayMinutes d
  | Failed _ => 0
  end.
End Snapshot.

(** An element of the list [searchStations] returns. *)
Module SearchResult.
Record t : Type := {
  id : string;
  name : string;
  type : string;
  location : option Coordinates.t
}.
End SearchResult.

(** The [hafas-client] instance. The first argument of a method is the
    number of upstream requests the process has issued before this one, so
    that the upstream may answer the same request differently over time. A
    rejected promise, and a payload the source cannot read, is a [Throw]. *)
Module HafasClient.
Record t : Type := {
  locations : nat -> string -> nat -> Exn (list Location.t);
  departures : nat -> string -> Z -> nat -> Exn (list Departure.t)
}.
End HafasClient.

(** The module-level variables of [delay.js], with the counters that tell
    the external world where the process stands: [requests] upstream
    requests issued, [draws] calls of [Math.random] made. *)
Record State : Type := {
  apiAvailable : option bool;
  stationCache : gmap string Location.t;
  requests : nat;
  draws : nat
}.

Definition set_apiAvailable (b : bool) (st : State) : State :=
  {| apiAvailable := Some b; stationCache := stationCache st;
     requests := requests st; draws := draws st |}.

Definition stationCache_set (key : string) (v : Location.t) (st : State) : State :=
  {| apiAvailable := apiAvailable st; stationCache := <[key := v]> (stationCache st);
     requests := requests st; draws := draws st |}.

Definition count_request (st : State) : State :=
  {| apiAvailable := apiAvailable st; stationCache := stationCache st;
     requests := S (requests st); draws := draws st |}.

Definition count_draw (st : State) : State :=
  {| apiAvailable := apiAvailable st; stationCache := stationCache st;
     requests := requests st; draws := S (draws st) |}.

(** The state of a freshly loaded module. *)
Definition initial_state : State :=
  {| apiAvailable := None; stationCache := ∅; requests := 0; draws := 0 |}.

(** ** delay.js: the static table and the delay calculator *)

(** [R7_STOPS], lines 27-35. *)
Definition R7_STOPS : list Stop.t :=
  [ {| Stop.id := "1"; Stop.name := "Zweibrücken Hauptbahnhof";
       Stop.searchName := "Zweibrücken Hbf"; Stop.hafasId := Some "8000472";
       Stop.order := 1 |};
    {| Stop.id := "2"; Stop.name := "Zweibrücken Rosengarten";
       Stop.searchName := "Zweibrücken Rosengarten"; Stop.hafasId := None;
       Stop.order := 2 |};
    {| Stop.id := "3"; Stop.name := "Einöd";
       Stop.searchName := "Einöd"; Stop.hafasId := None; Stop.order := 3 |};
    {| Stop.id := "4"; Stop.name := "Ingweiler";
       Stop.searchName := "Ingweiler"; Stop.hafasId := None; Stop.order := 4 |};
    {| Stop.id := "5"; Stop.name := "Bierbach";
       Stop.searchName := "Bierbach"; Stop.hafasId := None; Stop.order := 5 |};
    {| Stop.id := "6"; Stop.name := "Beeden";
       Stop.searchName := "Beeden"; Stop.hafasId := None; Stop.order := 6 |};
    {| Stop.id := "7"; Stop.name := "Homburg (Saar) Hauptbahnhof";
       Stop.searchName := "Homburg Hbf"; Stop.hafasId := Some "8000176";
       Stop.order := 7 |} ].

(** The ISO string of an optional [Date]: [d ? d.toISOString() : null]. *)
Definition toISOString_or_null (d : option Date) : Exn (option Timestamp) :=
  match d with
  | None => Return None
  | Some date =>
      match toISOString date with
      | Return iso => Return (Some iso)
      | Throw message => Throw message
      end
  end.

(** The local [delayMinutes] of [calculateDelay], lines 130-135, on dates
    known to be valid: [delay] counts seconds, the time values count
    milliseconds. *)
Definition computedDelayMinutes (delay : option Z)
    (scheduledTime actualTime : option Timestamp) : Z :=
  if JS.truthy_onumber delay then
    match delay with
    | Some seconds => JS.Math_round (inject_Z seconds / 60)
    | None => 0
    end
  else
    match scheduledTime, actualTime with
    | Some scheduled, Some actual =>
        JS.Math_round (inject_Z (actual - scheduled) / inject_Z (1000 * 60))
    | _, _ => 0
    end.

(** [calculateDelay(departure)], lines 126-148. The source computes
    [delayMinutes] first and prints the dates while it builds the record; on
    an Invalid Date the printing throws, so no record is returned and the
    number computed before (a [NaN] when it came from the dates) is never
    seen. The embedding prints the dates first and computes on time values
    that exist. *)
Definition calculateDelay (departure : Departure.t) : Exn DepartureRecord.t :=
  let scheduledTime := Departure.plannedWhen departure in
  let actualTime := Departure.when departure in
  match toISOString_or_null scheduledTime with
  | Throw message => Throw message
  | Return scheduledISO =>
      match toISOString_or_null actualTime with
      | Throw message => Throw message
      | Return actualISO =>
          let delayMinutes :=
            computedDelayMinutes (Departure.delay departure) scheduledISO actualISO in
          Return
            {| DepartureRecord.scheduledDeparture := scheduledISO;
               DepartureRecord.expectedDeparture :=
                 match actualISO with
                 | Some iso => Some iso
                 | None => scheduledISO
                 end;
               DepartureRecord.delayMinutes := Z.max 0 delayMinutes;
               DepartureRecord.status := getDelayStatus delayMinutes;
               DepartureRecord.cancelled := JS.or_false (Departure.cancelled departure);
               DepartureRecord.platform :=
                 JS.or_ostring (Departure.platform departure)
                   (JS.or_ostring (Departure.plannedPlatform departure) None);
               DepartureRecord.direction :=
                 JS.or_ostring (Departure.direction departure) None;
               DepartureRecord.lineName :=
                 JS.or_string
                   (match Departure.line departure with
                    | Some line => Line.name line
                    | None => None
                    end) "R7";
               DepartureRecord.remarks :=
                 match Departure.remarks departure with
                 | Some remarks => map Remark.text remarks
                 | None => []
                 end |}
      end
  end.

(** The line label the departure filter reads:
    [(dep.line?.name || dep.line?.product || '').toUpperCase()]. *)
Definition lineName (dep : Departure.t) : string :=
  JS.toUpperCase
    (JS.or_string
       (match Departure.line dep with
        | Some line => JS.or_ostring (Line.name line) (Line.product line)
        | None => None
        end) "").

(** The callback of the filter in [getDeparturesForStation], lines 109-112. *)
Definition isR7Departure (dep : Departure.t) : bool :=
  JS.includes (lineName dep) "R7" || JS.includes (lineName dep) "R 7"
  || String.eqb (lineName dep) "RE7" || String.eqb (lineName dep) "RB7".

(** ** delayController.js: the summary statistics and the responses *)

(** The local constants of [getRouteSummary], lines 108-114, as functions
    of the list [delays]. *)
Definition validDelays (delays : list Snapshot.t) : list Snapshot.t :=
  List.filter
    (fun d => negb (JS.truthy_ostring (Snapshot.error d))
              && bool_decide (is_Some (Snapshot.scheduledDeparture d)))
    delays.

Definition totalDelays (delays : list Snapshot.t) : Z :=
  fold_left (fun sum d => sum + Snapshot.delayMinutes d) (validDelays delays) 0.

Definition averageDelay (delays : list Snapshot.t) : Z :=
  if (0 <? length (validDelays delays))%nat
  then JS.Math_round
         (inject_Z (totalDelays delays) / inject_Z (Z.of_nat (length (validDelays delays))))
  else 0.

Definition maxDelay (delays : list Snapshot.t) : Z :=
  match map Snapshot.delayMinutes (validDelays delays) with
  | x :: xs => JS.Math_max x xs
  | [] => 0
  end.

Definition onTimeCount (delays : list Snapshot.t) : nat :=
  length (List.filter (fun d => Snapshot.delayMinutes d =? 0) (validDelays delays)).

Definition cancelledCount (delays : list Snapshot.t) : nat :=
  length (List.filter (fun d => JS.or_false (Snapshot.cancelled d)) delays).

Definition onTimePercentage (delays : list Snapshot.t) : Z :=
  if (0 <? length (validDelays delays))%nat
  then JS.Math_round
         (inject_Z (Z.of_nat (onTimeCount delays))
          / inject_Z (Z.of_nat (length (validDelays delays))) * 100)
  else 0.

(** The [summary] object of the response of [getRouteSummary], lines
    122-131. *)
Module Summary.
Record t : Type := {
  totalStops : Z;
  stopsWithData : Z;
  averageDelayMinutes : Z;
  maxDelayMinutes : Z;
  onTimePercentage : Z;
  stopsOnTime : Z;
  stopsDelayed : Z;
  cancelledServices : Z
}.
End Summary.

Definition routeSummary (delays : list Snapshot.t) : Summary.t :=
  {| Summary.totalStops := Z.of_nat (length delays);
     Summary.stopsWithData := Z.of_nat (length (validDelays delays));
     Summary.averageDelayMinutes := averageDelay delays;
     Summary.maxDelayMinutes := maxDelay delays;
     Summary.onTimePercentage := onTimePercentage delays;
     Summary.stopsOnTime := Z.of_nat (onTimeCount delays);
     Summary.stopsDelayed :=
       Z.of_nat (length (validDelays delays)) - Z.of_nat (onTimeCount delays);
     Summary.cancelledServices := Z.of_nat (cancelledCount delays) |}.

(** What a handler sends: the HTTP status (200 when the handler sets none)
    and the JSON body. *)
Inductive Body : Type :=
| StopBody (success : bool) (route dataSource : string) (isRealData : bool)
    (data : Snapshot.t) (timestamp : Timestamp)
| SummaryBody (success : bool) (route routeDescription dataSource : string)
    (isRealData : bool) (summary : Summary.t) (timestamp : Timestamp)
| ErrorBody (success : bool) (error : string) (message : option string).

Record Response : Type := { status : Z; json : Body }.

(** ** delay.js: the functions that talk to the outside world *)

Section Model.

(** [hafasClient] is [None] when [createClient] threw at load time. *)
Variable hafasClient : option HafasClient.t.

(** [random n] is what the call number [n] of [Math.random] returns. *)
Variable random : nat -> Q.

(** [clock n] is what [new Date()] reads once [n] upstream requests have
    been issued. *)
Variable clock : nat -> Timestamp.

(** The local time zone of the server. *)
Variable timeZone : JS.TimeZone.

(** [toLowerCase s] is [s.toLowerCase()], on the UTF-8 form of the
    strings. *)
Variable toLowerCase : string -> string.

Definition Math_random : M State Q :=
  fun st => (Return (random (draws st)), count_draw st).

Definition Date_now : M State Timestamp :=
  fun st => (Return (clock (requests st)), st).

(** [await hafasClient.locations(name, { results })]; reading a method of
    [null] is a TypeError. *)
Definition hafas_locations (name : string) (results : nat) : M State (list Location.t) :=
  match hafasClient with
  | None => throw "Cannot read properties of null (reading 'locations')"
  | Some client =>
      fun st => (HafasClient.locations client (requests st) name results,
                 count_request st)
  end.

(** [await hafasClient.departures(stationId, { duration, results })]. *)
Definition hafas_departures (stationId : string) (duration : Z) (results : nat)
  : M State (list Departure.t) :=
  match hafasClient with
  | None => throw "Cannot read properties of null (reading 'departures')"
  | Some client =>
      fun st => (HafasClient.departures client (requests st) stationId duration results,
                 count_request st)
  end.

(** [checkApiAvailability()], lines 45-65. *)
Definition checkApiAvailability : M State bool :=
  let* cached := gets apiAvailable in
  match cached with
  | Some available => ret available
  | None =>
      match hafasClient with
      | None =>
          let* _ := modify (set_apiAvailable false) in
          ret false
      | Some _ =>
          try_catch
            (let* _ := hafas_locations "Saarbrücken" 1 in
             let* _ := modify (set_apiAvailable true) in
             ret true)
            (fun error =>
               let* _ := modify (set_apiAvailable false) in
               ret false)
      end
  end.

(** [findStation(name)], lines 72-91. *)
Definition findStation (name : string) : M State (option Location.t) :=
  let* available := checkApiAvailability in
  if negb available then ret None
  else
    let* cache := gets stationCache in
    match cache !! name with
    | Some station => ret (Some station)
    | None =>
        try_catch
          (let* results := hafas_locations name 5 in
           match results with
           | first :: _ =>
               let station :=
                 match find (fun r => String.eqb (Location.type r) "stop") results with
                 | Some r => r
                 | None => first
                 end in
               let* _ := modify (stationCache_set name station) in
               ret (Some station)
           | [] => ret None
           end)
          (fun error => ret None)
    end.

(** [getDeparturesForStation(stationId, duration = 120)], lines 99-119. *)
Definition getDeparturesForStation (stationId : string) (duration : Z)
  : M State (list Departure.t) :=
  let* available := checkApiAvailability in
  if negb available then ret []
  else
    try_catch
      (let* departures := hafas_departures stationId duration 50 in
       let r7Departures := List.filter isR7Departure departures in
       ret r7Departures)
      (fun error => ret []).

(** The callback of the [map] in [generateSimulatedData], lines 169-216. *)
Definition simulateStop (now : Timestamp) (stop : Stop.t) : M State Snapshot.t :=
  let* r := Math_random in
  let baseDelay := JS.Math_floor (r * 16) in
  let delay := if baseDelay <? 5 then 0 else baseDelay in
  let minutes := JS.getMinutes timeZone now in
  let nextDeparture := now in
  let nextHalfHour := if minutes <? 30 then 30 else 60 in
  let nextDeparture := JS.setMinutes timeZone nextDeparture (nextHalfHour mod 60) in
  let nextDeparture :=
    if nextHalfHour =? 60
    then JS.setHours timeZone nextDeparture
           (JS.getHours timeZone nextDeparture + 1)
    else nextDeparture in
  let nextDeparture := JS.setSeconds timeZone nextDeparture 0 in
  let nextDeparture := JS.setMilliseconds timeZone nextDeparture 0 in
  let expectedArrival :=
    JS.setMinutes timeZone nextDeparture
      (JS.getMinutes timeZone nextDeparture + delay) in
  let* r' := Math_random in
  let cancelled := JS.lt r' JS.literal_0_05 in
  let directions := ["Homburg (Saar) Hbf"; "Zweibrücken Hbf"] in
  let direction :=
    if Stop.order stop <=? 3 then nth_error directions 0 else nth_error directions 1 in
  let* platform :=
    if (Stop.order stop =? 1) || (Stop.order stop =? 7)
    then
      let* r'' := Math_random in
      ret (Some (JS.String_of_integer (JS.Math_floor (r'' * 3) + 1)))
    else ret None in
  ret (Snapshot.Data
         {| StopData.stopId := Stop.id stop;
            StopData.stopName := Stop.name stop;
            StopData.stopOrder := Stop.order stop;
            StopData.hafasId := Stop.hafasId stop;
            StopData.hafasName := Stop.name stop;
            StopData.location := None;
            StopData.scheduledDeparture := Some nextDeparture;
            StopData.expectedArrival := Some expectedArrival;
            StopData.delayMinutes := if cancelled then 0 else delay;
            StopData.status := if cancelled then "cancelled" else getDelayStatus delay;
            StopData.cancelled := cancelled;
            StopData.platform := platform;
            StopData.direction := direction;
            StopData.lineName := "R7";
            StopData.remarks := [];
            StopData.upcomingDepartures := [];
            StopData.lastUpdated := now;
            StopData.isSimulated := true |}).

(** [generateSimulatedData()], lines 166-217. *)
Definition generateSimulatedData : M State (list Snapshot.t) :=
  let* now := Date_now in
  map_M (simulateStop now) R7_STOPS.

(** The local array [results] of [fetchRealDelayData] beside the module
    state: the loop body pushes on it, inside and outside the [try]. *)
Definition with_results {A} (m : M State A) : M (State * list Snapshot.t) A :=
  fun '(st, results) => let '(r, st') := m st in (r, (st', results)).

Definition results_push (d : Snapshot.t) : M (State * list Snapshot.t) unit :=
  fun '(st, results) => (Return tt, (st, (results ++ [d])%list)).

(** The object pushed on the two paths that reach the departures, lines
    248-266 and 289-307; they differ in the three fields passed here. *)
Definition dataSnapshot (now : Timestamp) (stop : Stop.t)
    (hafasId : string) (hafasName : string) (location : option Coordinates.t)
    (processedDepartures : list DepartureRecord.t) : Snapshot.t :=
  let nextDeparture := hd_error processedDepartures in
  Snapshot.Data
    {| StopData.stopId := Stop.id stop;
       StopData.stopName := Stop.name stop;
       StopData.stopOrder := Stop.order stop;
       StopData.hafasId := Some hafasId;
       StopData.hafasName := hafasName;
       StopData.location := location;
       StopData.scheduledDeparture :=
         match nextDeparture with
         | Some next => DepartureRecord.scheduledDeparture next
         | None => None
         end;
       StopData.expectedArrival :=
         match nextDeparture with
         | Some next => DepartureRecord.expectedDeparture next
         | None => None
         end;
       StopData.delayMinutes :=
         match nextDeparture with
         | Some next => DepartureRecord.delayMinutes next
         | None => 0
         end;
       StopData.status :=
         JS.or_string (option_map DepartureRecord.status nextDeparture) "unknown";
       StopData.cancelled :=
         JS.or_false (option_map DepartureRecord.cancelled nextDeparture);
       StopData.platform :=
         match nextDeparture with
         | Some next => DepartureRecord.platform next
         | None => None
         end;
       StopData.direction :=
         match nextDeparture with
         | Some next => DepartureRecord.direction next
         | None => None
         end;
       StopData.lineName :=
         JS.or_string (option_map DepartureRecord.lineName nextDeparture) "R7";
       StopData.remarks :=
         match nextDeparture with
         | Some next => DepartureRecord.remarks next
         | None => []
         end;
       StopData.upcomingDepartures := firstn 5 processedDepartures;
       StopData.lastUpdated := now;
       StopData.isSimulated := false |}.

(** The object pushed when a stop has no station and no static id, and in
    the [catch], lines 268-275 and 310-317. *)
Definition errorSnapshot (now : Timestamp) (stop : Stop.t) (error : string) : Snapshot.t :=
  Snapshot.Failed
    {| StopError.stopId := Stop.id stop;
       StopError.stopName := Stop.name stop;
       StopError.stopOrder := Stop.order stop;
       StopError.error := error;
       StopError.departures := [];
       StopError.lastUpdated := now |}.

(** The body of the loop of [fetchRealDelayData], lines 237-318. *)
Definition processStop (now : Timestamp) (stop : Stop.t)
  : M (State * list Snapshot.t) unit :=
  try_catch
    (let* station :=
       with_results
         (findStation
            (if JS.truthy_string (Stop.searchName stop)
             then Stop.searchName stop else Stop.name stop)) in
     match station with
     | None =>
         match Stop.hafasId stop with
         | Some hafasId =>
             if JS.truthy_string hafasId then
               let* departures := with_results (getDeparturesForStation hafasId 120) in
               let* processedDepartures :=
                 lift_exn (map_exn calculateDelay departures) in
               results_push
                 (dataSnapshot now stop hafasId (Stop.name stop) None processedDepartures)
             else
               results_push (errorSnapshot now stop "Station not found in HAFAS")
         | None =>
             results_push (errorSnapshot now stop "Station not found in HAFAS")
         end
     | Some station =>
         let* departures :=
           with_results (getDeparturesForStation (Location.id station) 120) in
         let* processedDepartures := lift_exn (map_exn calculateDelay departures) in
         results_push
           (dataSnapshot now stop (Location.id station) (Location.name station)
              (Location.location station) processedDepartures)
     end)
    (fun error => results_push (errorSnapshot now stop error)).

(** [fetchRealDelayData()], lines 224-322. *)
Definition fetchRealDelayData : M State (list Snapshot.t) :=
  let* isApiAvailable := checkApiAvailability in
  if negb isApiAvailable then generateSimulatedData
  else
    let* now := Date_now in
    fun st =>
      match for_of R7_STOPS (processStop now) (st, []) with
      | (Return _, (st', results)) => (Return results, st')
      | (Throw message, (st', _)) => (Throw message, st')
      end.

(** [getAllStops()], lines 328-334. *)
Definition getAllStops : list (string * string * Z) :=
  map (fun stop => (Stop.id stop, Stop.name stop, Stop.order stop)) R7_STOPS.

(** [getDelayByStopId(stopId)], lines 341-344. *)
Definition getDelayByStopId (stopId : string) : M State (option Snapshot.t) :=
  let* allDelays := fetchRealDelayData in
  ret (find (fun d => String.eqb (Snapshot.stopId d) stopId) allDelays).

(** [searchStations(query)], lines 351-376. *)
Definition searchStations (query : string) : M State (list SearchResult.t) :=
  let* available := checkApiAvailability in
  if negb available then
    ret (map
           (fun stop =>
              {| SearchResult.id := JS.or_string (Stop.hafasId stop) (Stop.id stop);
                 SearchResult.name := Stop.name stop;
                 SearchResult.type := "stop";
                 SearchResult.location := None |})
           (List.filter
              (fun stop =>
                 JS.includes (toLowerCase (Stop.name stop)) (toLowerCase query))
              R7_STOPS))
  else
    try_catch
      (let* results := hafas_locations query 10 in
       ret (map
              (fun station =>
                 {| SearchResult.id := Location.id station;
                    SearchResult.name := Location.name station;
                    SearchResult.type := Location.type station;
                    SearchResult.location := Location.location station |})
              (List.filter (fun r => String.eqb (Location.type r) "stop") results)))
      (fun error => ret []).

(** [isUsingRealData()], lines 382-384. *)
Definition isUsingRealData : M State bool := checkApiAvailability.

(** ** delayController.js: the handlers *)

(** [getDelayByStop(req, res)] with [req.params.stopId = stopId], lines
    70-99. *)
Definition getDelayByStop (stopId : string) : M State Response :=
  try_catch
    (let* isRealData := isUsingRealData in
     let* delayData := getDelayByStopId stopId in
     match delayData with
     | None =>
         ret {| status := 404; json := ErrorBody false "Stop not found" None |}
     | Some data =>
         let* timestamp := Date_now in
         ret {| status := 200;
                json := StopBody true "R7"
                          (if isRealData
                           then "saarfahrplan HAFAS API (Echtzeitdaten)"
                           else "Simulierte Daten")
                          isRealData data timestamp |}
     end)
    (fun error =>
       ret {| status := 500;
              json := ErrorBody false "Failed to fetch delay information for stop"
                        (Some error) |}).

(** [getRouteSummary(req, res)], lines 104-142. *)
Definition getRouteSummary : M State Response :=
  try_catch
    (let* isRealData := isUsingRealData in
     let* delays := fetchRealDelayData in
     let* timestamp := Date_now in
     ret {| status := 200;
            json := SummaryBody true "R7" "Zweibrücken - Homburg (Saarland)"
                      (if isRealData
                       then "saarfahrplan HAFAS API (Echtzeitdaten)"
                       else "Simulierte Daten")
                      isRealData (routeSummary delays) timestamp |})
    (fun error =>
       ret {| status := 500;
              json := ErrorBody false "Failed to fetch route summary" (Some error) |}).

End Model.

(** ** The claims as the specification words them, where they differ from
    the code *)

(** The minutes between the scheduled and the actual time, rounded, when
    both are present; zero otherwise. *)
Definition delay_from_times (departure : Departure.t) : Z :=
  match Departure.plannedWhen departure, Departure.when departure with
  | Some (ValidDate scheduled), Some (ValidDate actual) =>
      JS.Math_round (inject_Z (actual - scheduled) / inject_Z 60000)
  | _, _ => 0
  end.

(** The delay of the specification: the explicit field whenever it is
    present, the difference of the two times otherwise, never below zero. *)
Definition claimed_delayMinutes (departure : Departure.t) : Z :=
  Z.max 0
    (match Departure.delay departure with
     | Some seconds => JS.Math_round (inject_Z seconds / 60)
     | None => delay_from_times departure
     end).

(** ** Concrete inputs *)

(** A departure that is five minutes late by its times and carries an
    explicit delay of zero seconds. *)
Definition departure_delay_zero_late : Departure.t :=
  {| Departure.plannedWhen := Some (ValidDate 0);
     Departure.when := Some (ValidDate 300000);
     Departure.delay := Some 0;
     Departure.cancelled := None;
     Departure.platform := None;
     Departure.plannedPlatform := None;
     Departure.direction := None;
     Departure.line := Some {| Line.name := Some "R7"; Line.product := None |};
     Departure.remarks := None |}.

(** [contains s sub]: the string [sub] occurs in [s]. *)
Definition contains (s sub : string) : Prop :=
  exists pre post, s = (pre ++ sub ++ post)%string.

(** What the departure filter accepts, on the upper-cased label. *)
Definition matchesR7 (label : string) : Prop :=
  contains label "R7" \/ contains label "R 7" \/ label = "RE7" \/ label = "RB7".

(** The filter of the specification: the label is the route code, the code
    with a space before the digit, or one of the two aliases, whatever the
    case of its letters. *)
Definition claimed_isR7Departure (dep : Departure.t) : bool :=
  String.eqb (lineName dep) "R7" || String.eqb (lineName dep) "R 7"
  || String.eqb (lineName dep) "RE7" || String.eqb (lineName dep) "RB7".

(** A departure of another line, R70, and an upstream that serves it. *)
Definition departure_R70 : Departure.t :=
  {| Departure.plannedWhen := Some (ValidDate 0);
     Departure.when := Some (ValidDate 0);
     Departure.delay := None;
     Departure.cancelled := None;
     Departure.platform := None;
     Departure.plannedPlatform := None;
     Departure.direction := None;
     Departure.line := Some {| Line.name := Some "R70"; Line.product := Some "bus" |};
     Departure.remarks := None |}.

Definition upstream_R70 : HafasClient.t :=
  {| HafasClient.locations := fun _ _ _ => Return [];
     HafasClient.departures := fun _ _ _ _ => Return [departure_R70] |}.

(** The snapshot of [stop] that the generator makes from a base draw [r]
    and a cancellation draw [r']. *)
Definition synthetic (stop : Stop.t) (r r' : Q) (s : Snapshot.t) : Prop :=
  exists d,
    s = Snapshot.Data d
    /\ StopData.stopId d = Stop.id stop
    /\ StopData.stopOrder d = Stop.order stop
    /\ StopData.isSimulated d = true
    /\ StopData.scheduledDeparture d <> None
    /\ StopData.cancelled d = JS.lt r' JS.literal_0_05
    /\ StopData.delayMinutes d =
       (if JS.lt r' JS.literal_0_05 then 0
        else if JS.Math_floor (r * 16) <? 5 then 0 else JS.Math_floor (r * 16))
    /\ StopData.status d =
       (if JS.lt r' JS.literal_0_05 then "cancelled"
        else getDelayStatus
               (if JS.Math_floor (r * 16) <? 5 then 0 else JS.Math_floor (r * 16))).

(** What the specification says of a snapshot of the synthetic generator,
    [r] being the draw behind its base value and [r'] the draw behind its
    cancellation flag: the base value is [floor (16 r)], one of 0..15, each
    value [k] being drawn exactly on the sixteenth [k/16 <= r < (k+1)/16];
    a cancelled snapshot has delay 0 and status "cancelled"; one that is
    not cancelled has the base value as its delay, collapsed to 0 below 5,
    and the status of that delay. *)
Definition generated_as_specified (r r' : Q) (s : Snapshot.t) : Prop :=
  exists d base,
    s = Snapshot.Data d
    /\ base = JS.Math_floor (r * 16)
    /\ 0 <= base <= 15
    /\ (forall k, base = k <-> (inject_Z k / 16 <= r < inject_Z (k + 1) / 16)%Q)
    /\ (StopData.cancelled d = true <-> (r' < JS.literal_0_05)%Q)
    /\ (StopData.cancelled d = true ->
        StopData.delayMinutes d = 0 /\ StopData.status d = "cancelled")
    /\ (StopData.cancelled d = false ->
        StopData.delayMinutes d = (if base <? 5 then 0 else base)
        /\ (StopData.delayMinutes d = 0 \/ 5 <= StopData.delayMinutes d <= 15)
        /\ StopData.status d = getDelayStatus (StopData.delayMinutes d)).

(** A source of draws that always returns one half, and a clock that
    stands still. *)
Definition random_half : nat -> Q := fun _ => 1 # 2.
Definition clock_zero : nat -> Timestamp := fun _ => 0.

(** The code points of a string of code points up to U+00FF, read off its
    UTF-8 bytes: one byte below 0x80, or a byte 0xC2 or 0xC3 followed by a
    byte from 0x80 to 0xBF. [None] for every other string. *)
Fixpoint code_points_latin1 (s : string) : option (list nat) :=
  match s with
  | EmptyString => Some []
  | String c rest =>
      if (nat_of_ascii c <? 128)%nat
      then option_map (cons (nat_of_ascii c)) (code_points_latin1 rest)
      else
        match rest with
        | String d rest' =>
            if ((nat_of_ascii c =? 194)%nat || (nat_of_ascii c =? 195)%nat)
               && (128 <=? nat_of_ascii d)%nat && (nat_of_ascii d <=? 191)%nat
            then option_map (cons ((nat_of_ascii c - 194) * 64 + nat_of_ascii d)%nat)
                   (code_points_latin1 rest')
            else None
        | EmptyString => None
        end
  end.

(** A string all of whose code points are up to U+00FF. *)
Definition is_latin1 (s : string) : Prop := code_points_latin1 s <> None.






Definition utf8_latin1 (c : nat) : string :=
  if (c <? 128)%nat then String (ascii_of_nat c) ""
  else if (c <? 192)%nat then String (ascii_of_nat 194) (String (ascii_of_nat c) "")
  else String (ascii_of_nat 195) (String (ascii_of_nat (c - 64)) "").

Fixpoint utf8_of (cps : list nat) : string :=
  match cps with
  | [] => ""
  | c :: cps' => (utf8_latin1 c ++ utf8_of cps')%string
  end.

(** A lower-casing that agrees with the table up to U+00FF and also knows
    the small letter of one code point beyond it, as the engine does: the
    KELVIN SIGN U+212A (bytes E2 84 AA), whose small letter is k. *)
Fixpoint kelvin_to_k (s : string) : string :=
  match s with
  | EmptyString => EmptyString
  | String c rest =>
      match rest with
      | String d (String e rest') =>
          if ((nat_of_ascii c =? 226) && (nat_of_ascii d =? 132)
              && (nat_of_ascii e =? 170))%nat
          then String "k" (kelvin_to_k rest')
          else String c (kelvin_to_k rest)
      | _ => String c (kelvin_to_k rest)
      end
  end.

Definition toLowerCase_with_kelvin (s : string) : string :=
  JS.toLowerCase_latin1 (kelvin_to_k s).

(** A snapshot carries an error: it has an [error] field that is not the
    empty string. *)
Definition has_error (d : Snapshot.t) : Prop :=
  exists message, Snapshot.error d = Some message /\ message <> "".

(** The snapshots of the statistics as the specification words them: all
    but those with an error. *)
Definition claimed_validDelays (delays : list Snapshot.t) : list Snapshot.t :=
  List.filter (fun d => negb (JS.truthy_ostring (Snapshot.error d))) delays.

(** The sum of a list of integers. *)
Definition sum_of (xs : list Z) : Z := fold_right Z.add 0 xs.

(** An upstream that knows every station and has no departure for any. *)
Definition station_found : Location.t :=
  {| Location.id := "8000472"; Location.name := "Zweibrücken Hbf";
     Location.type := "stop"; Location.location := None |}.

Definition upstream_no_departures : HafasClient.t :=
  {| HafasClient.locations := fun _ _ _ => Return [station_found];
     HafasClient.departures := fun _ _ _ _ => Return [] |}.

(** A cancelled departure of line R7 that the upstream reports ten minutes
    late, and an upstream that serves it at every station. *)
Definition departure_cancelled_late : Departure.t :=
  {| Departure.plannedWhen := Some (ValidDate 0);
     Departure.when := None;
     Departure.delay := Some 600;
     Departure.cancelled := Some true;
     Departure.platform := None;
     Departure.plannedPlatform := None;
     Departure.direction := Some "Homburg (Saar) Hbf";
     Departure.line := Some {| Line.name := Some "R7"; Line.product := Some "bus" |};
     Departure.remarks := None |}.

Definition upstream_cancelled_late : HafasClient.t :=
  {| HafasClient.locations := fun _ _ _ => Return [station_found];
     HafasClient.departures := fun _ _ _ _ => Return [departure_cancelled_late] |}.

(** An upstream on which the loop takes its three kinds of round: the
    directory finds no station, so the two termini fall back on their
    static id and the other stops have none; the departure served at the
    first terminus has a time that does not parse. *)
Definition departure_unparsable : Departure.t :=
  {| Departure.plannedWhen := Some InvalidDate;
     Departure.when := None;
     Departure.delay := None;
     Departure.cancelled := None;
     Departure.platform := None;
     Departure.plannedPlatform := None;
     Departure.direction := None;
     Departure.line := Some {| Line.name := Some "R7"; Line.product := None |};
     Departure.remarks := None |}.

Definition upstream_mixed : HafasClient.t :=
  {| HafasClient.locations := fun _ _ _ => Return [];
     HafasClient.departures :=
       fun _ stationId _ _ =>
         if String.eqb stationId "8000472" then Return [departure_unparsable]
         else Return [departure_cancelled_late] |}.

(** ** delayController.js: the other handlers *)

(** [s.length]: the number of UTF-16 code units of the string whose UTF-8
    bytes are [s]. A continuation byte (0x80..0xBF) adds nothing, the first
    byte of a four-byte sequence (0xF0 and above) stands for a surrogate
    pair. *)
Fixpoint String_length (s : string) : Z :=
  match s with
  | EmptyString => 0
  | String c rest =>
      (if ((128 <=? nat_of_ascii c) && (nat_of_ascii c <? 192))%nat then 0
       else if (240 <=? nat_of_ascii c)%nat then 2
       else 1)
      + String_length rest
  end.

(** The [summary] object of the response of [getAllDelays], lines 29-33. *)
Module DelaysSummary.
Record t : Type := {
  averageDelayMinutes : Z;
  stopsWithData : Z;
  stopsWithoutData : Z
}.
End DelaysSummary.

(** The JSON bodies of [getAllDelays], [getStops] and [searchStations], and
    the body of their failures. *)
Inductive Payload : Type :=
| DelaysPayload (success : bool) (route routeDescription : string) (totalStops : Z)
    (dataSource : string) (isRealData : bool) (data : list Snapshot.t)
    (summary : DelaysSummary.t) (timestamp : Timestamp)
| StopsPayload (success : bool) (route : string) (data : list (string * string * Z))
    (timestamp : Timestamp)
| SearchPayload (success : bool) (query : string) (results : list SearchResult.t)
    (timestamp : Timestamp)
| FailurePayload (success : bool) (error : string) (message : option string).

Record Answer : Type := { code : Z; payload : Payload }.

Section Handlers.

Variable hafasClient : option HafasClient.t.
Variable random : nat -> Q.
Variable clock : nat -> Timestamp.
Variable timeZone : JS.TimeZone.
Variable toLowerCase : string -> string.


(** [getStops(req, res)], lines 49-65. *)
Definition getStops : M State Answer :=
  try_catch
    (let stops := getAllStops in
     let* timestamp := Date_now clock in
     ret {| code := 200; payload := StopsPayload true "R7" stops timestamp |})
    (fun error =>
       ret {| code := 500;
              payload := FailurePayload false "Failed to fetch stops information" None |}).

(** [searchStations(req, res)] of the controller, lines 147-172, with
    [req.query.q = q]: [None] when the parameter is missing, the string when
    it is given once. *)
Definition searchStationsHandler (q : option string) : M State Answer :=
  try_catch
    (match q with
     | None =>
         ret {| code := 400;
                payload := FailurePayload false "Query must be at least 2 characters"
                             None |}
     | Some query =>
         if negb (JS.truthy_string query) || (String_length query <? 2) then
           ret {| code := 400;
                  payload := FailurePayload false "Query must be at least 2 characters"
                               None |}
         else
           let* stations := searchStations hafasClient toLowerCase query in
           let* timestamp := Date_now clock in
           ret {| code := 200; payload := SearchPayload true query stations timestamp |}
     end)
    (fun error =>
       ret {| code := 500;
              payload := FailurePayload false "Failed to search stations" (Some error) |}).

End Handlers.

(** ** The page script: how a delay and a status are shown *)

(** [formatDelay(minutes)]; [None] is [undefined]. *)
Definition formatDelay (minutes : option Z) : string :=
  match minutes with
  | None => "Pünktlich"
  | Some m =>
      if m =? 0 then "Pünktlich"
      else ("+" ++ JS.String_of_integer m ++ " Min")%string
  end.

(** [getDelayClass(minutes)]. *)
Definition getDelayClass (minutes : option Z) : string :=
  match minutes with
  | None => "no-delay"
  | Some m =>
      if m =? 0 then "no-delay"
      else if m <=? 5 then "small-delay"
      else if m <=? 10 then "medium-delay"
      else "large-delay"
  end.

(** The own properties of the object [statusMap] of [getStatusText]. *)
Definition statusMap : list (string * string) :=
  [ ("on-time", "Pünktlich");
    ("slight-delay", "Leichte Verspätung");
    ("delayed", "Verspätet");
    ("heavily-delayed", "Stark verspätet");
    ("unknown", "Unbekannt");
    ("cancelled", "Ausfall") ].

(** The names that every object inherits from [Object.prototype]: read on
    [statusMap], each gives a function or an object, which is truthy. *)
Definition Object_prototype_names : list string :=
  [ "constructor"; "__proto__"; "__defineGetter__"; "__defineSetter__";
    "__lookupGetter__"; "__lookupSetter__"; "hasOwnProperty"; "isPrototypeOf";
    "propertyIsEnumerable"; "toLocaleString"; "toString"; "valueOf" ].

(** What [statusMap[status] || status] evaluates to: a text, or the
    inherited member of that name. *)
Inductive StatusText : Type :=
| Text (text : string)
| Inherited (name : string).

(** [getStatusText(status)]. *)
Definition getStatusText (status : string) : StatusText :=
  match find (fun entry => String.eqb (fst entry) status) statusMap with
  | Some entry => if JS.truthy_string (snd entry) then Text (snd entry) else Text status
  | None =>
      if existsb (String.eqb status) Object_prototype_names then Inherited status
      else Text status
  end.

(** ** Relations used to state what the functions keep *)

(** [evolves st st']: from [st] to [st'] an answer of the probe is kept,
    no entry of the station cache is changed or dropped, and the counters
    do not go back. *)
Definition evolves (st st' : State) : Prop :=
  (forall b, apiAvailable st = Some b -> apiAvailable st' = Some b)
  /\ stationCache st ⊆ stationCache st'
  /\ (requests st <= requests st')%nat
  /\ (draws st <= draws st')%nat.

(** The snapshot that a round of the real-data loop can push for [stop]:
    an error snapshot, or the data snapshot of the records computed from a
    list of departures that all passed the line filter. *)
Definition real_snapshot (stop : Stop.t) (d : Snapshot.t) : Prop :=
  (exists now message, d = errorSnapshot now stop message)
  \/ (exists now stationId hafasName location kept processed,
        d = dataSnapshot now stop stationId hafasName location processed
        /\ map_exn calculateDelay kept = Return processed
        /\ Forall (fun dep => isR7Departure dep = true) kept).

(** The draws that the generator makes for a stop: base value and
    cancellation, and the platform at a terminus. *)
Definition draws_for (stop : Stop.t) : nat :=
  if (Stop.order stop =? 1) || (Stop.order stop =? 7) then 3%nat else 2%nat.

(** [snapshots] are the snapshots of [stops], one for each stop and in the
    order of the stops, each as the specification says for draws of its
    own: the snapshot of the first stop for the draws number [n] (base
    value) and [n + 1] (cancellation), the snapshot of the next stop for
    the two draws that follow the draws made for the first, and so on. *)
Fixpoint generated_in_order (random : nat -> Q) (n : nat) (stops : list Stop.t)
    (snapshots : list Snapshot.t) : Prop :=
  match stops, snapshots with
  | [], [] => True
  | stop :: stops', s :: snapshots' =>
      Snapshot.stopId s = Stop.id stop
      /\ Snapshot.stopOrder s = Stop.order stop
      /\ generated_as_specified (random n) (random (S n)) s
      /\ generated_in_order random (n + draws_for stop) stops' snapshots'
  | _, _ => False
  end.

(** An upstream with a directory of three candidates for every name, the
    second of which is the first stop, and no departures. *)
Definition candidate_address : Location.t :=
  {| Location.id := "A1"; Location.name := "Bahnhofstrasse 1";
     Location.type := "address"; Location.location := None |}.

Definition candidate_stop : Location.t :=
  {| Location.id := "8000176"; Location.name := "Homburg (Saar) Hbf";
     Location.type := "stop"; Location.location := None |}.

Definition upstream_candidates : HafasClient.t :=
  {| HafasClient.locations :=
       fun _ _ _ => Return [candidate_address; candidate_stop; station_found];
     HafasClient.departures := fun _ _ _ _ => Return [] |}.

(** The state of a module whose probe has answered. *)
Definition state_available : State :=
  {| apiAvailable := Some true; stationCache := ∅; requests := 1; draws := 0 |}.

Definition state_unavailable : State :=
  {| apiAvailable := Some false; stationCache := ∅; requests := 0; draws := 0 |}.

(** The scheduled departure that the callback of [generateSimulatedData]
    computes from [now], lines 175-183. *)
Definition nextDeparture_at (timeZone : JS.TimeZone) (now : Timestamp) : Timestamp :=
  let minutes := JS.getMinutes timeZone now in
  let nextHalfHour := if minutes <? 30 then 30 else 60 in
  let nextDeparture := JS.setMinutes timeZone now (nextHalfHour mod 60) in
  let nextDeparture :=
    if nextHalfHour =? 60
    then JS.setHours timeZone nextDeparture (JS.getHours timeZone nextDeparture + 1)
    else nextDeparture in
  JS.setMilliseconds timeZone (JS.setSeconds timeZone nextDeparture 0) 0.

(** The zone of Europe/Berlin around the end of daylight saving time on
    2026-10-25, 01:00 UTC: two hours ahead of UTC before that instant, one
    hour after it; the local times from 02:00 to 03:00 of that night occur
    twice and denote the earlier instant. *)
Definition zone_Berlin_autumn_2026 : JS.TimeZone :=
  {| JS.LocalTime := fun t => if t <? 1792890000000 then t + 7200000 else t + 3600000;
     JS.UTC := fun t => if t <? 1792890000000 + 7200000 then t - 7200000 else t - 3600000 |}.

(** The snapshot that the generator makes for [stop] at time [now] from the
    draws number [n], [n + 1] and, at a terminus, [n + 2]: every field is
    given; the scheduled time [t] is the one computed from [now], and the
    expected time is [t] with the base value (collapsed to 0 below 5) added
    to its minutes. *)
Definition simulated_details (random : nat -> Q) (timeZone : JS.TimeZone)
    (now : Timestamp) (stop : Stop.t) (n : nat) (s : Snapshot.t) : Prop :=
  exists d t,
    let base := JS.Math_floor (random n * 16) in
    let delay := if base <? 5 then 0 else base in
    let cancelled := JS.lt (random (S n)) JS.literal_0_05 in
    s = Snapshot.Data d
    /\ StopData.stopId d = Stop.id stop
    /\ StopData.stopName d = Stop.name stop
    /\ StopData.stopOrder d = Stop.order stop
    /\ StopData.hafasId d = Stop.hafasId stop
    /\ StopData.hafasName d = Stop.name stop
    /\ StopData.location d = None
    /\ StopData.scheduledDeparture d = Some t
    /\ t = nextDeparture_at timeZone now
    /\ StopData.expectedArrival d =
       Some (JS.setMinutes timeZone t (JS.getMinutes timeZone t + delay))
    /\ StopData.delayMinutes d = (if cancelled then 0 else delay)
    /\ StopData.status d = (if cancelled then "cancelled" else getDelayStatus delay)
    /\ StopData.cancelled d = cancelled
    /\ StopData.platform d =
       (if (Stop.order stop =? 1) || (Stop.order stop =? 7)
        then Some (JS.String_of_integer (JS.Math_floor (random (S (S n)) * 3) + 1))
        else None)
    /\ StopData.direction d =
       (if Stop.order stop <=? 3 then Some "Homburg (Saar) Hbf"
        else Some "Zweibrücken Hbf")
    /\ StopData.lineName d = "R7"
    /\ StopData.remarks d = []
    /\ StopData.upcomingDepartures d = []
    /\ StopData.lastUpdated d = now
    /\ StopData.isSimulated d = true.

(** The statuses a snapshot can carry. *)
Definition known_statuses : list string :=
  ["on-time"; "slight-delay"; "delayed"; "heavily-delayed"; "unknown"; "cancelled"].

(** The first stop of the table, a state in which its station is cached,
    and an upstream whose second departure there has a time that does not
    parse. *)
Definition stop_zweibruecken : Stop.t :=
  {| Stop.id := "1"; Stop.name := "Zweibrücken Hauptbahnhof";
     Stop.searchName := "Zweibrücken Hbf"; Stop.hafasId := Some "8000472";
     Stop.order := 1 |}.

Definition state_station_cached : State :=
  {| apiAvailable := Some true;
     stationCache := {[ "Zweibrücken Hbf" := station_found ]};
     requests := 2; draws := 0 |}.

Definition upstream_one_unparsable : HafasClient.t :=
  {| HafasClient.locations := fun _ _ _ => Return [station_found];
     HafasClient.departures :=
       fun _ _ _ _ => Return [departure_cancelled_late; departure_unparsable] |}.

(** ** delay.js: the probe around its [await]

    A call of [checkApiAvailability] runs in two pieces, one up to its
    [await] and one from the answer of the upstream on, and other code of
    the process can run between the two. [checkApiAvailability] above is
    the two pieces back to back, a call that no other call overlaps. *)

(** Where a call of [checkApiAvailability] stands when it first gives way:
    it has returned, or it waits for the answer to its request. *)
Inductive Probe : Type :=
| Answered (available : bool)
| Awaiting (reply : Exn (list Location.t)).

(** Lines 46-55, up to the [await]. *)
Definition checkApiAvailability_begin (hafasClient : option HafasClient.t)
  : State -> Probe * State :=
  fun st =>
    match apiAvailable st with
    | Some available => (Answered available, st)
    | None =>
        match hafasClient with
        | None => (Answered false, set_apiAvailable false st)
        | Some client =>
            (Awaiting (HafasClient.locations client (requests st) "Saarbrücken" 1),
             count_request st)
        end
    end.

(** Lines 56-63, from the answer of the upstream on: the flag is written
    without being read again. *)
Definition checkApiAvailability_settle (reply : Exn (list Location.t))
  : State -> bool * State :=
  fun st =>
    match reply with
    | Return _ => (true, set_apiAvailable true st)
    | Throw _ => (false, set_apiAvailable false st)
    end.

(** The request was answered, not rejected. *)
Definition fulfilled {A} (reply : Exn A) : bool :=
  match reply with
  | Return _ => true
  | Throw _ => false
  end.

(** An upstream that rejects the first request it gets and answers every
    later one. *)
Definition upstream_recovering : HafasClient.t :=
  {| HafasClient.locations :=
       fun n _ _ => if (n =? 0)%nat then Throw "ECONNRESET" else Return [station_found];
     HafasClient.departures := fun _ _ _ _ => Return [] |}.

(** A state in which a station is cached and the flag says that the
    upstream is unavailable, as overlapping probes can leave it. *)
Definition state_cached_unavailable : State :=
  {| apiAvailable := Some false;
     stationCache := {[ "Zweibrücken Hbf" := station_found ]};
     requests := 3; draws := 0 |}.

(** * Properties *)

(** ** The primitives on examples *)

Example Math_round_ties :
  JS.Math_round (5 # 2) = 3 /\ JS.Math_round (-5 # 2) = -2
  /\ JS.Math_round (inject_Z 29 / 60) = 0 /\ JS.Math_round (inject_Z 30 / 60) = 1
  /\ JS.Math_round (inject_Z (-30) / 60) = 0 /\ JS.Math_round (inject_Z (-31) / 60) = -1.
Proof. repeat split. Qed.

Example toLowerCase_example : JS.toLowerCase_latin1 "EINÖD Hbf" = "einöd hbf".
Proof. reflexivity. Qed.

Example toUpperCase_example : JS.toUpperCase "Bus r 7 ü" = "BUS R 7 Ü".
Proof. reflexivity. Qed.

Example includes_example :
  JS.includes "BUS R7" "R7" = true /\ JS.includes "RE7" "R7" = false
  /\ JS.includes "" "" = true /\ JS.includes "R" "R7" = false.
Proof. repeat split. Qed.

Example next_half_hour_example :
  JS.getMinutes (JS.fixed_zone 3600000) (1000 * (3600 * 10 + 60 * 47 + 12) + 345) = 47
  /\ JS.getHours (JS.fixed_zone 3600000) (1000 * (3600 * 10 + 60 * 47 + 12) + 345) = 11.
Proof. split; reflexivity. Qed.

(** ** Status classification *)

Lemma getDelayStatus_on_time m : m <= 0 -> getDelayStatus m = "on-time".
Proof. intros H. unfold getDelayStatus. destruct (Z.leb_spec m 0); [reflexivity | lia]. Qed.

Lemma getDelayStatus_slight m : 1 <= m <= 5 -> getDelayStatus m = "slight-delay".
Proof.
  intros H. unfold getDelayStatus.
  destruct (Z.leb_spec m 0); [lia |].
  destruct (Z.leb_spec m 5); [reflexivity | lia].
Qed.

Lemma getDelayStatus_delayed m : 6 <= m <= 10 -> getDelayStatus m = "delayed".
Proof.
  intros H. unfold getDelayStatus.
  destruct (Z.leb_spec m 0); [lia |].
  destruct (Z.leb_spec m 5); [lia |].
  destruct (Z.leb_spec m 10); [reflexivity | lia].
Qed.

Lemma getDelayStatus_heavy m : 10 < m -> getDelayStatus m = "heavily-delayed".
Proof.
  intros H. unfold getDelayStatus.
  destruct (Z.leb_spec m 0); [lia |].
  destruct (Z.leb_spec m 5); [lia |].
  destruct (Z.leb_spec m 10); [lia | reflexivity].
Qed.

(** Every integer falls in one of the four ranges, with its status. *)
Lemma getDelayStatus_cases m :
  (m <= 0 /\ getDelayStatus m = "on-time") \/
  (1 <= m <= 5 /\ getDelayStatus m = "slight-delay") \/
  (6 <= m <= 10 /\ getDelayStatus m = "delayed") \/
  (10 < m /\ getDelayStatus m = "heavily-delayed").
Proof.
  assert (R : m <= 0 \/ 1 <= m <= 5 \/ 6 <= m <= 10 \/ 10 < m) by lia.
  destruct R as [R | [R | [R | R]]].
  - left. split; [exact R | now apply getDelayStatus_on_time].
  - right; left. split; [exact R | now apply getDelayStatus_slight].
  - right; right; left. split; [exact R | now apply getDelayStatus_delayed].
  - right; right; right. split; [exact R | now apply getDelayStatus_heavy].
Qed.

Ltac by_range m :=
  let R := fresh "R" in
  let E := fresh "E" in
  destruct (getDelayStatus_cases m) as [[R E] | [[R E] | [[R E] | [R E]]]];
  rewrite E in *.

(** C1. [getDelayStatus] is defined on every integer and returns exactly one
    of the four statuses: "on-time" exactly when [m <= 0], "slight-delay"
    exactly when [1 <= m <= 5], "delayed" exactly when [6 <= m <= 10] and
    "heavily-delayed" exactly when [m > 10]; the severity of the status does
    not decrease when [m] grows. *)
Theorem getDelayStatus_classification (m : Z) :
  (getDelayStatus m = "on-time" <-> m <= 0) /\
  (getDelayStatus m = "slight-delay" <-> 1 <= m <= 5) /\
  (getDelayStatus m = "delayed" <-> 6 <= m <= 10) /\
  (getDelayStatus m = "heavily-delayed" <-> 10 < m) /\
  In (getDelayStatus m) delay_statuses /\
  List.NoDup delay_statuses /\
  (forall m', m <= m' -> severity (getDelayStatus m) <= severity (getDelayStatus m')).
Proof.
  split; [| split; [| split; [| split; [| split; [| split]]]]].
  - by_range m; split; intro H; first [ lia | discriminate H | reflexivity ].
  - by_range m; split; intro H; first [ lia | discriminate H | reflexivity ].
  - by_range m; split; intro H; first [ lia | discriminate H | reflexivity ].
  - by_range m; split; intro H; first [ lia | discriminate H | reflexivity ].
  - by_range m; simpl; tauto.
  - unfold delay_statuses.
    repeat (apply List.NoDup_cons; [simpl; intuition discriminate |]).
    apply List.NoDup_nil.
  - intros m' H. by_range m; by_range m'; first [ lia | vm_compute; discriminate ].
Qed.

(** ** The delay calculator *)

(** [calculateDelay] throws exactly on a departure one of whose times does
    not parse. *)
Lemma calculateDelay_throws departure message :
  calculateDelay departure = Throw message ->
  Departure.plannedWhen departure = Some InvalidDate
  \/ Departure.when departure = Some InvalidDate.
Proof.
  unfold calculateDelay.
  destruct (Departure.plannedWhen departure) as [[s |] |];
    destruct (Departure.when departure) as [[a |] |]; simpl;
    intros H; first [ discriminate H | now left | now right ].
Qed.

Lemma calculateDelay_returns departure :
  Departure.plannedWhen departure <> Some InvalidDate ->
  Departure.when departure <> Some InvalidDate ->
  exists record, calculateDelay departure = Return record.
Proof.
  unfold calculateDelay.
  destruct (Departure.plannedWhen departure) as [[s |] |];
    destruct (Departure.when departure) as [[a |] |]; simpl;
    intros H1 H2; first [ congruence | eexists; reflexivity ].
Qed.

(** The two fields of the returned record that the claims relate, in terms
    of the local [delayMinutes]. *)
Lemma calculateDelay_fields departure record :
  calculateDelay departure = Return record ->
  exists scheduled actual,
    toISOString_or_null (Departure.plannedWhen departure) = Return scheduled
    /\ toISOString_or_null (Departure.when departure) = Return actual
    /\ DepartureRecord.delayMinutes record =
       Z.max 0 (computedDelayMinutes (Departure.delay departure) scheduled actual)
    /\ DepartureRecord.status record =
       getDelayStatus (computedDelayMinutes (Departure.delay departure) scheduled actual)
    /\ DepartureRecord.cancelled record = JS.or_false (Departure.cancelled departure).
Proof.
  unfold calculateDelay.
  destruct (toISOString_or_null (Departure.plannedWhen departure)) as [scheduled | ?];
    [| discriminate].
  destruct (toISOString_or_null (Departure.when departure)) as [actual | ?];
    [| discriminate].
  intros H. injection H as <-. exists scheduled, actual. simpl. repeat split.
Qed.

Lemma getDelayStatus_clamp m : getDelayStatus m = getDelayStatus (Z.max 0 m).
Proof.
  destruct (Z.le_gt_cases m 0) as [H | H].
  - rewrite (getDelayStatus_on_time m H). rewrite Z.max_l by exact H. reflexivity.
  - rewrite Z.max_r by lia. reflexivity.
Qed.

(** C9. The record [calculateDelay] returns carries the status of its own
    clamped [delayMinutes], although the status is computed from the value
    before the clamp: the classification does not tell a non-positive
    number from zero. A departure whose times parse always yields a
    record. *)
Theorem calculateDelay_status_consistent (departure : Departure.t) :
  match calculateDelay departure with
  | Return record =>
      DepartureRecord.status record = getDelayStatus (DepartureRecord.delayMinutes record)
  | Throw _ =>
      Departure.plannedWhen departure = Some InvalidDate
      \/ Departure.when departure = Some InvalidDate
  end
  /\ (forall m, getDelayStatus m = getDelayStatus (Z.max 0 m)).
Proof.
  split; [| exact getDelayStatus_clamp].
  destruct (calculateDelay departure) as [record | message] eqn:E.
  - destruct (calculateDelay_fields _ _ E) as (s & a & _ & _ & Hd & Hs & _).
    rewrite Hs, Hd. apply getDelayStatus_clamp.
  - exact (calculateDelay_throws _ _ E).
Qed.

(** The times that [toISOString_or_null] prints are the valid ones. *)
Lemma computed_from_times departure scheduled actual :
  toISOString_or_null (Departure.plannedWhen departure) = Return scheduled ->
  toISOString_or_null (Departure.when departure) = Return actual ->
  computedDelayMinutes None scheduled actual = delay_from_times departure.
Proof.
  unfold delay_from_times.
  destruct (Departure.plannedWhen departure) as [[s |] |];
    destruct (Departure.when departure) as [[a |] |]; simpl;
    intros H1 H2; try discriminate;
    injection H1 as <-; injection H2 as <-; reflexivity.
Qed.

(** C2, as the code has it. The [delayMinutes] of the record is never
    negative; it is the rounded sixtieth of the explicit [delay] when that
    field is present and not zero, and otherwise (field absent, [null] or
    zero) the rounded number of minutes between the scheduled and the actual
    time when both are present, zero when one is missing, clamped at zero in
    every case. A departure whose times parse always yields a record. *)
Theorem calculateDelay_delayMinutes (departure : Departure.t) :
  match calculateDelay departure with
  | Return record =>
      DepartureRecord.delayMinutes record =
        Z.max 0
          (match Departure.delay departure with
           | Some seconds =>
               if seconds =? 0 then delay_from_times departure
               else JS.Math_round (inject_Z seconds / 60)
           | None => delay_from_times departure
           end)
      /\ 0 <= DepartureRecord.delayMinutes record
  | Throw _ =>
      Departure.plannedWhen departure = Some InvalidDate
      \/ Departure.when departure = Some InvalidDate
  end
  /\ (Departure.plannedWhen departure <> Some InvalidDate ->
      Departure.when departure <> Some InvalidDate ->
      exists record, calculateDelay departure = Return record).
Proof.
  split; [| apply calculateDelay_returns].
  destruct (calculateDelay departure) as [record | message] eqn:E.
  - destruct (calculateDelay_fields _ _ E) as (s & a & Hs & Ha & Hd & _ & _).
    rewrite Hd. split; [| apply Z.le_max_l].
    f_equal. rewrite <- (computed_from_times _ _ _ Hs Ha).
    destruct (Departure.delay departure) as [seconds |]; [| reflexivity].
    unfold computedDelayMinutes, JS.truthy_onumber.
    destruct (seconds =? 0); reflexivity.
  - exact (calculateDelay_throws _ _ E).
Qed.

(** C2, as the specification words it, fails on a departure whose explicit
    delay is zero while its times are five minutes apart: the code reads the
    zero as an absent field and reports five minutes. *)
Lemma calculateDelay_zero_delay_counterexample :
  exists record,
    calculateDelay departure_delay_zero_late = Return record
    /\ DepartureRecord.delayMinutes record = 5
    /\ claimed_delayMinutes departure_delay_zero_late = 0
    /\ DepartureRecord.delayMinutes record
       <> claimed_delayMinutes departure_delay_zero_late.
Proof.
  eexists. split; [reflexivity |]. vm_compute. repeat split; discriminate.
Qed.

(** ** Substrings *)

Lemma prefix_app (sub s : string) :
  String.prefix sub s = true <-> exists post, s = (sub ++ post)%string.
Proof.
  revert s. induction sub as [| a sub IH]; intros s.
  - split; [intros _; exists s; reflexivity | intros _; destruct s; reflexivity].
  - destruct s as [| b s]; simpl.
    + split; [discriminate | intros [post H]; discriminate H].
    + destruct (ascii_dec a b) as [-> | Hne].
      * rewrite IH. split; intros [post H]; exists post.
        -- now rewrite H.
        -- now injection H.
      * split; [discriminate |].
        intros [post H]. injection H as H1 H2. congruence.
Qed.

Lemma includes_nil (sub : string) :
  JS.includes "" sub = if String.prefix sub "" then true else false.
Proof. reflexivity. Qed.

Lemma includes_cons (c : ascii) (rest sub : string) :
  JS.includes (String c rest) sub =
  if String.prefix sub (String c rest) then true else JS.includes rest sub.
Proof. reflexivity. Qed.

(** [includes] finds exactly the occurrences of [sub] in [s]. *)
Lemma includes_spec (s sub : string) :
  JS.includes s sub = true <-> exists pre post, s = (pre ++ sub ++ post)%string.
Proof.
  induction s as [| c rest IH].
  - rewrite includes_nil. destruct (String.prefix sub "") eqn:E.
    + split; [intros _ | reflexivity].
      apply prefix_app in E as [post E]. exists "", post. exact E.
    + split; [discriminate |].
      intros (pre & post & H). destruct pre; [| discriminate H].
      assert (String.prefix sub "" = true) by (apply prefix_app; exists post; exact H).
      congruence.
  - rewrite includes_cons. destruct (String.prefix sub (String c rest)) eqn:E.
    + split; [intros _ | reflexivity].
      apply prefix_app in E as [post E]. exists "", post. exact E.
    + rewrite IH. split.
      * intros (pre & post & H). exists (String c pre), post. simpl. now rewrite H.
      * intros (pre & post & H). destruct pre as [| c' pre].
        -- assert (String.prefix sub (String c rest) = true)
             by (apply prefix_app; exists post; exact H).
           congruence.
        -- injection H as _ H. exists pre, post. exact H.
Qed.

(** ** The availability probe never throws *)

Lemma checkApiAvailability_returns hafasClient st :
  exists available st',
    checkApiAvailability hafasClient st = (Return available, st')
    /\ apiAvailable st' = Some available
    /\ draws st' = draws st.
Proof.
  unfold checkApiAvailability, bind, gets. simpl.
  destruct (apiAvailable st) as [b |] eqn:E.
  - exists b, st. auto.
  - destruct hafasClient as [client |]; simpl.
    + unfold try_catch, bind, hafas_locations, modify, ret. simpl.
      destruct (HafasClient.locations client (requests st) "Saarbrücken" 1);
        simpl; eexists _, _; split; reflexivity || (split; reflexivity).
    + eexists _, _. split; [reflexivity |]. split; reflexivity.
Qed.

(** Once the probe has answered, it answers the same without a request. *)
Lemma checkApiAvailability_cached hafasClient st available :
  apiAvailable st = Some available ->
  checkApiAvailability hafasClient st = (Return available, st).
Proof.
  intros H. unfold checkApiAvailability, bind, gets. simpl. rewrite H. reflexivity.
Qed.

(** ** The departure filter *)

(** The boolean filter decides [matchesR7] on the upper-cased label. *)
Lemma isR7Departure_spec (dep : Departure.t) :
  isR7Departure dep = true <-> matchesR7 (lineName dep).
Proof.
  unfold isR7Departure, matchesR7, contains.
  rewrite !orb_true_iff, !includes_spec, !String.eqb_eq. tauto.
Qed.

(** What the fetcher does for every upstream. It always returns a list and
    never throws. When the probe says the upstream is unavailable, or the
    departure request fails, the list is empty. Otherwise it is the
    upstream list, in its order, restricted by [isR7Departure]: to the
    departures whose label, put in upper case, contains "R7" or "R 7"
    somewhere, or is "RE7" or "RB7". *)
Lemma getDeparturesForStation_filter
    (hafasClient : option HafasClient.t) (stationId : string) (duration : Z)
    (st : State) :
  exists kept st',
    getDeparturesForStation hafasClient stationId duration st = (Return kept, st')
    /\ match checkApiAvailability hafasClient st with
       | (Return true, st1) =>
           match hafas_departures hafasClient stationId duration 50 st1 with
           | (Return departures, _) =>
               kept = List.filter isR7Departure departures
               /\ (forall dep, In dep kept <->
                               In dep departures /\ matchesR7 (lineName dep))
           | (Throw _, _) => kept = []
           end
       | _ => kept = []
       end.
Proof.
  unfold getDeparturesForStation, bind.
  destruct (checkApiAvailability_returns hafasClient st) as (b & st1 & -> & _ & _).
  destruct b; simpl.
  - unfold try_catch, bind.
    destruct (hafas_departures hafasClient stationId duration 50 st1)
      as [[departures | message] st2]; simpl.
    + eexists _, _. split; [reflexivity |]. split; [reflexivity |].
      intros dep. rewrite filter_In, isR7Departure_spec. reflexivity.
    + eexists _, _. split; reflexivity.
  - eexists _, _. split; reflexivity.
Qed.

(** C7. The fetcher does not filter for the R7 line only, as its comment
    (line 108) and its docstring (line 94) say and as the specification
    words it: from an upstream whose only departure is of line R70, a
    different line, it returns that departure. The label of the departure,
    "R70", is none of the four variants R7, R 7, RE7 and RB7; the code
    keeps it because it tests the first two variants with [includes], a
    substring test, and "R70" contains "R7". *)
Theorem getDeparturesForStation_keeps_R70 :
  fst (getDeparturesForStation (Some upstream_R70) "8000472" 120 initial_state)
  = Return [departure_R70]
  /\ Departure.line departure_R70
     = Some {| Line.name := Some "R70"; Line.product := Some "bus" |}
  /\ lineName departure_R70 = "R70"
  /\ ~ In "R70" ["R7"; "R 7"; "RE7"; "RB7"]
  /\ claimed_isR7Departure departure_R70 = false
  /\ JS.includes "R70" "R7" = true.
Proof.
  repeat split.
  intros [H | [H | [H | [H | []]]]]; discriminate H.
Qed.

(** ** The synthetic generator *)

(** The callback always returns. It makes two draws, and a third one for
    the platform of a terminus; it leaves the rest of the state alone. *)
Lemma simulateStop_outcome random timeZone now stop st :
  exists s st',
    simulateStop random timeZone now stop st = (Return s, st')
    /\ synthetic stop (random (draws st)) (random (S (draws st))) s
    /\ (S (draws st) < draws st')%nat
    /\ apiAvailable st' = apiAvailable st.
Proof.
  unfold simulateStop, bind, Math_random, ret. simpl.
  destruct ((Stop.order stop =? 1) || (Stop.order stop =? 7)); simpl;
    eexists _, _; (split; [reflexivity |]);
    (split; [| split; [simpl; lia | reflexivity]]);
    eexists; simpl; repeat split; discriminate.
Qed.

(** The generator visits the stops in order, each with draws of its own. *)
Lemma map_M_simulateStop random timeZone now stops st :
  exists ss st',
    map_M (simulateStop random timeZone now) stops st = (Return ss, st')
    /\ Forall2
         (fun stop s =>
            exists n, (draws st <= n)%nat /\ synthetic stop (random n) (random (S n)) s)
         stops ss
    /\ (draws st <= draws st')%nat
    /\ apiAvailable st' = apiAvailable st.
Proof.
  revert st. induction stops as [| stop stops IH]; intros st.
  - exists [], st. simpl. repeat split; [constructor | lia].
  - destruct (simulateStop_outcome random timeZone now stop st)
      as (s & st1 & E1 & Hs & Hd1 & Ha1).
    destruct (IH st1) as (ss & st2 & E2 & Hss & Hd2 & Ha2).
    exists (s :: ss), st2. simpl. unfold bind. rewrite E1, E2. simpl.
    split; [reflexivity |]. split; [| split; [lia | congruence]].
    constructor.
    + exists (draws st). split; [lia | exact Hs].
    + eapply Forall2_impl; [exact Hss |].
      intros stop' s' (n & Hn & H). exists n. split; [lia | exact H].
Qed.

Lemma generateSimulatedData_outcome random clock timeZone st :
  exists ss st',
    generateSimulatedData random clock timeZone st = (Return ss, st')
    /\ Forall2
         (fun stop s =>
            exists n, (draws st <= n)%nat /\ synthetic stop (random n) (random (S n)) s)
         R7_STOPS ss
    /\ apiAvailable st' = apiAvailable st.
Proof.
  unfold generateSimulatedData, bind, Date_now. cbv beta iota.
  destruct (map_M_simulateStop random timeZone (clock (requests st)) R7_STOPS st)
    as (ss & st' & E & H & _ & Ha).
  exists ss, st'. rewrite E. auto.
Qed.

(** ** The real-data loop *)

(** The station lookup swallows every failure. *)
Lemma findStation_returns hafasClient name st :
  exists station st', findStation hafasClient name st = (Return station, st').
Proof.
  unfold findStation, bind.
  destruct (checkApiAvailability_returns hafasClient st) as (b & st1 & -> & _ & _).
  destruct b; cbv beta iota; [| eexists _, _; reflexivity].
  unfold gets, negb. cbv beta iota.
  destruct (stationCache st1 !! name) as [cached |]; [eexists _, _; reflexivity |].
  unfold try_catch, bind.
  destruct (hafas_locations hafasClient name 5 st1) as [[results | message] st2].
  - destruct results as [| first rest]; eexists _, _; reflexivity.
  - eexists _, _; reflexivity.
Qed.

(** So does the departure fetcher. *)
Lemma getDeparturesForStation_returns hafasClient stationId duration st :
  exists kept st',
    getDeparturesForStation hafasClient stationId duration st = (Return kept, st').
Proof.
  unfold getDeparturesForStation, bind.
  destruct (checkApiAvailability_returns hafasClient st) as (b & st1 & -> & _ & _).
  destruct b; cbv beta iota; [| eexists _, _; reflexivity].
  unfold try_catch, bind, negb.
  destruct (hafas_departures hafasClient stationId duration 50 st1)
    as [[departures | message] st2]; eexists _, _; reflexivity.
Qed.

(** Each round of the loop pushes exactly one snapshot, that of its stop:
    an error raised inside the [try] is raised before the push, and the
    [catch] pushes in its place. *)
Lemma processStop_pushes_one hafasClient now stop st results :
  exists st' d,
    processStop hafasClient now stop (st, results)
    = (Return tt, (st', (results ++ [d])%list))
    /\ Snapshot.stopId d = Stop.id stop
    /\ Snapshot.stopOrder d = Stop.order stop.
Proof.
  unfold processStop, try_catch, bind, with_results.
  destruct (findStation_returns hafasClient
              (if JS.truthy_string (Stop.searchName stop)
               then Stop.searchName stop else Stop.name stop) st)
    as (station & st1 & ->).
  cbv beta iota.
  destruct station as [station |].
  - destruct (getDeparturesForStation_returns hafasClient (Location.id station) 120 st1)
      as (kept & st2 & ->).
    cbv beta iota. unfold lift_exn.
    destruct (map_exn calculateDelay kept) as [processed | message];
      cbv beta iota; unfold results_push; eexists _, _;
      (split; [reflexivity | split; reflexivity]).
  - destruct (Stop.hafasId stop) as [hafasId |].
    + destruct (JS.truthy_string hafasId).
      * destruct (getDeparturesForStation_returns hafasClient hafasId 120 st1)
          as (kept & st2 & ->).
        cbv beta iota. unfold lift_exn.
        destruct (map_exn calculateDelay kept) as [processed | message];
          cbv beta iota; unfold results_push; eexists _, _;
          (split; [reflexivity | split; reflexivity]).
      * unfold results_push; eexists _, _; (split; [reflexivity | split; reflexivity]).
    + unfold results_push; eexists _, _; (split; [reflexivity | split; reflexivity]).
Qed.

(** The loop appends one snapshot per stop, in the order of the stops. *)
Lemma for_of_processStop hafasClient now stops st results :
  exists st' pushed,
    for_of stops (processStop hafasClient now) (st, results)
    = (Return tt, (st', (results ++ pushed)%list))
    /\ map Snapshot.stopId pushed = map Stop.id stops
    /\ map Snapshot.stopOrder pushed = map Stop.order stops.
Proof.
  revert st results. induction stops as [| stop stops IH]; intros st results.
  - exists st, []. simpl. rewrite app_nil_r. repeat split.
  - destruct (processStop_pushes_one hafasClient now stop st results)
      as (st1 & d & E1 & Hid & Hord).
    destruct (IH st1 (results ++ [d])%list) as (st2 & pushed & E2 & Hids & Hords).
    exists st2, (d :: pushed). simpl. unfold bind. rewrite E1. cbv beta iota.
    rewrite E2. rewrite <- app_assoc. simpl.
    split; [reflexivity |]. split; congruence.
Qed.

(** Every run of the aggregate resolver returns one snapshot per static
    stop, in the order of the table. *)
Lemma fetchRealDelayData_outcome hafasClient random clock timeZone st :
  exists delays st',
    fetchRealDelayData hafasClient random clock timeZone st = (Return delays, st')
    /\ map Snapshot.stopId delays = map Stop.id R7_STOPS
    /\ map Snapshot.stopOrder delays = map Stop.order R7_STOPS.
Proof.
  unfold fetchRealDelayData, bind.
  destruct (checkApiAvailability_returns hafasClient st) as (b & st1 & -> & _ & _).
  cbv beta iota. destruct b; unfold negb.
  - unfold Date_now. cbv beta iota.
    destruct (for_of_processStop hafasClient (clock (requests st1)) R7_STOPS st1 [])
      as (st2 & pushed & -> & Hids & Hords).
    exists pushed, st2. simpl. auto.
  - destruct (generateSimulatedData_outcome random clock timeZone st1)
      as (ss & st2 & -> & H & _).
    exists ss, st2. split; [reflexivity |].
    clear - H. induction H as [| stop s stops ss (n & _ & d & -> & Hid & Hord & _) _ [IH1 IH2]].
    + split; reflexivity.
    + simpl. rewrite Hid, Hord, IH1, IH2. split; reflexivity.
Qed.

(** The three kinds of round in one run: an error caught, a stop with
    neither station nor static id, a fallback on the static id. *)
Example fetchRealDelayData_mixed :
  exists delays st',
    fetchRealDelayData (Some upstream_mixed) random_half clock_zero JS.zone_UTC initial_state
    = (Return delays, st')
    /\ map Snapshot.stopId delays = ["1"; "2"; "3"; "4"; "5"; "6"; "7"]
    /\ map Snapshot.error delays
       = [Some "Invalid time value"; Some "Station not found in HAFAS";
          Some "Station not found in HAFAS"; Some "Station not found in HAFAS";
          Some "Station not found in HAFAS"; Some "Station not found in HAFAS";
          None].
Proof. eexists _, _. split; [vm_compute; reflexivity |]. split; reflexivity. Qed.

(** The static table: seven stops, numbered 1 to 7 in this order, no two
    with the same number or the same id. *)
Lemma R7_STOPS_orders : map Stop.order R7_STOPS = [1; 2; 3; 4; 5; 6; 7].
Proof. reflexivity. Qed.

Lemma R7_STOPS_order_inj stop stop' :
  In stop R7_STOPS -> In stop' R7_STOPS ->
  Stop.order stop = Stop.order stop' -> stop = stop'.
Proof.
  simpl. intros H H'.
  repeat (destruct H as [<- | H]; [| try contradiction]);
    repeat (destruct H' as [<- | H']; [| try contradiction]);
    simpl; intros E; first [ reflexivity | discriminate E ].
Qed.

(** C3. Every run of [fetchRealDelayData], from any state of the module and
    against any upstream (so in real and in simulated mode, and whatever
    branch each stop takes), returns a list of seven snapshots, one per
    static stop and at the position of that stop: the stop orders read 1 to
    7, ascending, and each snapshot's [stopOrder] is that of exactly one
    static stop. *)
Theorem fetchRealDelayData_one_snapshot_per_stop
    (hafasClient : option HafasClient.t) (random : nat -> Q)
    (clock : nat -> Timestamp) (timeZone : JS.TimeZone) (st : State) :
  exists delays st',
    fetchRealDelayData hafasClient random clock timeZone st = (Return delays, st')
    /\ length delays = 7%nat
    /\ length delays = length R7_STOPS
    /\ map Snapshot.stopOrder delays = map Stop.order R7_STOPS
    /\ map Snapshot.stopId delays = map Stop.id R7_STOPS
    /\ StronglySorted Z.lt (map Snapshot.stopOrder delays)
    /\ (forall d, In d delays ->
          exists! stop, In stop R7_STOPS /\ Stop.order stop = Snapshot.stopOrder d).
Proof.
  destruct (fetchRealDelayData_outcome hafasClient random clock timeZone st)
    as (delays & st' & E & Hids & Hords).
  exists delays, st'. split; [exact E |].
  assert (Hlen : length delays = 7%nat).
  { rewrite <- (length_map Snapshot.stopOrder), Hords. reflexivity. }
  split; [exact Hlen |]. split; [rewrite Hlen; reflexivity |].
  split; [exact Hords |]. split; [exact Hids |]. split.
  - rewrite Hords, R7_STOPS_orders.
    repeat first [ apply SSorted_cons | apply SSorted_nil
                 | apply List.Forall_cons | apply List.Forall_nil ]; lia.
  - intros d Hd.
    assert (Hin : In (Snapshot.stopOrder d) (map Stop.order R7_STOPS)).
    { rewrite <- Hords. apply in_map. exact Hd. }
    apply in_map_iff in Hin as (stop & Hord & Hstop).
    exists stop. split; [split; assumption |].
    intros stop' [Hstop' Hord']. apply R7_STOPS_order_inj; congruence.
Qed.

(** ** Draws *)

Lemma Qfloor_iff (x : Q) (k : Z) :
  Qfloor x = k <-> (inject_Z k <= x < inject_Z (k + 1))%Q.
Proof.
  split.
  - intros <-. split; [apply Qfloor_le | apply Qlt_floor].
  - intros [Hle Hlt].
    pose proof (Qfloor_resp_le _ _ Hle) as H1. rewrite Qfloor_Z in H1.
    pose proof (Qfloor_le x) as H2.
    assert (H3 : (inject_Z (Qfloor x) < inject_Z (k + 1))%Q)
      by (eapply Qle_lt_trans; eassumption).
    rewrite <- Zlt_Qlt in H3. lia.
Qed.

(** [Math.floor(Math.random() * 16)] takes the value [k] exactly on the
    sixteenth of the unit interval that starts at [k/16]. *)
Lemma base_draw_sixteenth (r : Q) (k : Z) :
  JS.Math_floor (r * 16) = k <-> (inject_Z k / 16 <= r < inject_Z (k + 1) / 16)%Q.
Proof.
  unfold JS.Math_floor. rewrite Qfloor_iff, inject_Z_plus.
  change (inject_Z 1) with 1%Q. unfold Qdiv. change (/ 16)%Q with (1 # 16)%Q.
  generalize (inject_Z k). intros x.
  split; intros [H1 H2]; split; lra.
Qed.

Lemma base_draw_range (r : Q) :
  (0 <= r < 1)%Q -> 0 <= JS.Math_floor (r * 16) <= 15.
Proof.
  intros [H0 H1]. unfold JS.Math_floor. split.
  - assert (H : (inject_Z 0 <= r * 16)%Q) by (change (inject_Z 0) with 0%Q; lra).
    apply Qfloor_resp_le in H. rewrite Qfloor_Z in H. exact H.
  - pose proof (Qfloor_le (r * 16)) as Hle.
    assert (H : (inject_Z (Qfloor (r * 16)) < inject_Z 16)%Q).
    { eapply Qle_lt_trans; [exact Hle |]. change (inject_Z 16) with 16%Q. lra. }
    rewrite <- Zlt_Qlt in H. lia.
Qed.

Lemma lt_spec (x y : Q) : JS.lt x y = true <-> (x < y)%Q.
Proof.
  unfold JS.lt. rewrite negb_true_iff.
  split.
  - intros H. apply Qnot_le_lt. intros Hle. apply Qle_bool_iff in Hle. congruence.
  - intros H. destruct (Qle_bool y x) eqn:E; [| reflexivity].
    apply Qle_bool_iff in E. exfalso. eapply Qlt_not_le; eassumption.
Qed.

Lemma synthetic_as_specified stop (r r' : Q) s :
  (0 <= r < 1)%Q -> synthetic stop r r' s -> generated_as_specified r r' s.
Proof.
  intros Hr (d & -> & _ & _ & _ & _ & Hc & Hd & Hs).
  pose proof (base_draw_range r Hr) as Hbase.
  exists d, (JS.Math_floor (r * 16)).
  split; [reflexivity |]. split; [reflexivity |]. split; [exact Hbase |].
  split; [intros k; apply base_draw_sixteenth |].
  split; [rewrite Hc; apply lt_spec |].
  rewrite Hc, Hd, Hs. split.
  - intros ->. split; reflexivity.
  - intros ->. split; [reflexivity |]. split; [| reflexivity].
    destruct (Z.ltb_spec (JS.Math_floor (r * 16)) 5); [left; reflexivity | right; lia].
Qed.

Lemma simulateStop_draws random timeZone now stop st :
  draws (snd (simulateStop random timeZone now stop st))
  = (draws st + draws_for stop)%nat.
Proof.
  unfold simulateStop, bind, Math_random, ret, draws_for. cbv beta iota.
  destruct ((Stop.order stop =? 1) || (Stop.order stop =? 7)); simpl; lia.
Qed.

Lemma map_M_simulateStop_in_order random timeZone now stops st :
  (forall n, (0 <= random n < 1)%Q) ->
  exists ss st',
    map_M (simulateStop random timeZone now) stops st = (Return ss, st')
    /\ generated_in_order random (draws st) stops ss
    /\ draws st' = (draws st + list_sum (map draws_for stops))%nat.
Proof.
  intros Hrandom. revert st. induction stops as [| stop stops IH]; intros st.
  - exists [], st. simpl. repeat split. lia.
  - destruct (simulateStop_outcome random timeZone now stop st)
      as (s & st1 & E1 & Hs & _ & _).
    pose proof (simulateStop_draws random timeZone now stop st) as Hd1.
    rewrite E1 in Hd1. cbn [snd] in Hd1.
    destruct (IH st1) as (ss & st2 & E2 & Hss & Hd2).
    exists (s :: ss), st2. simpl map_M. unfold bind. rewrite E1. cbv beta iota.
    rewrite E2. cbv beta iota.
    split; [reflexivity |]. split; [| simpl; lia].
    cbn [generated_in_order].
    assert (Hids : Snapshot.stopId s = Stop.id stop
                   /\ Snapshot.stopOrder s = Stop.order stop).
    { destruct Hs as (d & -> & Hid & Hord & _). simpl. auto. }
    destruct Hids as [Hid Hord].
    split; [exact Hid |]. split; [exact Hord |].
    split; [eapply synthetic_as_specified; [apply Hrandom | exact Hs] |].
    rewrite <- Hd1. exact Hss.
Qed.

(** C6. The synthetic generator always returns, with one snapshot for each
    of the seven stops, in the order of the table, and each snapshot is as
    the specification says for the draws made for its stop, provided
    [Math.random] keeps to its range. The draws of a stop are the two that
    follow the draws of the stops before it (sixteen draws in all, the
    termini taking a third one for the platform): from the first, [r], the
    base value is [floor (16 r)], in 0..15, each value on its own sixteenth
    of the unit interval; from the second, the snapshot is cancelled
    exactly when the draw is below 0.05. A cancelled snapshot has delay 0
    and status "cancelled" whatever the base value; one that is not
    cancelled has delay 0 or 5..15, the base value collapsed to 0 below 5,
    and the status that [getDelayStatus] gives to that delay. *)
Theorem generateSimulatedData_as_specified
    (random : nat -> Q) (clock : nat -> Timestamp) (timeZone : JS.TimeZone) (st : State) :
  (forall n, (0 <= random n < 1)%Q) ->
  exists snapshots st',
    generateSimulatedData random clock timeZone st = (Return snapshots, st')
    /\ length snapshots = 7%nat
    /\ generated_in_order random (draws st) R7_STOPS snapshots
    /\ draws st' = (draws st + 16)%nat.
Proof.
  intros Hrandom. unfold generateSimulatedData, bind, Date_now. cbv beta iota.
  destruct (map_M_simulateStop_in_order random timeZone (clock (requests st))
              R7_STOPS st Hrandom) as (ss & st' & E & H & Hd).
  exists ss, st'. split; [exact E |]. split; [| split; [exact H | exact Hd]].
  pose proof (map_M_simulateStop random timeZone (clock (requests st)) R7_STOPS st)
    as (ss' & st'' & E' & H' & _).
  rewrite E in E'. injection E' as <- <-.
  symmetry. apply (Forall2_length _ _ _ H').
Qed.

(** C6 on a source of draws that always returns one half, from the state of
    a freshly loaded module. *)
Lemma generateSimulatedData_as_specified_witness :
  (forall n, (0 <= random_half n < 1)%Q)
  /\ exists snapshots st',
       generateSimulatedData random_half clock_zero JS.zone_UTC initial_state
       = (Return snapshots, st')
       /\ length snapshots = 7%nat
       /\ generated_in_order random_half (draws initial_state) R7_STOPS snapshots
       /\ draws st' = (draws initial_state + 16)%nat.
Proof.
  split.
  - intros n. unfold random_half. split; [discriminate | reflexivity].
  - apply (generateSimulatedData_as_specified random_half clock_zero JS.zone_UTC initial_state).
    intros n. unfold random_half. split; [discriminate | reflexivity].
Defined.

(** ** Lookup of one stop *)

(** The ids of the static table. *)
Lemma R7_STOPS_ids : map Stop.id R7_STOPS = ["1"; "2"; "3"; "4"; "5"; "6"; "7"].
Proof. reflexivity. Qed.

(** A linear search by id finds nothing exactly when no element has the
    id, and otherwise the first element that has it. *)
Lemma find_stopId_None (delays : list Snapshot.t) (stopId : string) :
  ~ In stopId (map Snapshot.stopId delays) ->
  find (fun d => String.eqb (Snapshot.stopId d) stopId) delays = None.
Proof.
  induction delays as [| d delays IH]; simpl; [reflexivity |].
  intros H. destruct (String.eqb_spec (Snapshot.stopId d) stopId) as [E | _].
  - exfalso. apply H. left. exact E.
  - apply IH. intros Hin. apply H. right. exact Hin.
Qed.

Lemma find_stopId_Some (delays : list Snapshot.t) (stopId : string) :
  In stopId (map Snapshot.stopId delays) ->
  exists d,
    find (fun d => String.eqb (Snapshot.stopId d) stopId) delays = Some d
    /\ Snapshot.stopId d = stopId /\ In d delays.
Proof.
  induction delays as [| d delays IH]; simpl; [contradiction |].
  intros H. destruct (String.eqb_spec (Snapshot.stopId d) stopId) as [E | Hne].
  - exists d. auto.
  - destruct H as [H | H]; [contradiction |].
    destruct (IH H) as (d' & Hfind & Hid & Hin). exists d'. auto.
Qed.

Lemma getDelayByStopId_outcome hafasClient random clock timeZone stopId st :
  exists delays st',
    fetchRealDelayData hafasClient random clock timeZone st = (Return delays, st')
    /\ map Snapshot.stopId delays = map Stop.id R7_STOPS
    /\ getDelayByStopId hafasClient random clock timeZone stopId st
       = (Return (find (fun d => String.eqb (Snapshot.stopId d) stopId) delays), st').
Proof.
  destruct (fetchRealDelayData_outcome hafasClient random clock timeZone st)
    as (delays & st' & E & Hids & _).
  exists delays, st'. split; [exact E |]. split; [exact Hids |].
  unfold getDelayByStopId, bind. rewrite E. reflexivity.
Qed.

(** C8. For every stop id, from any state and against any upstream: the
    single-stop lookup searches the list that [fetchRealDelayData] produced
    from the front. When the id is not in the static stop list it returns
    [null], and the handler of /api/delays/:stopId answers 404 with
    [{success: false, error: "Stop not found"}]. When the id is in the
    static list it returns the snapshot of the list whose [stopId] is that
    id, and the handler answers 200 with that snapshot. *)
Theorem getDelayByStop_lookup
    (hafasClient : option HafasClient.t) (random : nat -> Q)
    (clock : nat -> Timestamp) (timeZone : JS.TimeZone) (stopId : string) (st : State) :
  (exists delays st',
     fetchRealDelayData hafasClient random clock timeZone st = (Return delays, st')
     /\ getDelayByStopId hafasClient random clock timeZone stopId st
        = (Return (find (fun d => String.eqb (Snapshot.stopId d) stopId) delays), st')
     /\ (~ In stopId (map Stop.id R7_STOPS) ->
         find (fun d => String.eqb (Snapshot.stopId d) stopId) delays = None)
     /\ (In stopId (map Stop.id R7_STOPS) ->
         exists d,
           find (fun d => String.eqb (Snapshot.stopId d) stopId) delays = Some d
           /\ Snapshot.stopId d = stopId /\ In d delays))
  /\ (~ In stopId (map Stop.id R7_STOPS) ->
      exists st',
        getDelayByStop hafasClient random clock timeZone stopId st
        = (Return {| status := 404; json := ErrorBody false "Stop not found" None |},
           st'))
  /\ (In stopId (map Stop.id R7_STOPS) ->
      exists d dataSource isRealData timestamp st',
        getDelayByStop hafasClient random clock timeZone stopId st
        = (Return {| status := 200;
                     json := StopBody true "R7" dataSource isRealData d timestamp |},
           st')
        /\ Snapshot.stopId d = stopId).
Proof.
  split; [| split].
  - destruct (getDelayByStopId_outcome hafasClient random clock timeZone stopId st)
      as (delays & st' & E & Hids & Hget).
    exists delays, st'. split; [exact E |]. split; [exact Hget |]. split.
    + intros H. apply find_stopId_None. rewrite Hids. exact H.
    + intros H. apply find_stopId_Some. rewrite Hids. exact H.
  - intros H. unfold getDelayByStop, try_catch, bind, isUsingRealData.
    destruct (checkApiAvailability_returns hafasClient st) as (b & st0 & -> & _ & _).
    cbv beta iota.
    destruct (getDelayByStopId_outcome hafasClient random clock timeZone stopId st0)
      as (delays & st' & _ & Hids & ->).
    cbv beta iota. rewrite find_stopId_None by (rewrite Hids; exact H).
    eexists. reflexivity.
  - intros H. unfold getDelayByStop, try_catch, bind, isUsingRealData.
    destruct (checkApiAvailability_returns hafasClient st) as (b & st0 & -> & _ & _).
    cbv beta iota.
    destruct (getDelayByStopId_outcome hafasClient random clock timeZone stopId st0)
      as (delays & st' & _ & Hids & ->).
    cbv beta iota.
    destruct (find_stopId_Some delays stopId) as (d & -> & Hid & _);
      [rewrite Hids; exact H |].
    unfold Date_now, ret. cbv beta iota.
    eexists d, _, b, _, _. split; [reflexivity | exact Hid].
Qed.

(** ** Station search *)


(** Induction on a string, two characters at a time. *)
Lemma string_ind2 (P : string -> Prop) :
  P "" -> (forall c, P (String c "")) ->
  (forall c d rest, P rest -> P (String d rest) -> P (String c (String d rest))) ->
  forall s, P s.
Proof.
  intros H0 H1 H2 s.
  enough (H : P s /\ forall c, P (String c s)) by apply H.
  induction s as [| d rest [IH1 IH2]].
  - split; [exact H0 | exact H1].
  - split; [apply IH2 |]. intros c. apply H2; [exact IH1 | apply IH2].
Qed.





Lemma append_cons (x : ascii) (a b : string) :
  (String x a ++ b = String x (a ++ b))%string.
Proof. reflexivity. Qed.

Lemma append_nil (b : string) : ("" ++ b = b)%string.
Proof. reflexivity. Qed.



Lemma code_points_latin1_cons (c : ascii) (rest : string) :
  code_points_latin1 (String c rest)
  = if (nat_of_ascii c <? 128)%nat
    then option_map (cons (nat_of_ascii c)) (code_points_latin1 rest)
    else
      match rest with
      | String d rest' =>
          if ((nat_of_ascii c =? 194)%nat || (nat_of_ascii c =? 195)%nat)
             && (128 <=? nat_of_ascii d)%nat && (nat_of_ascii d <=? 191)%nat
          then option_map (cons ((nat_of_ascii c - 194) * 64 + nat_of_ascii d)%nat)
                 (code_points_latin1 rest')
          else None
      | EmptyString => None
      end.
Proof. reflexivity. Qed.

(** Reading the code points of a string and writing them back. *)
Lemma code_points_latin1_utf8 (s : string) (a : list nat) :
  code_points_latin1 s = Some a ->
  s = utf8_of a /\ List.Forall (fun c => (c < 256)%nat) a.
Proof.
  revert a. induction s as [| c | c d rest IH1 IH2] using string_ind2; intros a.
  - simpl. intros H. injection H as <-. split; [reflexivity | constructor].
  - cbn [code_points_latin1]. pose proof (nat_ascii_bounded c) as Hc.
    destruct (Nat.ltb_spec (nat_of_ascii c) 128) as [Hlow | Hhigh]; [| discriminate].
    cbn [code_points_latin1 option_map]. intros H. assert (a = [nat_of_ascii c]) as -> by congruence. clear H. cbn [utf8_of]. unfold utf8_latin1.
    destruct (Nat.ltb_spec (nat_of_ascii c) 128) as [_ | Hhigh]; [| lia].
    rewrite ascii_nat_embedding. split; [reflexivity |].
    constructor; [exact Hc | constructor].
  - rewrite code_points_latin1_cons.
    pose proof (nat_ascii_bounded c) as Hc. pose proof (nat_ascii_bounded d) as Hd.
    destruct (Nat.ltb_spec (nat_of_ascii c) 128) as [Hlow | Hhigh].
    + destruct (code_points_latin1 (String d rest)) as [a' |] eqn:E;
        cbn [option_map]; [| discriminate].
      intros H. injection H as <-.
      destruct (IH2 a' eq_refl) as [Hs Hvalid]. cbn [utf8_of]. unfold utf8_latin1.
      destruct (Nat.ltb_spec (nat_of_ascii c) 128) as [_ | Hhigh]; [| lia].
      rewrite ascii_nat_embedding, append_cons, append_nil, <- Hs.
      split; [reflexivity | constructor; assumption].
    + destruct (((nat_of_ascii c =? 194)%nat || (nat_of_ascii c =? 195)%nat)
                && (128 <=? nat_of_ascii d)%nat && (nat_of_ascii d <=? 191)%nat) eqn:Hlead;
        [| discriminate].
      destruct (code_points_latin1 rest) as [a' |] eqn:E;
        cbn [option_map]; [| discriminate].
      intros H. injection H as <-.
      destruct (IH1 a' eq_refl) as [Hs Hvalid].
      apply andb_true_iff in Hlead as [Hlead Hd2].
      apply andb_true_iff in Hlead as [Hlead Hd1].
      apply Nat.leb_le in Hd1, Hd2.
      cbn [utf8_of]. unfold utf8_latin1. rewrite <- Hs.
      apply orb_true_iff in Hlead as [Hlead | Hlead]; apply Nat.eqb_eq in Hlead.
      * replace ((nat_of_ascii c - 194) * 64 + nat_of_ascii d)%nat
          with (nat_of_ascii d) by lia.
        destruct (Nat.ltb_spec (nat_of_ascii d) 128) as [Hlt | _]; [lia |].
        destruct (Nat.ltb_spec (nat_of_ascii d) 192) as [_ | Hge]; [| lia].
        split; [| constructor; [lia | assumption]].
        replace (ascii_of_nat 194) with c
          by (rewrite <- Hlead; symmetry; apply ascii_nat_embedding).
        rewrite ascii_nat_embedding. reflexivity.
      * replace ((nat_of_ascii c - 194) * 64 + nat_of_ascii d)%nat
          with (64 + nat_of_ascii d)%nat by lia.
        destruct (Nat.ltb_spec (64 + nat_of_ascii d) 128) as [Hlt | _]; [lia |].
        destruct (Nat.ltb_spec (64 + nat_of_ascii d) 192) as [Hlt | _]; [lia |].
        replace (64 + nat_of_ascii d - 64)%nat with (nat_of_ascii d) by lia.
        split; [| constructor; [lia | assumption]].
        replace (ascii_of_nat 195) with c
          by (rewrite <- Hlead; symmetry; apply ascii_nat_embedding).
        rewrite ascii_nat_embedding. reflexivity.
Qed.





(** The UTF-8 form of a code point up to U+00FF: one byte below 0x80, or a
    lead byte 0xC2 or 0xC3 and a continuation byte from 0x80 to 0xBF. *)
Lemma utf8_latin1_cases (c : nat) :
  (c < 256)%nat ->
  ((c < 128)%nat /\ utf8_latin1 c = String (ascii_of_nat c) "")
  \/ (exists lead tail,
        (128 <= c)%nat /\ (194 <= lead <= 195)%nat /\ (128 <= tail <= 191)%nat
        /\ c = ((lead - 194) * 64 + tail)%nat
        /\ utf8_latin1 c = String (ascii_of_nat lead) (String (ascii_of_nat tail) "")).
Proof.
  intros Hc. unfold utf8_latin1.
  destruct (Nat.ltb_spec c 128); [left; split; [assumption | reflexivity] |].
  right. destruct (Nat.ltb_spec c 192).
  - exists 194%nat, c. repeat split; lia.
  - exists 195%nat, (c - 64)%nat. repeat split; lia.
Qed.





(** The lower-casing that knows the KELVIN SIGN agrees with the table on
    strings of code points up to U+00FF, which do not hold the sign. *)
Lemma kelvin_to_k_cons (c : ascii) (rest : string) :
  nat_of_ascii c <> 226%nat ->
  kelvin_to_k (String c rest) = String c (kelvin_to_k rest).
Proof.
  intros H. apply Nat.eqb_neq in H.
  destruct rest as [| d [| e rest]]; cbn [kelvin_to_k]; rewrite ?H; reflexivity.
Qed.

Lemma kelvin_to_k_utf8_of (a : list nat) :
  List.Forall (fun c => (c < 256)%nat) a -> kelvin_to_k (utf8_of a) = utf8_of a.
Proof.
  induction 1 as [| c a Hc _ IH]; [reflexivity |].
  cbn [utf8_of].
  destruct (utf8_latin1_cases c Hc) as [(Hc1 & ->) | (l & t & _ & Hl & Ht & _ & ->)];
    rewrite ?append_cons, ?append_nil.
  - rewrite kelvin_to_k_cons, IH; [reflexivity |].
    rewrite nat_ascii_embedding; lia.
  - rewrite !kelvin_to_k_cons, IH; [reflexivity | |];
      rewrite nat_ascii_embedding; lia.
Qed.

Lemma toLowerCase_with_kelvin_latin1 (s : string) :
  is_latin1 s -> toLowerCase_with_kelvin s = JS.toLowerCase_latin1 s.
Proof.
  unfold is_latin1, toLowerCase_with_kelvin. intros H.
  destruct (code_points_latin1 s) as [a |] eqn:E; [| contradiction].
  destruct (code_points_latin1_utf8 s a E) as [-> Ha].
  rewrite kelvin_to_k_utf8_of by exact Ha. reflexivity.
Qed.





(** With no client the upstream is unavailable; a query in capitals, with
    a letter outside the Basic Latin block, finds its stop, and a query
    that occurs in no name finds none. *)
Example searchStations_offline_example :
  fst (searchStations None JS.toLowerCase_latin1 "EINÖ" initial_state)
  = Return [ {| SearchResult.id := "3"; SearchResult.name := "Einöd";
                SearchResult.type := "stop"; SearchResult.location := None |} ]
  /\ fst (searchStations None JS.toLowerCase_latin1 "hbf" initial_state) = Return []
  /\ fst (checkApiAvailability None initial_state) = Return false.
Proof. repeat split. Qed.

(** A query beyond U+00FF: with a lower-casing that maps the KELVIN SIGN
    to k, as the engine does, the query U+212A "e" finds the two stops of
    Zweibrücken. *)
Example searchStations_offline_kelvin :
  fst (searchStations None toLowerCase_with_kelvin "Ke" initial_state)
  = Return [ {| SearchResult.id := "8000472";
                SearchResult.name := "Zweibrücken Hauptbahnhof";
                SearchResult.type := "stop"; SearchResult.location := None |};
             {| SearchResult.id := "2";
                SearchResult.name := "Zweibrücken Rosengarten";
                SearchResult.type := "stop"; SearchResult.location := None |} ].
Proof. reflexivity. Qed.

(** The same query with the table alone, which leaves the sign as it is,
    finds nothing: beyond U+00FF the table is not the function of the
    engine. *)
Example searchStations_offline_kelvin_table :
  fst (searchStations None JS.toLowerCase_latin1 "Ke" initial_state) = Return []
  /\ ~ is_latin1 "Ke".
Proof. split; [reflexivity | intros H; apply H; reflexivity]. Qed.

(** ** Route summary *)

(** The snapshots of the statistics: those of the list with no error and
    with a scheduled departure. All of them have data. *)
Lemma validDelays_In (delays : list Snapshot.t) (d : Snapshot.t) :
  In d (validDelays delays) <->
  In d delays /\ ~ has_error d /\ Snapshot.scheduledDeparture d <> None.
Proof.
  unfold validDelays. rewrite filter_In, andb_true_iff, negb_true_iff, bool_decide_eq_true.
  unfold has_error, JS.truthy_ostring, JS.truthy_string.
  split; intros (Hin & H1 & H2); (split; [exact Hin |]); split.
  - intros (message & E & Hne). rewrite E in H1.
    apply negb_false_iff, String.eqb_eq in H1. contradiction.
  - intros E. rewrite E in H2. destruct H2 as [x H2]. discriminate H2.
  - destruct (Snapshot.error d) as [message |]; [| reflexivity].
    apply negb_false_iff, String.eqb_eq.
    destruct (string_dec message "") as [E | Hne]; [exact E |].
    exfalso. apply H1. exists message. auto.
  - destruct (Snapshot.scheduledDeparture d) as [t |]; [eexists; reflexivity | congruence].
Qed.

Lemma validDelays_data (delays : list Snapshot.t) (d : Snapshot.t) :
  In d (validDelays delays) -> exists data, d = Snapshot.Data data.
Proof.
  intros H. apply validDelays_In in H as (_ & _ & H).
  destruct d as [data | e]; [exists data; reflexivity | contradiction H; reflexivity].
Qed.

(** The [reduce] of the handler is the sum of the delays. *)
Lemma fold_left_sum (ds : list Snapshot.t) (acc : Z) :
  fold_left (fun sum d => sum + Snapshot.delayMinutes d) ds acc
  = acc + sum_of (map Snapshot.delayMinutes ds).
Proof.
  revert acc. induction ds as [| d ds IH]; intros acc; simpl.
  - lia.
  - rewrite IH. unfold sum_of. simpl. lia.
Qed.

Lemma totalDelays_sum (delays : list Snapshot.t) :
  totalDelays delays = sum_of (map Snapshot.delayMinutes (validDelays delays)).
Proof. unfold totalDelays. rewrite fold_left_sum. lia. Qed.

(** [Math.max(...)] returns an element of its arguments that bounds all. *)
Lemma Math_max_spec (x : Z) (xs : list Z) :
  In (JS.Math_max x xs) (x :: xs) /\ (forall y, In y (x :: xs) -> y <= JS.Math_max x xs).
Proof.
  unfold JS.Math_max. revert x. induction xs as [| z xs IH]; intros x; simpl.
  - split; [left; reflexivity | intros y [<- | []]; lia].
  - destruct (IH (Z.max x z)) as [Hin Hmax]. split.
    + destruct Hin as [E | Hin]; [| right; right; exact Hin].
      rewrite <- E. destruct (Z.max_spec x z) as [[_ ->] | [_ ->]]; auto.
    + intros y [<- | [<- | Hy]].
      * etransitivity; [| apply Hmax; left; reflexivity]. lia.
      * etransitivity; [| apply Hmax; left; reflexivity]. lia.
      * apply Hmax. right. exact Hy.
Qed.

(** The statistics of [routeSummary], read off the snapshots they count. *)
Lemma routeSummary_fields (delays : list Snapshot.t) :
  let valid := validDelays delays in
  let summary := routeSummary delays in
  Summary.totalStops summary = Z.of_nat (length delays)
  /\ Summary.stopsWithData summary = Z.of_nat (length valid)
  /\ Summary.averageDelayMinutes summary =
     match valid with
     | [] => 0
     | _ :: _ =>
         JS.Math_round (inject_Z (sum_of (map Snapshot.delayMinutes valid))
                        / inject_Z (Z.of_nat (length valid)))
     end
  /\ match valid with
     | [] => Summary.maxDelayMinutes summary = 0
     | _ :: _ =>
         (exists d, In d valid
                    /\ Snapshot.delayMinutes d = Summary.maxDelayMinutes summary)
         /\ (forall d, In d valid ->
                       Snapshot.delayMinutes d <= Summary.maxDelayMinutes summary)
     end
  /\ Summary.stopsOnTime summary =
     Z.of_nat (length (List.filter (fun d => Snapshot.delayMinutes d =? 0) valid))
  /\ Summary.onTimePercentage summary =
     match valid with
     | [] => 0
     | _ :: _ =>
         JS.Math_round (inject_Z (Summary.stopsOnTime summary)
                        / inject_Z (Z.of_nat (length valid)) * 100)
     end
  /\ Summary.cancelledServices summary =
     Z.of_nat (length (List.filter
                         (fun d => bool_decide (Snapshot.cancelled d = Some true))
                         delays)).
Proof.
  intros valid summary. subst summary. unfold routeSummary. simpl.
  split; [reflexivity |]. split; [reflexivity |]. split; [| split; [| split; [| split]]].
  - unfold averageDelay. rewrite totalDelays_sum. fold valid.
    destruct valid; reflexivity.
  - unfold maxDelay. fold valid. destruct valid as [| d0 valid']; [reflexivity |].
    cbn [map].
    destruct (Math_max_spec (Snapshot.delayMinutes d0) (map Snapshot.delayMinutes valid'))
      as [Hin Hmax].
    split.
    + change (In (JS.Math_max (Snapshot.delayMinutes d0)
                    (map Snapshot.delayMinutes valid'))
                 (map Snapshot.delayMinutes (d0 :: valid'))) in Hin.
      apply in_map_iff in Hin as (d & E & Hd). exists d. auto.
    + intros d Hd. apply Hmax.
      change (In (Snapshot.delayMinutes d) (map Snapshot.delayMinutes (d0 :: valid'))).
      apply in_map. exact Hd.
  - reflexivity.
  - unfold onTimePercentage, onTimeCount. fold valid. destruct valid; reflexivity.
  - unfold cancelledCount. do 2 f_equal. apply filter_ext. intros d.
    destruct (Snapshot.cancelled d) as [[|] |]; reflexivity.
Qed.

(** C4, as the code has it. The handler of /api/summary always answers 200
    with the summary of the list it fetched. The average delay, the
    maximum delay, the on-time count and the on-time percentage are taken
    over exactly the snapshots that carry no error and have a scheduled
    departure: a snapshot is left out of them if and only if it carries an
    error or has no scheduled departure. The cancelled count is taken over
    the whole list. The average and the percentage are rounded integers,
    and 0 when no snapshot is counted. *)
Theorem getRouteSummary_statistics
    (hafasClient : option HafasClient.t) (random : nat -> Q)
    (clock : nat -> Timestamp) (timeZone : JS.TimeZone) (st : State) :
  exists delays isRealData dataSource timestamp st0 st',
    isUsingRealData hafasClient st = (Return isRealData, st0)
    /\ fetchRealDelayData hafasClient random clock timeZone st0
       = (Return delays, st')
    /\ getRouteSummary hafasClient random clock timeZone st
       = (Return {| status := 200;
                    json := SummaryBody true "R7" "Zweibrücken - Homburg (Saarland)"
                              dataSource isRealData (routeSummary delays) timestamp |},
          st')
    /\ (forall d, In d (validDelays delays) <->
                  In d delays /\ ~ has_error d /\ Snapshot.scheduledDeparture d <> None)
    /\ let valid := validDelays delays in
       let summary := routeSummary delays in
       Summary.stopsWithData summary = Z.of_nat (length valid)
       /\ Summary.averageDelayMinutes summary =
          match valid with
          | [] => 0
          | _ :: _ =>
              JS.Math_round (inject_Z (sum_of (map Snapshot.delayMinutes valid))
                             / inject_Z (Z.of_nat (length valid)))
          end
       /\ match valid with
          | [] => Summary.maxDelayMinutes summary = 0
          | _ :: _ =>
              (exists d, In d valid
                         /\ Snapshot.delayMinutes d = Summary.maxDelayMinutes summary)
              /\ (forall d, In d valid ->
                            Snapshot.delayMinutes d <= Summary.maxDelayMinutes summary)
          end
       /\ Summary.stopsOnTime summary =
          Z.of_nat (length (List.filter (fun d => Snapshot.delayMinutes d =? 0) valid))
       /\ Summary.onTimePercentage summary =
          match valid with
          | [] => 0
          | _ :: _ =>
              JS.Math_round (inject_Z (Summary.stopsOnTime summary)
                             / inject_Z (Z.of_nat (length valid)) * 100)
          end
       /\ Summary.cancelledServices summary =
          Z.of_nat (length (List.filter
                              (fun d => bool_decide (Snapshot.cancelled d = Some true))
                              delays)).
Proof.
  destruct (checkApiAvailability_returns hafasClient st) as (b & st0 & E0 & _ & _).
  destruct (fetchRealDelayData_outcome hafasClient random clock timeZone st0)
    as (delays & st' & E1 & _ & _).
  exists delays, b. eexists _, _. exists st0, st'.
  split; [exact E0 |]. split; [exact E1 |]. split.
  - unfold getRouteSummary, try_catch, bind. unfold isUsingRealData in *.
    rewrite E0. cbv beta iota. rewrite E1. reflexivity.
  - split; [intros d; apply validDelays_In |].
    pose proof (routeSummary_fields delays) as H. cbv zeta in H |- *. tauto.
Qed.

(** C4, as the specification words it, fails when the upstream knows the
    stations and has no departure of the line: no snapshot carries an
    error, and none is counted in the statistics. *)
Lemma getRouteSummary_drops_stops_without_departure :
  exists delays st',
    fetchRealDelayData (Some upstream_no_departures) random_half clock_zero JS.zone_UTC
      initial_state = (Return delays, st')
    /\ length delays = 7%nat
    /\ Forall (fun d => Snapshot.error d = None) delays
    /\ claimed_validDelays delays = delays
    /\ validDelays delays = []
    /\ Summary.stopsWithData (routeSummary delays) = 0.
Proof.
  eexists _, _. split; [vm_compute; reflexivity |].
  split; [reflexivity |]. split; [| repeat split].
  repeat (apply List.Forall_cons; [reflexivity |]). apply List.Forall_nil.
Qed.

(** ** Cancelled departures in the summary *)

(** In simulated mode a cancelled snapshot has delay 0, so it adds nothing
    to the total. *)
Lemma synthetic_cancelled_adds_nothing stop (r r' : Q) s :
  synthetic stop r r' s ->
  Snapshot.cancelled s = Some true -> Snapshot.delayMinutes s = 0.
Proof.
  intros (d & -> & _ & _ & _ & _ & Hc & Hd & _). simpl.
  intros H. injection H as H. rewrite Hc in H. rewrite Hd, H. reflexivity.
Qed.

(** C5, in real mode, on an upstream whose next departure at every stop is
    cancelled and reported ten minutes late: each of the seven snapshots is
    cancelled, is counted in the statistics, and carries a delay of ten
    minutes; the total is 70 and the average 10, while the seven stops are
    counted as cancelled. The real-data path does not do what the synthetic
    generator does for a cancelled stop. *)
Theorem cancelled_departure_adds_to_total :
  exists delays st',
    fetchRealDelayData (Some upstream_cancelled_late) random_half clock_zero JS.zone_UTC
      initial_state = (Return delays, st')
    /\ Forall
         (fun d =>
            Snapshot.cancelled d = Some true
            /\ Snapshot.delayMinutes d = 10
            /\ In d (validDelays delays))
         delays
    /\ totalDelays delays = 70
    /\ Summary.averageDelayMinutes (routeSummary delays) = 10
    /\ Summary.cancelledServices (routeSummary delays) = 7.
Proof.
  eexists _, _. split; [vm_compute; reflexivity |].
  split; [| repeat split].
  repeat (apply List.Forall_cons;
          [split; [reflexivity | split; [reflexivity | simpl; tauto]] |]).
  apply List.Forall_nil.
Qed.

(** * Further properties of the code *)

(** ** How the state evolves *)

Lemma evolves_refl st : evolves st st.
Proof. unfold evolves. repeat split; auto. Qed.

Lemma evolves_trans st1 st2 st3 : evolves st1 st2 -> evolves st2 st3 -> evolves st1 st3.
Proof.
  intros (A1 & C1 & R1 & D1) (A2 & C2 & R2 & D2). unfold evolves.
  split; [auto |]. split; [etransitivity; eassumption |]. split; lia.
Qed.

(** The probe in full: its answer is stored; a stored answer is returned
    as it is; at most one request is made; the cache is left alone. *)
Lemma checkApiAvailability_outcome hafasClient st :
  exists available st',
    checkApiAvailability hafasClient st = (Return available, st')
    /\ apiAvailable st' = Some available
    /\ stationCache st' = stationCache st
    /\ draws st' = draws st
    /\ (requests st <= requests st' <= S (requests st))%nat
    /\ (forall b, apiAvailable st = Some b -> available = b /\ st' = st)
    /\ (hafasClient = None -> requests st' = requests st).
Proof.
  unfold checkApiAvailability, bind, gets. cbv beta iota.
  destruct (apiAvailable st) as [b |] eqn:E.
  - exists b, st. repeat split; auto; try lia; try (intros; congruence).
  - destruct hafasClient as [client |].
    + unfold try_catch, bind, hafas_locations, modify, ret. cbv beta iota.
      destruct (HafasClient.locations client (requests st) "Saarbrücken" 1);
        cbv beta iota; eexists _, _; (split; [reflexivity |]); simpl;
        repeat split; auto; try lia; try (intros; congruence).
    + eexists _, _. split; [reflexivity |]. simpl.
      repeat split; auto; try lia; try (intros; congruence).
Qed.

Lemma checkApiAvailability_evolves hafasClient st available st' :
  checkApiAvailability hafasClient st = (Return available, st') -> evolves st st'.
Proof.
  intros E.
  destruct (checkApiAvailability_outcome hafasClient st)
    as (b & st1 & E1 & _ & Hc & Hd & Hr & Hs & _).
  rewrite E in E1. injection E1 as <- <-.
  unfold evolves. split; [| split; [rewrite Hc; reflexivity | split; lia]].
  intros b0 H0. destruct (Hs b0 H0) as [_ ->]. exact H0.
Qed.

(** The probe as one step is its two pieces back to back. *)
Lemma checkApiAvailability_begin_settle hafasClient st :
  checkApiAvailability hafasClient st
  = match checkApiAvailability_begin hafasClient st with
    | (Answered available, st') => (Return available, st')
    | (Awaiting reply, st') =>
        let '(available, st'') := checkApiAvailability_settle reply st' in
        (Return available, st'')
    end.
Proof.
  unfold checkApiAvailability, checkApiAvailability_begin, checkApiAvailability_settle,
    bind, gets. cbv beta iota.
  destruct (apiAvailable st) as [b |]; [reflexivity |].
  destruct hafasClient as [client |]; [| reflexivity].
  unfold try_catch, bind, hafas_locations, modify, ret. cbv beta iota.
  destruct (HafasClient.locations client (requests st) "Saarbrücken" 1); reflexivity.
Qed.

(** X1. [checkApiAvailability] writes its flag only after the [await], so
    calls can overlap. Two calls that begin while the flag is unset both
    send a probe, two requests in all; whichever probe is answered first,
    each call returns the outcome of its own probe, and the flag ends as
    the probe that was answered last says, the earlier answer being
    overwritten. A call made after both have settled returns that flag
    without a request and leaves the state as it is. *)
Theorem checkApiAvailability_overlapping_calls
    (client : HafasClient.t) (st : State) :
  apiAvailable st = None ->
  let replyA := HafasClient.locations client (requests st) "Saarbrücken" 1 in
  let replyB := HafasClient.locations client (S (requests st)) "Saarbrücken" 1 in
  exists stA stB,
    checkApiAvailability_begin (Some client) st = (Awaiting replyA, stA)
    /\ checkApiAvailability_begin (Some client) stA = (Awaiting replyB, stB)
    /\ apiAvailable stB = None
    /\ requests stB = (requests st + 2)%nat
    /\ (exists st1 st2,
          checkApiAvailability_settle replyA stB = (fulfilled replyA, st1)
          /\ apiAvailable st1 = Some (fulfilled replyA)
          /\ checkApiAvailability_settle replyB st1 = (fulfilled replyB, st2)
          /\ apiAvailable st2 = Some (fulfilled replyB)
          /\ requests st2 = (requests st + 2)%nat
          /\ checkApiAvailability (Some client) st2 = (Return (fulfilled replyB), st2))
    /\ (exists st1 st2,
          checkApiAvailability_settle replyB stB = (fulfilled replyB, st1)
          /\ apiAvailable st1 = Some (fulfilled replyB)
          /\ checkApiAvailability_settle replyA st1 = (fulfilled replyA, st2)
          /\ apiAvailable st2 = Some (fulfilled replyA)
          /\ requests st2 = (requests st + 2)%nat
          /\ checkApiAvailability (Some client) st2 = (Return (fulfilled replyA), st2)).
Proof.
  intros Hunset replyA replyB.
  set (stB := count_request (count_request st)).
  exists (count_request st), stB.
  unfold checkApiAvailability_begin. simpl. rewrite Hunset.
  split; [reflexivity |]. split; [reflexivity |]. split; [reflexivity |].
  split; [lia |].
  split.
  - exists (set_apiAvailable (fulfilled replyA) stB),
      (set_apiAvailable (fulfilled replyB) (set_apiAvailable (fulfilled replyA) stB)).
    unfold checkApiAvailability_settle.
    split; [destruct replyA; reflexivity |]. split; [reflexivity |].
    split; [destruct replyB; reflexivity |]. split; [reflexivity |].
    split; [simpl; lia |].
    apply checkApiAvailability_cached. reflexivity.
  - exists (set_apiAvailable (fulfilled replyB) stB),
      (set_apiAvailable (fulfilled replyA) (set_apiAvailable (fulfilled replyB) stB)).
    unfold checkApiAvailability_settle.
    split; [destruct replyB; reflexivity |]. split; [reflexivity |].
    split; [destruct replyA; reflexivity |]. split; [reflexivity |].
    split; [simpl; lia |].
    apply checkApiAvailability_cached. reflexivity.
Qed.

(** X1 on a freshly loaded module and an upstream that rejects the first
    request and answers the second: the first call returns [false], the
    second [true], and the flag ends [true] or [false] with the order in
    which the two answers arrive. *)
Lemma checkApiAvailability_overlapping_calls_witness :
  apiAvailable initial_state = None
  /\ exists stA stB,
       checkApiAvailability_begin (Some upstream_recovering) initial_state
       = (Awaiting (Throw "ECONNRESET"), stA)
       /\ checkApiAvailability_begin (Some upstream_recovering) stA
          = (Awaiting (Return [station_found]), stB)
       /\ apiAvailable stB = None
       /\ requests stB = 2%nat
       /\ (exists st1 st2,
             checkApiAvailability_settle (Throw "ECONNRESET") stB = (false, st1)
             /\ apiAvailable st1 = Some false
             /\ checkApiAvailability_settle (Return [station_found]) st1 = (true, st2)
             /\ apiAvailable st2 = Some true
             /\ requests st2 = 2%nat
             /\ checkApiAvailability (Some upstream_recovering) st2 = (Return true, st2))
       /\ (exists st1 st2,
             checkApiAvailability_settle (Return [station_found]) stB = (true, st1)
             /\ apiAvailable st1 = Some true
             /\ checkApiAvailability_settle (Throw "ECONNRESET") st1 = (false, st2)
             /\ apiAvailable st2 = Some false
             /\ requests st2 = 2%nat
             /\ checkApiAvailability (Some upstream_recovering) st2 = (Return false, st2)).
Proof.
  split; [reflexivity |].
  exact (checkApiAvailability_overlapping_calls upstream_recovering initial_state eq_refl).
Defined.

(** ** The station resolver *)

(** The candidate [findStation] takes from a non-empty directory answer:
    the first stop, or the first candidate when there is no stop. *)
Lemma find_first_stop (results : list Location.t) (station : Location.t) :
  find (fun r => String.eqb (Location.type r) "stop") results = Some station ->
  exists pre post,
    results = (pre ++ station :: post)%list
    /\ Location.type station = "stop"
    /\ Forall (fun r => Location.type r <> "stop") pre.
Proof.
  induction results as [| r results IH]; simpl; [discriminate |].
  destruct (String.eqb_spec (Location.type r) "stop") as [E | Hne].
  - intros H. injection H as <-. exists [], results. repeat split; auto.
  - intros H. destruct (IH H) as (pre & post & -> & Ht & Hpre).
    exists (r :: pre), post. repeat split; auto.
Qed.

Lemma find_no_stop (results : list Location.t) :
  find (fun r => String.eqb (Location.type r) "stop") results = None ->
  Forall (fun r => Location.type r <> "stop") results.
Proof.
  induction results as [| r results IH]; simpl; intros H; [constructor |].
  destruct (String.eqb_spec (Location.type r) "stop") as [E | Hne]; [discriminate |].
  constructor; auto.
Qed.

(** The resolver in full. *)
Lemma findStation_outcome hafasClient name st :
  exists found st',
    findStation hafasClient name st = (Return found, st')
    /\ evolves st st'
    /\ draws st' = draws st
    /\ is_Some (apiAvailable st')
    /\ (is_Some (apiAvailable st) -> (requests st' <= S (requests st))%nat)
    /\ (requests st' <= S (S (requests st)))%nat
    /\ match found with
       | Some station =>
           stationCache st' !! name = Some station /\ apiAvailable st' = Some true
       | None => stationCache st' = stationCache st
       end.
Proof.
  unfold findStation, bind.
  destruct (checkApiAvailability_outcome hafasClient st)
    as (b & st1 & E & Ha & Hc & Hd & Hr & Hs & _).
  pose proof (checkApiAvailability_evolves _ _ _ _ E) as Hev.
  rewrite E. cbv beta iota.
  assert (Hreq : is_Some (apiAvailable st) -> requests st1 = requests st).
  { intros [b0 H0]. destruct (Hs b0 H0) as [_ ->]. reflexivity. }
  destruct b; unfold negb.
  - unfold gets. cbv beta iota.
    destruct (stationCache st1 !! name) as [cached |] eqn:Hcache.
    + exists (Some cached), st1. split; [reflexivity |].
      split; [exact Hev |]. split; [exact Hd |]. split; [eauto |].
      split; [intros H; rewrite (Hreq H); lia |]. split; [lia |]. auto.
    + unfold try_catch, bind, hafas_locations.
      destruct hafasClient as [client |].
      * destruct (HafasClient.locations client (requests st1) name 5)
          as [[| first rest] | message]; cbv beta iota.
        -- eexists _, _. split; [reflexivity |]. simpl.
           split; [eapply evolves_trans; [exact Hev |];
                   unfold evolves; simpl; repeat split; auto |].
           split; [exact Hd |]. split; [eauto |].
           split; [intros H; rewrite (Hreq H); lia |]. split; [lia | exact Hc].
        -- eexists _, _. split; [reflexivity |]. simpl.
           split; [eapply evolves_trans; [exact Hev |];
                   unfold evolves; simpl; repeat split; auto;
                   apply insert_subseteq; exact Hcache |].
           split; [exact Hd |]. split; [eauto |].
           split; [intros H; rewrite (Hreq H); lia |]. split; [lia |].
           split; [apply lookup_insert_eq | exact Ha].
        -- eexists _, _. split; [reflexivity |]. simpl.
           split; [eapply evolves_trans; [exact Hev |];
                   unfold evolves; simpl; repeat split; auto |].
           split; [exact Hd |]. split; [eauto |].
           split; [intros H; rewrite (Hreq H); lia |]. split; [lia | exact Hc].
      * unfold throw. cbv beta iota. eexists _, _. split; [reflexivity |].
        split; [exact Hev |]. split; [exact Hd |]. split; [eauto |].
        split; [intros H; rewrite (Hreq H); lia |]. split; [lia | exact Hc].
  - exists None, st1. split; [reflexivity |].
    split; [exact Hev |]. split; [exact Hd |]. split; [eauto |].
    split; [intros H; rewrite (Hreq H); lia |]. split; [lia | exact Hc].
Qed.

(** X2. [findStation] reads the flag of the probe before it reads the
    cache. For a name that is cached it returns the cached station when
    the flag is [true], and [null] when the flag is [false], the cache not
    being consulted; in both cases it makes no request and leaves the state
    as it is, with or without a client. *)
Theorem findStation_flag_before_cache
    (hafasClient : option HafasClient.t) (name : string) (station : Location.t)
    (available : bool) (st : State) :
  apiAvailable st = Some available ->
  stationCache st !! name = Some station ->
  findStation hafasClient name st
  = (Return (if available then Some station else None), st).
Proof.
  intros Ha Hcache. unfold findStation, bind.
  rewrite (checkApiAvailability_cached hafasClient st available Ha).
  cbv beta iota. destruct available; unfold negb; [| reflexivity].
  unfold gets. cbv beta iota. rewrite Hcache. reflexivity.
Qed.

(** X2 on a state in which the station of the first stop is cached and the
    flag is [false]: the station is not returned. *)
Lemma findStation_flag_before_cache_witness :
  apiAvailable state_cached_unavailable = Some false
  /\ stationCache state_cached_unavailable !! "Zweibrücken Hbf" = Some station_found
  /\ findStation (Some upstream_candidates) "Zweibrücken Hbf" state_cached_unavailable
     = (Return None, state_cached_unavailable).
Proof.
  split; [reflexivity |]. split; [reflexivity |].
  exact (findStation_flag_before_cache (Some upstream_candidates) "Zweibrücken Hbf"
           station_found false state_cached_unavailable eq_refl eq_refl).
Defined.

(** X3. On a cache miss in real mode [findStation] asks the directory for
    five candidates. From a non-empty answer it takes the first candidate
    of type "stop", or the first candidate when none is a stop, and caches
    it under the name. An empty answer and a failed request give [null] and
    are not cached. *)
Theorem findStation_choice
    (client : HafasClient.t) (name : string) (st : State) :
  apiAvailable st = Some true ->
  stationCache st !! name = None ->
  match HafasClient.locations client (requests st) name 5 with
  | Return (first :: rest) =>
      exists station,
        findStation (Some client) name st
        = (Return (Some station), stationCache_set name station (count_request st))
        /\ ((exists pre post,
               (first :: rest) = (pre ++ station :: post)%list
               /\ Location.type station = "stop"
               /\ Forall (fun r => Location.type r <> "stop") pre)
            \/ (station = first
                /\ Forall (fun r => Location.type r <> "stop") (first :: rest)))
  | Return [] => findStation (Some client) name st = (Return None, count_request st)
  | Throw _ => findStation (Some client) name st = (Return None, count_request st)
  end.
Proof.
  intros Ha Hcache. unfold findStation, bind.
  rewrite (checkApiAvailability_cached (Some client) st true Ha).
  cbv beta iota. unfold negb, gets. cbv beta iota. rewrite Hcache.
  unfold try_catch, bind, hafas_locations.
  destruct (HafasClient.locations client (requests st) name 5)
    as [[| first rest] | message]; cbv beta iota; try reflexivity.
  destruct (find (fun r => String.eqb (Location.type r) "stop") (first :: rest))
    as [station |] eqn:Hfind.
  - exists station. split; [reflexivity |]. left. apply find_first_stop. exact Hfind.
  - exists first. split; [reflexivity |]. right. split; [reflexivity |].
    apply find_no_stop. exact Hfind.
Qed.

(** X3 on a directory whose first candidate is an address and whose second
    is the first stop. *)
Lemma findStation_choice_witness :
  apiAvailable state_available = Some true
  /\ stationCache state_available !! "Homburg Hbf" = None
  /\ exists station,
       findStation (Some upstream_candidates) "Homburg Hbf" state_available
       = (Return (Some station),
          stationCache_set "Homburg Hbf" station (count_request state_available))
       /\ ((exists pre post,
              [candidate_address; candidate_stop; station_found]
              = (pre ++ station :: post)%list
              /\ Location.type station = "stop"
              /\ Forall (fun r => Location.type r <> "stop") pre)
           \/ (station = candidate_address
               /\ Forall (fun r => Location.type r <> "stop")
                    [candidate_address; candidate_stop; station_found])).
Proof.
  split; [reflexivity |]. split; [reflexivity |].
  exact (findStation_choice upstream_candidates "Homburg Hbf" state_available
           eq_refl eq_refl).
Defined.

(** ** The real-data loop, in detail *)

Lemma getDeparturesForStation_outcome hafasClient stationId duration st :
  exists kept st',
    getDeparturesForStation hafasClient stationId duration st = (Return kept, st')
    /\ evolves st st'
    /\ stationCache st' = stationCache st
    /\ draws st' = draws st
    /\ is_Some (apiAvailable st')
    /\ (is_Some (apiAvailable st) -> (requests st' <= S (requests st))%nat)
    /\ Forall (fun dep => isR7Departure dep = true) kept.
Proof.
  unfold getDeparturesForStation, bind.
  destruct (checkApiAvailability_outcome hafasClient st)
    as (b & st1 & E & Ha & Hc & Hd & Hr & Hs & _).
  pose proof (checkApiAvailability_evolves _ _ _ _ E) as Hev.
  rewrite E. cbv beta iota.
  assert (Hreq : is_Some (apiAvailable st) -> requests st1 = requests st).
  { intros [b0 H0]. destruct (Hs b0 H0) as [_ ->]. reflexivity. }
  destruct b; unfold negb.
  - unfold try_catch, bind, hafas_departures.
    destruct hafasClient as [client |].
    + destruct (HafasClient.departures client (requests st1) stationId duration 50)
        as [departures | message]; cbv beta iota;
        eexists _, _; (split; [reflexivity |]); simpl;
        (split; [eapply evolves_trans; [exact Hev |];
                 unfold evolves; simpl; repeat split; auto |]);
        (split; [exact Hc |]); (split; [exact Hd |]); (split; [eauto |]);
        (split; [intros H; rewrite (Hreq H); lia |]).
      * apply List.Forall_forall. intros dep Hin. apply filter_In in Hin. tauto.
      * apply List.Forall_nil.
    + unfold throw. cbv beta iota. eexists _, _. split; [reflexivity |].
      split; [exact Hev |]. split; [exact Hc |]. split; [exact Hd |].
      split; [eauto |]. split; [intros H; rewrite (Hreq H); lia | apply List.Forall_nil].
  - eexists _, _. split; [reflexivity |].
    split; [exact Hev |]. split; [exact Hc |]. split; [exact Hd |].
    split; [eauto |]. split; [intros H; rewrite (Hreq H); lia | apply List.Forall_nil].
Qed.

(** The second half of a round that reaches the departures: fetch them,
    compute the records, push the data snapshot; an error of
    [calculateDelay] is caught and an error snapshot pushed instead. *)
Lemma departures_round hafasClient now stop stationId hafasName location st results :
  is_Some (apiAvailable st) ->
  exists st' d,
    try_catch
      (let* departures :=
         with_results (getDeparturesForStation hafasClient stationId 120) in
       let* processedDepartures := lift_exn (map_exn calculateDelay departures) in
       results_push
         (dataSnapshot now stop stationId hafasName location processedDepartures))
      (fun error => results_push (errorSnapshot now stop error))
      (st, results)
    = (Return tt, (st', (results ++ [d])%list))
    /\ real_snapshot stop d
    /\ evolves st st'
    /\ draws st' = draws st
    /\ is_Some (apiAvailable st')
    /\ (requests st' <= S (requests st))%nat.
Proof.
  intros Hsome. unfold try_catch, bind, with_results.
  destruct (getDeparturesForStation_outcome hafasClient stationId 120 st)
    as (kept & st' & -> & Hev & _ & Hd & Ha & Hr & Hkept).
  cbv beta iota. unfold lift_exn.
  destruct (map_exn calculateDelay kept) as [processed | message] eqn:Hmap;
    cbv beta iota; unfold results_push; eexists _, _;
    (split; [reflexivity |]); (split; [| auto]).
  - right. exists now, stationId, hafasName, location, kept, processed. auto.
  - left. exists now, message. reflexivity.
Qed.

Lemma try_catch_bind_returns {S A B} (m : M S A) (k : A -> M S B)
    (handler : string -> M S B) (st st1 : S) (a : A) :
  m st = (Return a, st1) ->
  try_catch (bind m k) handler st = try_catch (k a) handler st1.
Proof. intros E. unfold try_catch, bind. rewrite E. reflexivity. Qed.

(** One round of the loop, from a state in which the probe has answered. *)
Lemma processStop_outcome hafasClient now stop st results :
  is_Some (apiAvailable st) ->
  exists st' d,
    processStop hafasClient now stop (st, results)
    = (Return tt, (st', (results ++ [d])%list))
    /\ real_snapshot stop d
    /\ evolves st st'
    /\ draws st' = draws st
    /\ is_Some (apiAvailable st')
    /\ (requests st' <= S (S (requests st)))%nat.
Proof.
  intros Hsome. unfold processStop.
  destruct (findStation_outcome hafasClient
              (if JS.truthy_string (Stop.searchName stop)
               then Stop.searchName stop else Stop.name stop) st)
    as (found & st1 & E & Hev1 & Hd1 & Ha1 & Hr1 & _ & _).
  specialize (Hr1 Hsome).
  erewrite try_catch_bind_returns
    by (unfold with_results; rewrite E; reflexivity).
  assert (Herr : forall message,
            exists st' d,
              (Return tt, (st1, (results ++ [errorSnapshot now stop message])%list))
              = (Return tt, (st', (results ++ [d])%list))
              /\ real_snapshot stop d /\ evolves st st' /\ draws st' = draws st
              /\ is_Some (apiAvailable st') /\ (requests st' <= S (S (requests st)))%nat).
  { intros message. eexists _, _. split; [reflexivity |].
    split; [left; eexists _, _; reflexivity |].
    split; [exact Hev1 |]. split; [exact Hd1 |]. split; [exact Ha1 | lia]. }
  assert (Hround : forall stationId hafasName location,
            exists st' d,
              try_catch
                (let* departures :=
                   with_results (getDeparturesForStation hafasClient stationId 120) in
                 let* processedDepartures :=
                   lift_exn (map_exn calculateDelay departures) in
                 results_push
                   (dataSnapshot now stop stationId hafasName location
                      processedDepartures))
                (fun error => results_push (errorSnapshot now stop error))
                (st1, results)
              = (Return tt, (st', (results ++ [d])%list))
              /\ real_snapshot stop d /\ evolves st st' /\ draws st' = draws st
              /\ is_Some (apiAvailable st') /\ (requests st' <= S (S (requests st)))%nat).
  { intros stationId hafasName location.
    destruct (departures_round hafasClient now stop stationId hafasName location
                st1 results Ha1) as (st' & d & E' & Hreal & Hev & Hd & Ha & Hr).
    exists st', d. split; [exact E' |]. split; [exact Hreal |].
    split; [eapply evolves_trans; eassumption |].
    split; [congruence |]. split; [exact Ha | lia]. }
  destruct found as [station |].
  - apply Hround.
  - destruct (Stop.hafasId stop) as [hafasId |].
    + destruct (JS.truthy_string hafasId).
      * apply Hround.
      * apply Herr.
    + apply Herr.
Qed.

(** The loop: one snapshot per stop, each as a round makes it, and at most
    two requests per stop. *)
Lemma for_of_processStop_outcome hafasClient now stops st results :
  is_Some (apiAvailable st) ->
  exists st' pushed,
    for_of stops (processStop hafasClient now) (st, results)
    = (Return tt, (st', (results ++ pushed)%list))
    /\ Forall2 real_snapshot stops pushed
    /\ evolves st st'
    /\ draws st' = draws st
    /\ (requests st' <= requests st + 2 * length stops)%nat.
Proof.
  revert st results. induction stops as [| stop stops IH]; intros st results Hsome.
  - exists st, []. simpl. rewrite app_nil_r.
    split; [reflexivity |]. split; [constructor |].
    split; [apply evolves_refl |]. split; [reflexivity | lia].
  - destruct (processStop_outcome hafasClient now stop st results Hsome)
      as (st1 & d & E1 & Hreal & Hev1 & Hd1 & Ha1 & Hr1).
    destruct (IH st1 (results ++ [d])%list Ha1)
      as (st2 & pushed & E2 & Hall & Hev2 & Hd2 & Hr2).
    exists st2, (d :: pushed). simpl for_of. unfold bind. rewrite E1. cbv beta iota.
    rewrite E2. rewrite <- app_assoc.
    split; [reflexivity |]. split; [constructor; assumption |].
    split; [eapply evolves_trans; eassumption |].
    split; [congruence |]. simpl length. lia.
Qed.

(** ** The synthetic generator, in detail *)

(** The date arithmetic of the generator in a zone at a fixed offset from
    UTC: from any time, setting the minutes to the next half hour (with the
    hour carried), then the seconds and the milliseconds to zero, lands on
    the next half hour of the local clock strictly after that time. *)
Lemma nextDeparture_at_fixed_offset (timeZone : JS.TimeZone) (offset now : Z) :
  JS.at_fixed_offset timeZone offset ->
  now < nextDeparture_at timeZone now <= now + 1800000
  /\ (nextDeparture_at timeZone now + offset) mod 1800000 = 0.
Proof.
  intros H.
  assert (HL : forall t, JS.LocalTime timeZone t = t + offset) by (intros t; apply H).
  assert (HU : forall t, JS.UTC timeZone t = t - offset) by (intros t; apply H).
  unfold nextDeparture_at. cbv zeta.
  unfold JS.setMilliseconds, JS.setSeconds, JS.setHours, JS.setMinutes,
    JS.getHours, JS.getMinutes, JS.MinFromTime, JS.HourFromTime, JS.SecFromTime,
    JS.msFromTime.
  rewrite !HL.
  destruct (Z.ltb_spec ((now + offset) / 60000 mod 60) 30) as [Hm | Hm].
  - change (30 =? 60) with false. change (30 mod 60) with 30. cbv iota.
    repeat first [rewrite HL | rewrite HU].
    Z.div_mod_to_equations. lia.
  - change (60 =? 60) with true. change (60 mod 60) with 0. cbv iota.
    repeat first [rewrite HL | rewrite HU].
    Z.div_mod_to_equations. lia.
Qed.

Lemma setMinutes_add_fixed_offset (timeZone : JS.TimeZone) (offset t delay : Z) :
  JS.at_fixed_offset timeZone offset ->
  JS.setMinutes timeZone t (JS.getMinutes timeZone t + delay) = t + delay * 60000.
Proof.
  intros H. unfold JS.setMinutes, JS.getMinutes.
  rewrite (proj2 (H _)), (proj1 (H _)). lia.
Qed.

(** At the end of daylight saving time the same arithmetic can land before
    the time of the call: at 01:15 UTC on 2026-10-25 the local clock of
    Berlin reads 02:15 for the second time, and 02:30 denotes the first
    02:30 of that night, 00:30 UTC. *)
Example nextDeparture_at_Berlin_autumn_2026 :
  nextDeparture_at zone_Berlin_autumn_2026 (1792890000000 + 900000)
  = 1792890000000 - 1800000.
Proof. reflexivity. Qed.

(** The callback of the generator, field by field. It makes no request and
    leaves the probe's answer and the cache alone. *)
Lemma simulateStop_details random timeZone now stop st :
  exists s st',
    simulateStop random timeZone now stop st = (Return s, st')
    /\ simulated_details random timeZone now stop (draws st) s
    /\ draws st' = (draws st + draws_for stop)%nat
    /\ requests st' = requests st
    /\ apiAvailable st' = apiAvailable st
    /\ stationCache st' = stationCache st.
Proof.
  unfold simulateStop, bind, Math_random, ret, draws_for. cbv beta iota.
  destruct ((Stop.order stop =? 1) || (Stop.order stop =? 7)) eqn:Hterminus;
    cbv beta iota; eexists _, _; (split; [reflexivity |]);
    (split; [| simpl; repeat split; lia]);
    unfold simulated_details; eexists _, _; cbv zeta;
    (split; [reflexivity |]); simpl; rewrite ?Hterminus;
    repeat (split; [reflexivity |]);
    reflexivity.
Qed.

Lemma map_M_simulateStop_details random timeZone now stops st :
  exists ss st',
    map_M (simulateStop random timeZone now) stops st = (Return ss, st')
    /\ Forall2
         (fun stop s =>
            exists n, (draws st <= n)%nat
                      /\ simulated_details random timeZone now stop n s)
         stops ss
    /\ draws st' = (draws st + list_sum (map draws_for stops))%nat
    /\ requests st' = requests st
    /\ apiAvailable st' = apiAvailable st
    /\ stationCache st' = stationCache st.
Proof.
  revert st. induction stops as [| stop stops IH]; intros st.
  - exists [], st. simpl. repeat split; [constructor | lia].
  - destruct (simulateStop_details random timeZone now stop st)
      as (s & st1 & E1 & Hs & Hd1 & Hr1 & Ha1 & Hc1).
    destruct (IH st1) as (ss & st2 & E2 & Hss & Hd2 & Hr2 & Ha2 & Hc2).
    exists (s :: ss), st2. simpl map_M. unfold bind. rewrite E1. cbv beta iota.
    rewrite E2. cbv beta iota.
    split; [reflexivity |].
    split; [| simpl; repeat split; [lia | congruence | congruence | congruence]].
    constructor.
    + exists (draws st). split; [lia | exact Hs].
    + eapply Forall2_impl; [exact Hss |].
      intros stop' s' (n & Hn & H). exists n. split; [lia | exact H].
Qed.

(** A run in simulated mode, from a state whose probe has answered no. *)
Lemma fetchRealDelayData_simulated hafasClient random clock timeZone st :
  apiAvailable st = Some false ->
  exists ss st',
    fetchRealDelayData hafasClient random clock timeZone st = (Return ss, st')
    /\ Forall2
         (fun stop s =>
            exists n, (draws st <= n)%nat
                      /\ simulated_details random timeZone
                           (clock (requests st)) stop n s)
         R7_STOPS ss
    /\ draws st' = (draws st + 16)%nat
    /\ requests st' = requests st
    /\ apiAvailable st' = apiAvailable st
    /\ stationCache st' = stationCache st.
Proof.
  intros Ha. unfold fetchRealDelayData, bind.
  rewrite (checkApiAvailability_cached hafasClient st false Ha).
  cbv beta iota. unfold negb, generateSimulatedData, bind, Date_now. cbv beta iota.
  destruct (map_M_simulateStop_details random timeZone (clock (requests st))
              R7_STOPS st) as (ss & st' & -> & H & Hd & Hr & Ha' & Hc).
  exists ss, st'. split; [reflexivity |]. split; [exact H |].
  split; [rewrite Hd; reflexivity |]. auto.
Qed.

(** A run in real mode, from a state whose probe has answered yes. *)
Lemma fetchRealDelayData_real hafasClient random clock timeZone st :
  apiAvailable st = Some true ->
  exists delays st',
    fetchRealDelayData hafasClient random clock timeZone st = (Return delays, st')
    /\ Forall2 real_snapshot R7_STOPS delays
    /\ evolves st st'
    /\ draws st' = draws st
    /\ (requests st' <= requests st + 14)%nat.
Proof.
  intros Ha. unfold fetchRealDelayData, bind.
  rewrite (checkApiAvailability_cached hafasClient st true Ha).
  cbv beta iota. unfold negb, Date_now. cbv beta iota.
  destruct (for_of_processStop_outcome hafasClient (clock (requests st)) R7_STOPS st []
              ltac:(rewrite Ha; eauto))
    as (st' & pushed & -> & H & Hev & Hd & Hr).
  exists pushed, st'. simpl. auto.
Qed.

(** ** The records behind a snapshot *)

Lemma map_exn_Forall2 {A B} (f : A -> Exn B) (xs : list A) (ys : list B) :
  map_exn f xs = Return ys -> Forall2 (fun x y => f x = Return y) xs ys.
Proof.
  revert ys. induction xs as [| x xs IH]; simpl; intros ys H.
  - injection H as <-. constructor.
  - destruct (f x) as [y |] eqn:E; [| discriminate].
    destruct (map_exn f xs) as [ys' |]; [| discriminate].
    injection H as <-. constructor; auto.
Qed.

Lemma map_exn_Throw {A B} (f : A -> Exn B) (xs : list A) :
  (exists message, map_exn f xs = Throw message)
  <-> exists x message, In x xs /\ f x = Throw message.
Proof.
  induction xs as [| x xs IH]; simpl.
  - split; [intros [m H]; discriminate | intros (x & m & [] & _)].
  - destruct (f x) as [y | m] eqn:E.
    + destruct (map_exn f xs) as [ys | m'].
      * split; [intros [m H]; discriminate |].
        intros (x' & m & [<- | Hin] & H); [congruence |].
        destruct (proj2 IH) as [m' H']; [eauto | discriminate].
      * split; [intros _ | eauto].
        destruct (proj1 IH) as (x' & m & Hin & H); [eauto |]. eauto.
    + split; [intros _; eauto | eauto].
Qed.

(** A record of [calculateDelay]: the delay is not negative and the status
    is that of the delay. *)
Lemma calculateDelay_record departure record :
  calculateDelay departure = Return record ->
  0 <= DepartureRecord.delayMinutes record
  /\ DepartureRecord.status record = getDelayStatus (DepartureRecord.delayMinutes record).
Proof.
  intros E. destruct (calculateDelay_fields _ _ E) as (s & a & _ & _ & Hd & Hs & _).
  rewrite Hs, Hd. split; [apply Z.le_max_l | apply getDelayStatus_clamp].
Qed.

(** The status of a delay is never the empty string, so [||] keeps it. *)
Lemma getDelayStatus_truthy m :
  JS.or_string (Some (getDelayStatus m)) "unknown" = getDelayStatus m.
Proof. by_range m; reflexivity. Qed.

(** Running [fetchRealDelayData] right after the probe, or from the state
    the probe left, is the same. *)
Lemma fetchRealDelayData_after_probe hafasClient random clock timeZone
    st available st1 :
  checkApiAvailability hafasClient st = (Return available, st1) ->
  fetchRealDelayData hafasClient random clock timeZone st
  = fetchRealDelayData hafasClient random clock timeZone st1.
Proof.
  intros E.
  destruct (checkApiAvailability_outcome hafasClient st)
    as (b & st' & E' & Ha & _).
  rewrite E in E'. injection E' as <- <-.
  unfold fetchRealDelayData, bind.
  rewrite E, (checkApiAvailability_cached hafasClient st1 available Ha). reflexivity.
Qed.

(** ** Every run, by mode *)

Lemma fetchRealDelayData_modes hafasClient random clock timeZone st :
  exists available st1 delays st',
    checkApiAvailability hafasClient st = (Return available, st1)
    /\ fetchRealDelayData hafasClient random clock timeZone st = (Return delays, st')
    /\ evolves st st'
    /\ (requests st' <= requests st + 15)%nat
    /\ (available = true ->
        Forall2 real_snapshot R7_STOPS delays /\ draws st' = draws st)
    /\ (available = false ->
        Forall2
          (fun stop s =>
             exists n, (draws st <= n)%nat
                       /\ simulated_details random timeZone
                            (clock (requests st1)) stop n s)
          R7_STOPS delays
        /\ draws st' = (draws st + 16)%nat
        /\ requests st' = requests st1
        /\ stationCache st' = stationCache st).
Proof.
  destruct (checkApiAvailability_outcome hafasClient st)
    as (b & st1 & E & Ha & Hc & Hd & Hr & _ & _).
  pose proof (checkApiAvailability_evolves _ _ _ _ E) as Hev.
  rewrite (fetchRealDelayData_after_probe _ random clock timeZone _ _ _ E).
  exists b, st1. destruct b.
  - destruct (fetchRealDelayData_real hafasClient random clock timeZone st1 Ha)
      as (delays & st' & E' & H & Hev' & Hd' & Hr').
    exists delays, st'. split; [exact E |]. split; [exact E' |].
    split; [eapply evolves_trans; eassumption |]. split; [lia |].
    split; [intros _; split; [exact H | congruence] | discriminate].
  - destruct (fetchRealDelayData_simulated hafasClient random clock timeZone st1 Ha)
      as (delays & st' & E' & H & Hd' & Hr' & Ha' & Hc').
    exists delays, st'. split; [exact E |]. split; [exact E' |].
    split.
    { eapply evolves_trans; [exact Hev |]. unfold evolves.
      rewrite Ha', Hc', Hr', Hd'. repeat split; auto; lia. }
    split; [lia |]. split; [discriminate |]. intros _.
    split; [| split; [lia | split; [exact Hr' | congruence]]].
    eapply Forall2_impl; [exact H |].
    intros stop s (n & Hn & Hs). exists n. split; [lia | exact Hs].
Qed.

(** What holds of the data snapshot of a list of records that are each
    consistent. *)
Lemma dataSnapshot_facts now stop stationId hafasName location kept processed :
  map_exn calculateDelay kept = Return processed ->
  exists d,
    dataSnapshot now stop stationId hafasName location processed = Snapshot.Data d
    /\ 0 <= StopData.delayMinutes d
    /\ (StopData.status d = getDelayStatus (StopData.delayMinutes d)
        \/ (StopData.delayMinutes d = 0 /\ StopData.status d = "unknown"))
    /\ (length (StopData.upcomingDepartures d) <= 5)%nat
    /\ StopData.isSimulated d = false.
Proof.
  intros Hmap. apply map_exn_Forall2 in Hmap.
  unfold dataSnapshot. eexists. split; [reflexivity |]. simpl.
  split; [| split; [| split; [rewrite length_firstn; lia | reflexivity]]].
  - destruct Hmap as [| dep record ? ? Hrecord _]; simpl; [lia |].
    apply (calculateDelay_record _ _ Hrecord).
  - destruct Hmap as [| dep record ? ? Hrecord _]; simpl; [right; auto |].
    left. destruct (calculateDelay_record _ _ Hrecord) as [_ ->].
    apply getDelayStatus_truthy.
Qed.

(** What holds of every snapshot of every run. *)
Lemma fetched_snapshot_facts hafasClient random clock timeZone st delays st' :
  fetchRealDelayData hafasClient random clock timeZone st = (Return delays, st') ->
  Forall
    (fun s =>
       0 <= Snapshot.delayMinutes s
       /\ match s with
          | Snapshot.Data d =>
              (StopData.status d = getDelayStatus (StopData.delayMinutes d)
               \/ (StopData.delayMinutes d = 0
                   /\ (StopData.status d = "unknown" \/ StopData.status d = "cancelled")))
              /\ (length (StopData.upcomingDepartures d) <= 5)%nat
          | Snapshot.Failed _ => True
          end)
    delays.
Proof.
  intros E.
  destruct (fetchRealDelayData_modes hafasClient random clock timeZone st)
    as (b & st1 & delays' & st'' & _ & E' & _ & _ & Hreal & Hsim).
  rewrite E in E'. injection E' as <- <-.
  destruct b.
  - destruct (Hreal eq_refl) as [H _]. clear - H.
    induction H as [| stop s stops ss Hs _ IH]; constructor; [| exact IH].
    destruct Hs as [(now & message & ->)
                   | (now & id & name & loc & kept & processed & -> & Hmap & _)].
    + simpl. split; [lia | exact I].
    + destruct (dataSnapshot_facts now stop id name loc kept processed Hmap)
        as (d & -> & Hd & Hs & Hlen & _).
      simpl. split; [exact Hd |]. split; [| exact Hlen]. tauto.
  - destruct (Hsim eq_refl) as [H _].
    assert (Hall : Forall2 (fun (_ : Stop.t) s =>
                      0 <= Snapshot.delayMinutes s
                      /\ match s with
                         | Snapshot.Data d =>
                             (StopData.status d = getDelayStatus (StopData.delayMinutes d)
                              \/ (StopData.delayMinutes d = 0
                                  /\ (StopData.status d = "unknown"
                                      \/ StopData.status d = "cancelled")))
                             /\ (length (StopData.upcomingDepartures d) <= 5)%nat
                         | Snapshot.Failed _ => True
                         end) R7_STOPS delays).
    { eapply Forall2_impl; [exact H |].
      intros stop s (n & _ & d & t & Hs). cbv zeta in Hs.
      destruct Hs as (-> & _ & _ & _ & _ & _ & _ & _ & _ & _ & Hd & Hst & _
                      & _ & _ & _ & _ & Hup & _).
      simpl. rewrite Hd, Hst, Hup.
      destruct (JS.lt (random (S n)) JS.literal_0_05).
      - split; [lia |]. split; [right; auto | simpl; lia].
      - destruct (Z.ltb_spec (JS.Math_floor (random n * 16)) 5).
        + split; [lia |]. split; [left; reflexivity | simpl; lia].
        + split; [lia |]. split; [left; reflexivity | simpl; lia]. }
    clear - Hall. induction Hall; constructor; auto.
Qed.

(** ** Simulated mode *)

Lemma filter_all {A} (p : A -> bool) (xs : list A) :
  Forall (fun x => p x = true) xs -> List.filter p xs = xs.
Proof.
  induction 1 as [| x xs Hx _ IH]; simpl; [reflexivity |].
  rewrite Hx, IH. reflexivity.
Qed.

Lemma Forall2_Forall_r {A B} (P : A -> B -> Prop) (Q : B -> Prop)
    (xs : list A) (ys : list B) :
  Forall2 P xs ys -> (forall x y, P x y -> Q y) -> Forall Q ys.
Proof.
  intros H HPQ. induction H as [| x y xs ys Hxy _ IH]; constructor; eauto.
Qed.

(** X4. In simulated mode (the probe has answered no) a run of
    [fetchRealDelayData] makes no upstream request and leaves the station
    cache and the probe's answer as they are; it makes exactly sixteen
    draws; and each of its seven snapshots has data, so the statistics
    count them all. *)
Theorem fetchRealDelayData_simulated_mode
    (hafasClient : option HafasClient.t) (random : nat -> Q)
    (clock : nat -> Timestamp) (timeZone : JS.TimeZone) (st : State) :
  apiAvailable st = Some false ->
  exists delays st',
    fetchRealDelayData hafasClient random clock timeZone st = (Return delays, st')
    /\ requests st' = requests st
    /\ stationCache st' = stationCache st
    /\ apiAvailable st' = Some false
    /\ draws st' = (draws st + 16)%nat
    /\ validDelays delays = delays
    /\ Summary.stopsWithData (routeSummary delays) = 7.
Proof.
  intros Ha.
  destruct (fetchRealDelayData_simulated hafasClient random clock timeZone st Ha)
    as (delays & st' & E & H & Hd & Hr & Ha' & Hc).
  exists delays, st'. split; [exact E |]. split; [exact Hr |]. split; [exact Hc |].
  split; [congruence |]. split; [exact Hd |].
  assert (Hvalid : validDelays delays = delays).
  { unfold validDelays. apply filter_all.
    eapply Forall2_Forall_r; [exact H |].
    intros stop s (n & _ & d & t & Hs). cbv zeta in Hs.
    destruct Hs as (-> & _ & _ & _ & _ & _ & _ & Hsched & _).
    simpl. rewrite Hsched. reflexivity. }
  split; [exact Hvalid |].
  unfold routeSummary. simpl. rewrite Hvalid.
  assert (Hlen : length delays = length R7_STOPS)
    by (symmetry; eapply Forall2_length; exact H).
  rewrite Hlen. reflexivity.
Qed.

(** X4 on a module whose probe has failed, against an upstream that would
    answer. *)
Lemma fetchRealDelayData_simulated_mode_witness :
  apiAvailable state_unavailable = Some false
  /\ exists delays st',
       fetchRealDelayData (Some upstream_cancelled_late) random_half clock_zero JS.zone_UTC
         state_unavailable = (Return delays, st')
       /\ requests st' = requests state_unavailable
       /\ stationCache st' = stationCache state_unavailable
       /\ apiAvailable st' = Some false
       /\ draws st' = (draws state_unavailable + 16)%nat
       /\ validDelays delays = delays
       /\ Summary.stopsWithData (routeSummary delays) = 7.
Proof.
  split; [reflexivity |].
  exact (fetchRealDelayData_simulated_mode (Some upstream_cancelled_late) random_half
           clock_zero JS.zone_UTC state_unavailable eq_refl).
Defined.

(** X5. On a server whose zone keeps one offset from UTC, the synthetic
    generator gives every stop the same scheduled departure: the next half
    hour of the local clock strictly after the time of the call, at most
    thirty minutes ahead. The expected arrival of a snapshot is never
    before the scheduled departure, and for a snapshot that is not
    cancelled it is the scheduled departure plus [delayMinutes] minutes.
    (Across a change of the offset the bound fails, see
    [generateSimulatedData_Berlin_autumn_2026].) *)
Theorem generateSimulatedData_schedule
    (random : nat -> Q) (clock : nat -> Timestamp) (timeZone : JS.TimeZone)
    (offset : Z) (st : State) :
  JS.at_fixed_offset timeZone offset ->
  exists snapshots st' t,
    generateSimulatedData random clock timeZone st = (Return snapshots, st')
    /\ length snapshots = 7%nat
    /\ clock (requests st) < t <= clock (requests st) + 1800000
    /\ (t + offset) mod 1800000 = 0
    /\ Forall
         (fun s =>
            exists d e,
              s = Snapshot.Data d
              /\ StopData.lastUpdated d = clock (requests st)
              /\ StopData.scheduledDeparture d = Some t
              /\ StopData.expectedArrival d = Some e
              /\ t <= e
              /\ (StopData.cancelled d = false ->
                  e = t + StopData.delayMinutes d * 60000))
         snapshots.
Proof.
  intros Hzone. unfold generateSimulatedData, bind, Date_now. cbv beta iota.
  set (now := clock (requests st)).
  destruct (map_M_simulateStop_details random timeZone now R7_STOPS st)
    as (ss & st' & -> & H & _).
  destruct (nextDeparture_at_fixed_offset timeZone offset now Hzone) as [Hrange Hmod].
  exists ss, st', (nextDeparture_at timeZone now). split; [reflexivity |].
  split; [symmetry; apply (Forall2_length _ _ _ H) |].
  split; [exact Hrange |]. split; [exact Hmod |].
  eapply Forall2_Forall_r; [exact H |].
  intros stop s (n & _ & d & t' & Hs). cbv zeta in Hs.
  destruct Hs as (-> & _ & _ & _ & _ & _ & _ & Hsched & -> & Hexp
                  & Hdelay & _ & Hcanc & _ & _ & _ & _ & _ & Hlast & _).
  rewrite (setMinutes_add_fixed_offset timeZone offset _ _ Hzone) in Hexp.
  eexists d, _. split; [reflexivity |]. split; [exact Hlast |].
  split; [exact Hsched |]. split; [exact Hexp |].
  split.
  - destruct (Z.ltb_spec (JS.Math_floor (random n * 16)) 5); lia.
  - intros Hfalse. rewrite Hdelay. rewrite Hcanc in Hfalse. rewrite Hfalse.
    reflexivity.
Qed.

(** X5 on a server in UTC. *)
Lemma generateSimulatedData_schedule_witness :
  JS.at_fixed_offset JS.zone_UTC 0
  /\ exists snapshots st' t,
       generateSimulatedData random_half clock_zero JS.zone_UTC initial_state
       = (Return snapshots, st')
       /\ length snapshots = 7%nat
       /\ clock_zero (requests initial_state) < t
          <= clock_zero (requests initial_state) + 1800000
       /\ (t + 0) mod 1800000 = 0
       /\ Forall
            (fun s =>
               exists d e,
                 s = Snapshot.Data d
                 /\ StopData.lastUpdated d = clock_zero (requests initial_state)
                 /\ StopData.scheduledDeparture d = Some t
                 /\ StopData.expectedArrival d = Some e
                 /\ t <= e
                 /\ (StopData.cancelled d = false ->
                     e = t + StopData.delayMinutes d * 60000))
            snapshots.
Proof.
  split.
  - intros t. simpl. split; reflexivity.
  - apply (generateSimulatedData_schedule random_half clock_zero JS.zone_UTC 0
             initial_state).
    intros t. simpl. split; reflexivity.
Defined.

(** The generator itself at the end of daylight saving time in Berlin:
    called at 01:15 UTC on 2026-10-25, it schedules every stop at 00:30
    UTC, forty-five minutes before the call. *)
Example generateSimulatedData_Berlin_autumn_2026 :
  exists snapshots st',
    generateSimulatedData random_half (fun _ => 1792890000000 + 900000)
      zone_Berlin_autumn_2026 initial_state = (Return snapshots, st')
    /\ map Snapshot.scheduledDeparture snapshots
       = repeat (Some (1792890000000 - 1800000)) 7.
Proof. eexists _, _. split; reflexivity. Qed.

Lemma platform_draw (r : Q) :
  (0 <= r < 1)%Q ->
  In (JS.String_of_integer (JS.Math_floor (r * 3) + 1)) ["1"; "2"; "3"].
Proof.
  intros [H0 H1]. unfold JS.Math_floor.
  assert (Hlow : 0 <= Qfloor (r * 3)).
  { assert (H : (inject_Z 0 <= r * 3)%Q) by (change (inject_Z 0) with 0%Q; lra).
    apply Qfloor_resp_le in H. rewrite Qfloor_Z in H. exact H. }
  assert (Hhigh : Qfloor (r * 3) < 3).
  { pose proof (Qfloor_le (r * 3)) as Hle.
    assert (H : (inject_Z (Qfloor (r * 3)) < inject_Z 3)%Q).
    { eapply Qle_lt_trans; [exact Hle |]. change (inject_Z 3) with 3%Q. lra. }
    rewrite <- Zlt_Qlt in H. exact H. }
  assert (Hcases : Qfloor (r * 3) = 0 \/ Qfloor (r * 3) = 1 \/ Qfloor (r * 3) = 2) by lia.
  destruct Hcases as [-> | [-> | ->]]; simpl; auto.
Qed.

(** X6. In the list of the synthetic generator only the two termini (order
    1 and order 7) have a platform, which is "1", "2" or "3" as long as
    [Math.random] keeps to its range; every other stop has none. The
    direction depends on the order alone: "Homburg (Saar) Hbf" up to order
    3, "Zweibrücken Hbf" beyond. *)
Theorem generateSimulatedData_platform_direction
    (random : nat -> Q) (clock : nat -> Timestamp) (timeZone : JS.TimeZone) (st : State) :
  (forall n, (0 <= random n < 1)%Q) ->
  exists snapshots st',
    generateSimulatedData random clock timeZone st = (Return snapshots, st')
    /\ Forall2
         (fun stop s =>
            exists d,
              s = Snapshot.Data d
              /\ (StopData.platform d = None <->
                  Stop.order stop <> 1 /\ Stop.order stop <> 7)
              /\ (forall p, StopData.platform d = Some p -> In p ["1"; "2"; "3"])
              /\ StopData.direction d =
                 Some (if Stop.order stop <=? 3 then "Homburg (Saar) Hbf"
                       else "Zweibrücken Hbf"))
         R7_STOPS snapshots.
Proof.
  intros Hrandom. unfold generateSimulatedData, bind, Date_now. cbv beta iota.
  destruct (map_M_simulateStop_details random timeZone (clock (requests st))
              R7_STOPS st) as (ss & st' & -> & H & _).
  exists ss, st'. split; [reflexivity |].
  eapply Forall2_impl; [exact H |].
  intros stop s (n & _ & d & t & Hs). cbv zeta in Hs.
  destruct Hs as (-> & _ & _ & _ & _ & _ & _ & _ & _ & _ & _ & _ & _
                  & Hplat & Hdir & _).
  exists d. split; [reflexivity |]. rewrite Hplat, Hdir.
  split; [| split].
  - destruct (Z.eqb_spec (Stop.order stop) 1) as [E1 | N1];
      destruct (Z.eqb_spec (Stop.order stop) 7) as [E7 | N7]; simpl;
      split; first [ discriminate | tauto | intros [? ?]; contradiction ].
  - intros p. destruct ((Stop.order stop =? 1) || (Stop.order stop =? 7));
      [| discriminate].
    intros Hp. injection Hp as <-. apply platform_draw. apply Hrandom.
  - destruct (Stop.order stop <=? 3); reflexivity.
Qed.

(** X6 on a source of draws that always returns one half. *)
Lemma generateSimulatedData_platform_direction_witness :
  (forall n, (0 <= random_half n < 1)%Q)
  /\ exists snapshots st',
       generateSimulatedData random_half clock_zero JS.zone_UTC initial_state
       = (Return snapshots, st')
       /\ Forall2
            (fun stop s =>
               exists d,
                 s = Snapshot.Data d
                 /\ (StopData.platform d = None <->
                     Stop.order stop <> 1 /\ Stop.order stop <> 7)
                 /\ (forall p, StopData.platform d = Some p -> In p ["1"; "2"; "3"])
                 /\ StopData.direction d =
                    Some (if Stop.order stop <=? 3 then "Homburg (Saar) Hbf"
                          else "Zweibrücken Hbf"))
            R7_STOPS snapshots.
Proof.
  split.
  - intros n. unfold random_half. split; [discriminate | reflexivity].
  - apply (generateSimulatedData_platform_direction random_half clock_zero JS.zone_UTC
             initial_state).
    intros n. unfold random_half. split; [discriminate | reflexivity].
Defined.

(** ** Both modes *)

(** X7. The [isRealData] flag that a handler reads before it fetches
    agrees with the snapshots it then gets: in simulated mode every
    snapshot is a data snapshot flagged [isSimulated: true]; in real mode
    no snapshot is flagged, and error snapshots occur in real mode only. *)
Theorem fetchRealDelayData_isSimulated
    (hafasClient : option HafasClient.t) (random : nat -> Q)
    (clock : nat -> Timestamp) (timeZone : JS.TimeZone) (st : State) :
  exists isRealData st0 delays st',
    isUsingRealData hafasClient st = (Return isRealData, st0)
    /\ fetchRealDelayData hafasClient random clock timeZone st0
       = (Return delays, st')
    /\ Forall
         (fun s =>
            match s with
            | Snapshot.Data d => StopData.isSimulated d = negb isRealData
            | Snapshot.Failed _ => isRealData = true
            end)
         delays.
Proof.
  unfold isUsingRealData.
  destruct (checkApiAvailability_outcome hafasClient st)
    as (b & st0 & E & Ha & _).
  exists b, st0. destruct b.
  - destruct (fetchRealDelayData_real hafasClient random clock timeZone st0 Ha)
      as (delays & st' & E' & H & _).
    exists delays, st'. split; [exact E |]. split; [exact E' |].
    eapply Forall2_Forall_r; [exact H |].
    intros stop s [(now & message & ->)
                  | (now & id & name & loc & kept & processed & -> & Hmap & _)].
    + reflexivity.
    + reflexivity.
  - destruct (fetchRealDelayData_simulated hafasClient random clock timeZone st0 Ha)
      as (delays & st' & E' & H & _).
    exists delays, st'. split; [exact E |]. split; [exact E' |].
    eapply Forall2_Forall_r; [exact H |].
    intros stop s (n & _ & d & t & Hs). cbv zeta in Hs.
    destruct Hs as (-> & Hrest).
    repeat match type of Hrest with
           | _ /\ _ => apply proj2 in Hrest
           end.
    exact Hrest.
Qed.

(** X8. Every data snapshot of every run, in either mode, is consistent:
    its delay is not negative; its status is one of the six known ones; the
    status is the classification of its own delay, unless it is "unknown"
    or "cancelled", and then the delay is 0; and it lists at most five
    upcoming departures. *)
Theorem fetchRealDelayData_snapshot_consistent
    (hafasClient : option HafasClient.t) (random : nat -> Q)
    (clock : nat -> Timestamp) (timeZone : JS.TimeZone) (st : State) :
  exists delays st',
    fetchRealDelayData hafasClient random clock timeZone st = (Return delays, st')
    /\ Forall
         (fun s =>
            match s with
            | Snapshot.Data d =>
                0 <= StopData.delayMinutes d
                /\ In (StopData.status d) known_statuses
                /\ (StopData.status d = getDelayStatus (StopData.delayMinutes d)
                    \/ (StopData.delayMinutes d = 0
                        /\ (StopData.status d = "unknown"
                            \/ StopData.status d = "cancelled")))
                /\ (length (StopData.upcomingDepartures d) <= 5)%nat
            | Snapshot.Failed e => Snapshot.delayMinutes s = 0
            end)
         delays.
Proof.
  destruct (fetchRealDelayData_outcome hafasClient random clock timeZone st)
    as (delays & st' & E & _ & _).
  exists delays, st'. split; [exact E |].
  pose proof (fetched_snapshot_facts _ _ _ _ _ _ _ E) as H.
  eapply List.Forall_impl; [| exact H].
  intros [d | e]; simpl; [| reflexivity].
  intros (Hd & Hs & Hlen). split; [exact Hd |]. split; [| split; assumption].
  destruct Hs as [-> | (_ & [-> | ->])].
  - by_range (StopData.delayMinutes d); simpl; tauto.
  - simpl. tauto.
  - simpl. tauto.
Qed.

(** The head of a data snapshot is the head of its records. *)
Lemma dataSnapshot_flattening now stop stationId hafasName location kept processed :
  map_exn calculateDelay kept = Return processed ->
  exists d,
    dataSnapshot now stop stationId hafasName location processed = Snapshot.Data d
    /\ StopData.isSimulated d = false
    /\ StopData.status d <> "cancelled"
    /\ match StopData.upcomingDepartures d with
       | [] =>
           StopData.scheduledDeparture d = None
           /\ StopData.expectedArrival d = None
           /\ StopData.delayMinutes d = 0
           /\ StopData.status d = "unknown"
           /\ StopData.cancelled d = false
           /\ StopData.platform d = None
           /\ StopData.direction d = None
           /\ StopData.remarks d = []
       | next :: _ =>
           StopData.scheduledDeparture d = DepartureRecord.scheduledDeparture next
           /\ StopData.expectedArrival d = DepartureRecord.expectedDeparture next
           /\ StopData.delayMinutes d = DepartureRecord.delayMinutes next
           /\ StopData.status d = DepartureRecord.status next
           /\ StopData.cancelled d = DepartureRecord.cancelled next
           /\ StopData.platform d = DepartureRecord.platform next
           /\ StopData.direction d = DepartureRecord.direction next
           /\ StopData.remarks d = DepartureRecord.remarks next
       end.
Proof.
  intros Hmap. apply map_exn_Forall2 in Hmap.
  unfold dataSnapshot. eexists. split; [reflexivity |]. cbn -[JS.or_string].
  split; [reflexivity |].
  destruct Hmap as [| dep record kept' processed' Hrecord _]; cbn -[JS.or_string].
  - split; [discriminate |]. repeat split.
  - destruct (calculateDelay_record _ _ Hrecord) as [_ Hstatus].
    assert (Hor : JS.or_string (Some (DepartureRecord.status record)) "unknown"
                  = DepartureRecord.status record)
      by (rewrite Hstatus; apply getDelayStatus_truthy).
    rewrite Hor. split; [| repeat split].
    rewrite Hstatus. by_range (DepartureRecord.delayMinutes record); discriminate.
Qed.

(** X9. In real mode (the probe has answered yes) a run makes no draw and
    no snapshot is flagged as simulated. A data snapshot repeats at its top
    level the fields of its first upcoming departure; with no upcoming
    departure it has status "unknown", delay 0, no times, no platform, and
    is not cancelled. Its status is never "cancelled", also when its
    [cancelled] flag is set. An error snapshot has an empty [departures]
    list. *)
Theorem fetchRealDelayData_real_mode
    (hafasClient : option HafasClient.t) (random : nat -> Q)
    (clock : nat -> Timestamp) (timeZone : JS.TimeZone) (st : State) :
  apiAvailable st = Some true ->
  exists delays st',
    fetchRealDelayData hafasClient random clock timeZone st = (Return delays, st')
    /\ draws st' = draws st
    /\ Forall
         (fun s =>
            match s with
            | Snapshot.Data d =>
                StopData.isSimulated d = false
                /\ StopData.status d <> "cancelled"
                /\ match StopData.upcomingDepartures d with
                   | [] =>
                       StopData.scheduledDeparture d = None
                       /\ StopData.expectedArrival d = None
                       /\ StopData.delayMinutes d = 0
                       /\ StopData.status d = "unknown"
                       /\ StopData.cancelled d = false
                       /\ StopData.platform d = None
                       /\ StopData.direction d = None
                       /\ StopData.remarks d = []
                   | next :: _ =>
                       StopData.scheduledDeparture d
                       = DepartureRecord.scheduledDeparture next
                       /\ StopData.expectedArrival d
                          = DepartureRecord.expectedDeparture next
                       /\ StopData.delayMinutes d = DepartureRecord.delayMinutes next
                       /\ StopData.status d = DepartureRecord.status next
                       /\ StopData.cancelled d = DepartureRecord.cancelled next
                       /\ StopData.platform d = DepartureRecord.platform next
                       /\ StopData.direction d = DepartureRecord.direction next
                       /\ StopData.remarks d = DepartureRecord.remarks next
                   end
            | Snapshot.Failed e => StopError.departures e = []
            end)
         delays.
Proof.
  intros Ha.
  destruct (fetchRealDelayData_real hafasClient random clock timeZone st Ha)
    as (delays & st' & E & H & _ & Hd & _).
  exists delays, st'. split; [exact E |]. split; [exact Hd |].
  eapply Forall2_Forall_r; [exact H |].
  intros stop s [(now & message & ->)
                | (now & id & name & loc & kept & processed & -> & Hmap & _)].
  - reflexivity.
  - destruct (dataSnapshot_flattening now stop id name loc kept processed Hmap)
      as (d & -> & Hflat). exact Hflat.
Qed.

(** X9 on an upstream whose departures are cancelled and late. *)
Lemma fetchRealDelayData_real_mode_witness :
  apiAvailable state_available = Some true
  /\ exists delays st',
       fetchRealDelayData (Some upstream_cancelled_late) random_half clock_zero JS.zone_UTC
         state_available = (Return delays, st')
       /\ draws st' = draws state_available
       /\ Forall
            (fun s =>
               match s with
               | Snapshot.Data d =>
                   StopData.isSimulated d = false
                   /\ StopData.status d <> "cancelled"
                   /\ match StopData.upcomingDepartures d with
                      | [] =>
                          StopData.scheduledDeparture d = None
                          /\ StopData.expectedArrival d = None
                          /\ StopData.delayMinutes d = 0
                          /\ StopData.status d = "unknown"
                          /\ StopData.cancelled d = false
                          /\ StopData.platform d = None
                          /\ StopData.direction d = None
                          /\ StopData.remarks d = []
                      | next :: _ =>
                          StopData.scheduledDeparture d
                          = DepartureRecord.scheduledDeparture next
                          /\ StopData.expectedArrival d
                             = DepartureRecord.expectedDeparture next
                          /\ StopData.delayMinutes d = DepartureRecord.delayMinutes next
                          /\ StopData.status d = DepartureRecord.status next
                          /\ StopData.cancelled d = DepartureRecord.cancelled next
                          /\ StopData.platform d = DepartureRecord.platform next
                          /\ StopData.direction d = DepartureRecord.direction next
                          /\ StopData.remarks d = DepartureRecord.remarks next
                      end
               | Snapshot.Failed e => StopError.departures e = []
               end)
            delays.
Proof.
  split; [reflexivity |].
  exact (fetchRealDelayData_real_mode (Some upstream_cancelled_late) random_half
           clock_zero JS.zone_UTC state_available eq_refl).
Defined.

(** X10. A run of [fetchRealDelayData] makes at most fifteen upstream
    requests (the probe, then a directory and a departure request per
    stop), and keeps what the module has learnt: an answer of the probe is
    never changed, a cached station is never replaced or dropped, and the
    counters of requests and draws never go back. *)
Theorem fetchRealDelayData_upstream_load
    (hafasClient : option HafasClient.t) (random : nat -> Q)
    (clock : nat -> Timestamp) (timeZone : JS.TimeZone) (st : State) :
  exists delays st',
    fetchRealDelayData hafasClient random clock timeZone st = (Return delays, st')
    /\ (requests st <= requests st' <= requests st + 15)%nat
    /\ (forall b, apiAvailable st = Some b -> apiAvailable st' = Some b)
    /\ (forall name station,
          stationCache st !! name = Some station ->
          stationCache st' !! name = Some station)
    /\ (draws st <= draws st')%nat.
Proof.
  destruct (fetchRealDelayData_modes hafasClient random clock timeZone st)
    as (b & st1 & delays & st' & _ & E & (Ha & Hc & Hr & Hd) & Hbound & _).
  exists delays, st'. split; [exact E |]. split; [lia |]. split; [exact Ha |].
  split; [| exact Hd].
  intros name station Hlookup. eapply lookup_weaken; eassumption.
Qed.

(** ** A departure that does not parse *)

Lemma calculateDelay_invalid departure :
  Departure.plannedWhen departure = Some InvalidDate
  \/ Departure.when departure = Some InvalidDate ->
  calculateDelay departure = Throw "Invalid time value".
Proof.
  unfold calculateDelay. intros [H | H]; rewrite H.
  - reflexivity.
  - destruct (Departure.plannedWhen departure) as [[s |] |]; reflexivity.
Qed.

Lemma calculateDelay_message departure message :
  calculateDelay departure = Throw message -> message = "Invalid time value".
Proof.
  intros E. pose proof (calculateDelay_throws _ _ E) as H.
  rewrite (calculateDelay_invalid _ H) in E. congruence.
Qed.

Lemma map_exn_calculateDelay_invalid (kept : list Departure.t) :
  (exists dep, In dep kept
               /\ (Departure.plannedWhen dep = Some InvalidDate
                   \/ Departure.when dep = Some InvalidDate)) ->
  map_exn calculateDelay kept = Throw "Invalid time value".
Proof.
  induction kept as [| dep kept IH]; intros (bad & Hin & Hbad); [destruct Hin |].
  simpl. destruct (calculateDelay dep) as [record | message] eqn:E.
  - destruct Hin as [-> | Hin].
    + rewrite (calculateDelay_invalid _ Hbad) in E. discriminate.
    + rewrite IH by eauto. reflexivity.
  - rewrite (calculateDelay_message _ _ E). reflexivity.
Qed.

(** X11. One departure that does not parse spoils its stop. In real mode,
    for a stop whose station is cached: if, among the departures that the
    upstream returns for the station, one of the line has a planned or
    actual time that is not a valid date, wherever it stands in the list,
    the stop gets an error snapshot with the message "Invalid time value",
    whatever the other departures say. *)
Theorem processStop_unparsable_departure
    (client : HafasClient.t) (now : Timestamp) (stop : Stop.t)
    (station : Location.t) (departures : list Departure.t)
    (st : State) (results : list Snapshot.t) :
  apiAvailable st = Some true ->
  stationCache st !! (if JS.truthy_string (Stop.searchName stop)
                      then Stop.searchName stop else Stop.name stop)
  = Some station ->
  HafasClient.departures client (requests st) (Location.id station) 120 50
  = Return departures ->
  (exists dep,
     In dep departures /\ isR7Departure dep = true
     /\ (Departure.plannedWhen dep = Some InvalidDate
         \/ Departure.when dep = Some InvalidDate)) ->
  processStop (Some client) now stop (st, results)
  = (Return tt,
     (count_request st,
      (results ++ [errorSnapshot now stop "Invalid time value"])%list)).
Proof.
  intros Ha Hcache Hdeps (dep & Hin & Hline & Hbad).
  assert (Hfind : findStation (Some client)
                    (if JS.truthy_string (Stop.searchName stop)
                     then Stop.searchName stop else Stop.name stop) st
                  = (Return (Some station), st)).
  { unfold findStation, bind.
    rewrite (checkApiAvailability_cached (Some client) st true Ha).
    cbv beta iota. unfold negb, gets. cbv beta iota. rewrite Hcache. reflexivity. }
  unfold processStop.
  erewrite try_catch_bind_returns
    by (unfold with_results; rewrite Hfind; reflexivity).
  cbv beta iota.
  assert (Hget : getDeparturesForStation (Some client) (Location.id station) 120 st
                 = (Return (List.filter isR7Departure departures), count_request st)).
  { unfold getDeparturesForStation, bind.
    rewrite (checkApiAvailability_cached (Some client) st true Ha).
    cbv beta iota. unfold negb, try_catch, bind, hafas_departures.
    rewrite Hdeps. reflexivity. }
  unfold try_catch, bind, with_results. rewrite Hget. cbv beta iota.
  unfold lift_exn. rewrite map_exn_calculateDelay_invalid.
  - reflexivity.
  - exists dep. split; [apply filter_In; auto | exact Hbad].
Qed.

(** X11 at the first stop, on an upstream whose first departure is fine and
    whose second does not parse. *)
Lemma processStop_unparsable_departure_witness :
  apiAvailable state_station_cached = Some true
  /\ stationCache state_station_cached !! "Zweibrücken Hbf" = Some station_found
  /\ HafasClient.departures upstream_one_unparsable (requests state_station_cached)
       (Location.id station_found) 120 50
     = Return [departure_cancelled_late; departure_unparsable]
  /\ (exists dep,
        In dep [departure_cancelled_late; departure_unparsable]
        /\ isR7Departure dep = true
        /\ (Departure.plannedWhen dep = Some InvalidDate
            \/ Departure.when dep = Some InvalidDate))
  /\ processStop (Some upstream_one_unparsable) 0 stop_zweibruecken
       (state_station_cached, [])
     = (Return tt,
        (count_request state_station_cached,
         [errorSnapshot 0 stop_zweibruecken "Invalid time value"])).
Proof.
  assert (Hbad : exists dep,
             In dep [departure_cancelled_late; departure_unparsable]
             /\ isR7Departure dep = true
             /\ (Departure.plannedWhen dep = Some InvalidDate
                 \/ Departure.when dep = Some InvalidDate)).
  { exists departure_unparsable. split; [right; left; reflexivity |].
    split; [reflexivity | left; reflexivity]. }
  split; [reflexivity |]. split; [reflexivity |]. split; [reflexivity |].
  split; [exact Hbad |].
  exact (processStop_unparsable_departure upstream_one_unparsable 0 stop_zweibruecken
           station_found [departure_cancelled_late; departure_unparsable]
           state_station_cached [] eq_refl eq_refl eq_refl Hbad).
Defined.

(** ** Bounds on the statistics *)

Lemma Math_round_nonneg (x : Q) : (0 <= x)%Q -> 0 <= JS.Math_round x.
Proof.
  intros H. unfold JS.Math_round.
  assert (H' : (inject_Z 0 <= x + (1 # 2))%Q) by (change (inject_Z 0) with 0%Q; lra).
  apply Qfloor_resp_le in H'. rewrite Qfloor_Z in H'. exact H'.
Qed.

Lemma Math_round_le (x : Q) (bound : Z) :
  (x <= inject_Z bound)%Q -> JS.Math_round x <= bound.
Proof.
  intros H. unfold JS.Math_round.
  pose proof (Qfloor_le (x + (1 # 2))) as Hle.
  assert (H' : (inject_Z (Qfloor (x + (1 # 2))) < inject_Z (bound + 1))%Q).
  { rewrite inject_Z_plus. change (inject_Z 1) with 1%Q.
    eapply Qle_lt_trans; [exact Hle |]. lra. }
  rewrite <- Zlt_Qlt in H'. lia.
Qed.

Lemma ratio_bounds (a n bound : Z) :
  0 < n -> 0 <= a <= bound * n ->
  (0 <= inject_Z a / inject_Z n <= inject_Z bound)%Q.
Proof.
  intros Hn [H0 H1].
  assert (Hpos : (0 < inject_Z n)%Q) by (change 0%Q with (inject_Z 0); now rewrite <- Zlt_Qlt).
  split.
  - apply Qle_shift_div_l; [exact Hpos |].
    rewrite Qmult_0_l. change 0%Q with (inject_Z 0). now rewrite <- Zle_Qle.
  - apply Qle_shift_div_r; [exact Hpos |].
    rewrite <- inject_Z_mult, <- Zle_Qle. exact H1.
Qed.

Lemma sum_of_bounds (xs : list Z) (bound : Z) :
  Forall (fun x => 0 <= x <= bound) xs ->
  0 <= sum_of xs <= bound * Z.of_nat (length xs).
Proof.
  induction 1 as [| x xs Hx _ IH]; unfold sum_of in *; simpl fold_right;
    simpl length; [lia |].
  rewrite Nat2Z.inj_succ. lia.
Qed.

Lemma filter_length_le {A} (p : A -> bool) (xs : list A) :
  (length (List.filter p xs) <= length xs)%nat.
Proof.
  induction xs as [| x xs IH]; simpl; [lia |]. destruct (p x); simpl; lia.
Qed.

(** The bounds that hold of the summary of any list whose delays are not
    negative. *)
Lemma routeSummary_bounds (delays : list Snapshot.t) :
  Forall (fun d => 0 <= Snapshot.delayMinutes d) delays ->
  let summary := routeSummary delays in
  0 <= Summary.stopsWithData summary <= Summary.totalStops summary
  /\ Summary.stopsOnTime summary + Summary.stopsDelayed summary
     = Summary.stopsWithData summary
  /\ 0 <= Summary.stopsOnTime summary
  /\ 0 <= Summary.stopsDelayed summary
  /\ 0 <= Summary.onTimePercentage summary <= 100
  /\ 0 <= Summary.averageDelayMinutes summary <= Summary.maxDelayMinutes summary
  /\ 0 <= Summary.cancelledServices summary <= Summary.totalStops summary.
Proof.
  intros Hnonneg. cbv zeta. unfold routeSummary. simpl.
  pose proof (filter_length_le
                (fun d => negb (JS.truthy_ostring (Snapshot.error d))
                          && bool_decide (is_Some (Snapshot.scheduledDeparture d)))
                delays) as Hvalid.
  fold (validDelays delays) in Hvalid.
  pose proof (filter_length_le (fun d => Snapshot.delayMinutes d =? 0)
                (validDelays delays)) as Hon.
  fold (onTimeCount delays) in Hon.
  pose proof (filter_length_le (fun d => JS.or_false (Snapshot.cancelled d)) delays)
    as Hcanc.
  fold (cancelledCount delays) in Hcanc.
  split; [lia |]. split; [lia |]. split; [lia |]. split; [lia |].
  split; [| split; [| lia]].
  - unfold onTimePercentage.
    destruct (Nat.ltb_spec 0 (length (validDelays delays))) as [Hpos | _]; [| lia].
    destruct (ratio_bounds (Z.of_nat (onTimeCount delays))
                (Z.of_nat (length (validDelays delays))) 1) as [H0 H1]; [lia | lia |].
    set (q := (inject_Z (Z.of_nat (onTimeCount delays))
               / inject_Z (Z.of_nat (length (validDelays delays))))%Q) in *.
    change (inject_Z 1) with 1%Q in H1.
    split.
    + apply Math_round_nonneg. lra.
    + apply Math_round_le. change (inject_Z 100) with 100%Q. lra.
  - unfold averageDelay, maxDelay. rewrite totalDelays_sum.
    assert (Hvalid_nonneg :
              Forall (fun x => 0 <= x) (map Snapshot.delayMinutes (validDelays delays))).
    { apply List.Forall_forall. intros x Hx.
      apply in_map_iff in Hx as (d & <- & Hd).
      unfold validDelays in Hd. apply filter_In in Hd as [Hd _].
      revert d Hd. apply List.Forall_forall. exact Hnonneg. }
    rewrite <- (length_map Snapshot.delayMinutes (validDelays delays)).
    destruct (map Snapshot.delayMinutes (validDelays delays)) as [| x xs];
      [simpl; lia |].
    destruct (Nat.ltb_spec 0 (length (x :: xs))) as [Hpos | Hzero];
      [| simpl in Hzero; lia].
    destruct (Math_max_spec x xs) as [_ Hmax].
    assert (Hall : Forall (fun y => 0 <= y <= JS.Math_max x xs) (x :: xs)).
    { apply List.Forall_forall. intros y Hy. split; [| apply Hmax; exact Hy].
      revert y Hy. apply List.Forall_forall. exact Hvalid_nonneg. }
    pose proof (sum_of_bounds _ _ Hall) as Hsum.
    destruct (ratio_bounds (sum_of (x :: xs)) (Z.of_nat (length (x :: xs)))
                (JS.Math_max x xs)) as [H0 H1]; [lia | exact Hsum |].
    split; [apply Math_round_nonneg; exact H0 | apply Math_round_le; exact H1].
Qed.

Lemma fetched_delays_nonneg hafasClient random clock timeZone st delays st' :
  fetchRealDelayData hafasClient random clock timeZone st = (Return delays, st') ->
  Forall (fun d => 0 <= Snapshot.delayMinutes d) delays.
Proof.
  intros E. eapply List.Forall_impl; [| exact (fetched_snapshot_facts _ _ _ _ _ _ _ E)].
  intros d [H _]. exact H.
Qed.


(** X13. The summary that /api/summary sends is coherent on every run:
    seven stops in all; the stops with data are at most seven and split
    into those on time and those delayed; the on-time percentage lies
    between 0 and 100; the average delay lies between 0 and the maximum
    delay; the cancelled services are at most seven. *)
Theorem getRouteSummary_bounds
    (hafasClient : option HafasClient.t) (random : nat -> Q)
    (clock : nat -> Timestamp) (timeZone : JS.TimeZone) (st : State) :
  exists summary dataSource isRealData timestamp st',
    getRouteSummary hafasClient random clock timeZone st
    = (Return {| status := 200;
                 json := SummaryBody true "R7" "Zweibrücken - Homburg (Saarland)"
                           dataSource isRealData summary timestamp |},
       st')
    /\ Summary.totalStops summary = 7
    /\ 0 <= Summary.stopsWithData summary <= 7
    /\ Summary.stopsOnTime summary + Summary.stopsDelayed summary
       = Summary.stopsWithData summary
    /\ 0 <= Summary.stopsOnTime summary
    /\ 0 <= Summary.stopsDelayed summary
    /\ 0 <= Summary.onTimePercentage summary <= 100
    /\ 0 <= Summary.averageDelayMinutes summary <= Summary.maxDelayMinutes summary
    /\ 0 <= Summary.cancelledServices summary <= 7.
Proof.
  destruct (checkApiAvailability_outcome hafasClient st) as (b & st0 & E0 & _).
  destruct (fetchRealDelayData_outcome hafasClient random clock timeZone st0)
    as (delays & st' & E1 & _ & Hords).
  assert (Hlen : Summary.totalStops (routeSummary delays) = 7).
  { unfold routeSummary. simpl.
    rewrite <- (length_map Snapshot.stopOrder), Hords. reflexivity. }
  pose proof (routeSummary_bounds delays (fetched_delays_nonneg _ _ _ _ _ _ _ E1))
    as Hb. cbv zeta in Hb. rewrite Hlen in Hb.
  exists (routeSummary delays). eexists _, b, _, st'. split.
  - unfold getRouteSummary, try_catch, bind, isUsingRealData.
    rewrite E0. cbv beta iota. rewrite E1. reflexivity.
  - split; [exact Hlen | exact Hb].
Qed.

(** ** Station search, in real mode and behind its handler *)

(** X14. Every result of [searchStations], in either mode, has the type
    "stop". In real mode the results are the upstream candidates of type
    "stop", in the upstream order, with their id, name and location, the
    other candidates being dropped; a failed request gives the empty list.
    The search never writes the station cache and never changes the
    probe's answer. *)
Theorem searchStations_results
    (hafasClient : option HafasClient.t) (toLowerCase : string -> string)
    (query : string) (st : State) :
  exists results st',
    searchStations hafasClient toLowerCase query st = (Return results, st')
    /\ Forall (fun r => SearchResult.type r = "stop") results
    /\ stationCache st' = stationCache st
    /\ (forall b, apiAvailable st = Some b -> apiAvailable st' = Some b)
    /\ match checkApiAvailability hafasClient st with
       | (Return true, st1) =>
           match hafas_locations hafasClient query 10 st1 with
           | (Return candidates, _) =>
               Forall2
                 (fun candidate r =>
                    SearchResult.id r = Location.id candidate
                    /\ SearchResult.name r = Location.name candidate
                    /\ SearchResult.location r = Location.location candidate)
                 (List.filter (fun c => String.eqb (Location.type c) "stop") candidates)
                 results
               /\ (forall c, In c (List.filter
                                     (fun c => String.eqb (Location.type c) "stop")
                                     candidates)
                             <-> In c candidates /\ Location.type c = "stop")
           | (Throw _, _) => results = []
           end
       | _ => True
       end.
Proof.
  unfold searchStations, bind.
  destruct (checkApiAvailability_outcome hafasClient st)
    as (b & st1 & E & Ha & Hc & _ & _ & Hs & _).
  pose proof (checkApiAvailability_evolves _ _ _ _ E) as (Hsticky & _).
  rewrite E. cbv beta iota. destruct b; unfold negb.
  - unfold try_catch, bind.
    assert (Hloc : forall r st2,
               hafas_locations hafasClient query 10 st1 = (r, st2) ->
               stationCache st2 = stationCache st1
               /\ apiAvailable st2 = apiAvailable st1).
    { unfold hafas_locations, throw. destruct hafasClient as [client |];
        intros r st2 H; injection H as <- <-; split; reflexivity. }
    destruct (hafas_locations hafasClient query 10 st1)
      as [[candidates | message] st2] eqn:E2;
      destruct (Hloc _ _ eq_refl) as [Hc2 Ha2]; cbv beta iota;
      eexists _, _; (split; [reflexivity |]).
    + split.
      { apply List.Forall_forall. intros r Hr.
        apply in_map_iff in Hr as (c & <- & Hin). simpl.
        apply filter_In in Hin as [_ Hin]. apply String.eqb_eq. exact Hin. }
      split; [congruence |]. split; [intros b0 H0; rewrite Ha2; auto |].
      split.
      * generalize (List.filter (fun c => String.eqb (Location.type c) "stop")
                      candidates).
        intros stops. induction stops as [| c stops IH]; simpl.
        -- apply Forall2_nil. exact I.
        -- apply Forall2_cons. split; [repeat split | exact IH].
      * intros c. rewrite filter_In, String.eqb_eq. reflexivity.
    + split; [apply List.Forall_nil |].
      split; [congruence |]. split; [intros b0 H0; rewrite Ha2; auto | reflexivity].
  - eexists _, _. split; [reflexivity |].
    split.
    { apply List.Forall_forall. intros r Hr.
      apply in_map_iff in Hr as (stop & <- & _). reflexivity. }
    split; [exact Hc |]. split; [exact Hsticky | exact I].
Qed.

Lemma String_length_nonneg (s : string) : 0 <= String_length s.
Proof.
  induction s as [| c s IH]; cbn [String_length]; [lia |].
  repeat match goal with
         | |- context [if ?b then _ else _] => destruct b
         end; lia.
Qed.

Lemma searchStations_returns hafasClient toLowerCase query st :
  exists results st',
    searchStations hafasClient toLowerCase query st = (Return results, st').
Proof.
  unfold searchStations, bind.
  destruct (checkApiAvailability_returns hafasClient st) as (b & st1 & -> & _ & _).
  cbv beta iota. destruct b; unfold negb; [| eexists _, _; reflexivity].
  unfold try_catch, bind.
  destruct (hafas_locations hafasClient query 10 st1) as [[candidates | message] st2];
    eexists _, _; reflexivity.
Qed.

(** The length of a string counts UTF-16 code units, not bytes. *)
Example String_length_examples :
  String_length "" = 0 /\ String_length "ab" = 2 /\ String_length "ü" = 1
  /\ String_length "Einöd" = 5.
Proof. repeat split. Qed.

(** X15. The handler of /api/search validates before it searches: a
    missing [q], and a [q] of fewer than two UTF-16 code units (the empty
    string included), get a 400 with the message "Query must be at least 2
    characters" and leave the module state untouched, so that no probe and
    no request is made. Any longer [q] gets a 200 that echoes the query and
    carries what [searchStations] returned, in either mode; the handler
    never answers 500 for a string. *)
Theorem searchStationsHandler_validation
    (hafasClient : option HafasClient.t) (clock : nat -> Timestamp)
    (toLowerCase : string -> string) (q : option string) (st : State) :
  match q with
  | None =>
      searchStationsHandler hafasClient clock toLowerCase q st
      = (Return {| code := 400;
                   payload := FailurePayload false
                                "Query must be at least 2 characters" None |}, st)
  | Some query =>
      if String_length query <? 2 then
        searchStationsHandler hafasClient clock toLowerCase q st
        = (Return {| code := 400;
                     payload := FailurePayload false
                                  "Query must be at least 2 characters" None |}, st)
      else
        exists results st',
          searchStations hafasClient toLowerCase query st = (Return results, st')
          /\ searchStationsHandler hafasClient clock toLowerCase q st
             = (Return {| code := 200;
                          payload := SearchPayload true query results
                                       (clock (requests st')) |}, st')
  end.
Proof.
  destruct q as [query |]; [| reflexivity].
  unfold searchStationsHandler, try_catch.
  destruct (Z.ltb_spec (String_length query) 2) as [Hshort | Hlong].
  - rewrite orb_true_r. reflexivity.
  - assert (Htruthy : JS.truthy_string query = true).
    { destruct query; [simpl in Hlong; lia | reflexivity]. }
    rewrite Htruthy. cbn [negb orb].
    destruct (searchStations_returns hafasClient toLowerCase query st)
      as (results & st' & E).
    exists results, st'. split; [exact E |].
    unfold bind. rewrite E. reflexivity.
Qed.

(** ** The stop list and the lookup by id *)

Lemma getAllStops_ids (stopId : string) :
  (exists name order, In (stopId, name, order) getAllStops)
  <-> In stopId (map Stop.id R7_STOPS).
Proof.
  unfold getAllStops. split.
  - intros (name & order & H). apply in_map_iff in H as (stop & E & Hin).
    injection E as <- _ _. apply in_map. exact Hin.
  - intros H. apply in_map_iff in H as (stop & <- & Hin).
    exists (Stop.name stop), (Stop.order stop).
    apply in_map_iff. exists stop. auto.
Qed.

(** X16. The stop list and the lookup by id agree. On every run, the
    handler of /api/delays/:stopId answers 200 exactly for the ids that
    [getAllStops] lists, and 404 for every other string; it never answers
    500. The snapshot of a 200 is the one of the stop asked for. *)
Theorem getDelayByStop_agrees_with_getAllStops
    (hafasClient : option HafasClient.t) (random : nat -> Q)
    (clock : nat -> Timestamp) (timeZone : JS.TimeZone) (stopId : string) (st : State) :
  exists response st',
    getDelayByStop hafasClient random clock timeZone stopId st
    = (Return response, st')
    /\ (status response = 200 <-> exists name order, In (stopId, name, order) getAllStops)
    /\ (status response = 404 <->
        ~ exists name order, In (stopId, name, order) getAllStops)
    /\ match json response with
       | StopBody _ _ _ _ data _ =>
           status response = 200 /\ Snapshot.stopId data = stopId
       | ErrorBody _ error _ => status response = 404 /\ error = "Stop not found"
       | SummaryBody _ _ _ _ _ _ _ => False
       end.
Proof.
  unfold getDelayByStop, try_catch, bind, isUsingRealData.
  destruct (checkApiAvailability_returns hafasClient st) as (b & st0 & -> & _ & _).
  cbv beta iota.
  destruct (getDelayByStopId_outcome hafasClient random clock timeZone stopId st0)
    as (delays & st' & _ & Hids & ->).
  cbv beta iota.
  destruct (in_dec string_dec stopId (map Stop.id R7_STOPS)) as [Hin | Hout].
  - destruct (find_stopId_Some delays stopId) as (d & -> & Hid & _);
      [rewrite Hids; exact Hin |].
    unfold Date_now, ret. cbv beta iota. eexists _, _. split; [reflexivity |].
    rewrite getAllStops_ids. cbn [status json]. split; [tauto |]. split; [| auto].
    split; [discriminate | intros H; contradiction].
  - rewrite find_stopId_None by (rewrite Hids; exact Hout).
    eexists _, _. split; [reflexivity |]. rewrite getAllStops_ids. cbn [status json].
    split; [split; [discriminate | intros H; contradiction] |].
    split; [tauto | auto].
Qed.

(** ** What the page shows *)

(** X17. The page and the model classify a delay alike as long as the
    delay is not negative: the CSS class that [getDelayClass] gives to
    [m] minutes is "no-delay", "small-delay", "medium-delay" or
    "large-delay" according to whether [getDelayStatus] says "on-time",
    "slight-delay", "delayed" or "heavily-delayed", and [formatDelay] says
    "Pünktlich" exactly for the delays that are "on-time". On a negative
    number they part: the model says "on-time", the page "small-delay" and
    a text other than "Pünktlich". *)
Theorem getDelayClass_matches_status (m : Z) :
  (0 <= m ->
   In (getDelayStatus m, getDelayClass (Some m))
      [ ("on-time", "no-delay"); ("slight-delay", "small-delay");
        ("delayed", "medium-delay"); ("heavily-delayed", "large-delay") ]
   /\ (formatDelay (Some m) = "Pünktlich" <-> getDelayStatus m = "on-time"))
  /\ (m < 0 ->
      getDelayStatus m = "on-time"
      /\ getDelayClass (Some m) = "small-delay"
      /\ formatDelay (Some m) <> "Pünktlich").
Proof.
  assert (Hformat : m <> 0 -> formatDelay (Some m) <> "Pünktlich").
  { intros Hne. unfold formatDelay.
    destruct (Z.eqb_spec m 0) as [| _]; [contradiction |]. simpl. discriminate. }
  unfold getDelayClass, getDelayStatus. split.
  - intros Hm. destruct (Z.eqb_spec m 0) as [-> | Hne].
    + simpl. split; [tauto | split; reflexivity].
    + destruct (Z.leb_spec m 0) as [| _]; [lia |].
      split.
      * destruct (m <=? 5); [simpl; tauto |]. destruct (m <=? 10); simpl; tauto.
      * split; [intros H; contradiction (Hformat Hne H) |].
        destruct (m <=? 5); [discriminate |]. destruct (m <=? 10); discriminate.
  - intros Hm. destruct (Z.eqb_spec m 0) as [| _]; [lia |].
    destruct (Z.leb_spec m 0) as [_ |]; [| lia].
    destruct (Z.leb_spec m 5) as [_ |]; [| lia].
    split; [reflexivity |]. split; [reflexivity |]. apply Hformat. lia.
Qed.

(** X18. Every status that a data snapshot can carry has its German text:
    on every run and for every data snapshot, [getStatusText] finds the
    status among the own keys of its table and returns the text stored
    there, never the status itself and never an inherited member. *)
Theorem getStatusText_covers_snapshots
    (hafasClient : option HafasClient.t) (random : nat -> Q)
    (clock : nat -> Timestamp) (timeZone : JS.TimeZone) (st : State) :
  exists delays st',
    fetchRealDelayData hafasClient random clock timeZone st = (Return delays, st')
    /\ Forall
         (fun s =>
            match s with
            | Snapshot.Data d =>
                exists text,
                  getStatusText (StopData.status d) = Text text
                  /\ In (StopData.status d, text) statusMap
                  /\ text <> StopData.status d
            | Snapshot.Failed _ => True
            end)
         delays.
Proof.
  destruct (fetchRealDelayData_outcome hafasClient random clock timeZone st)
    as (delays & st' & E & _ & _).
  exists delays, st'. split; [exact E |].
  eapply List.Forall_impl; [| exact (fetched_snapshot_facts _ _ _ _ _ _ _ E)].
  intros [d | e]; [| auto].
  intros (_ & [-> | (_ & [-> | ->])] & _).
  - by_range (StopData.delayMinutes d); eexists;
      (split; [reflexivity |]); (split; [simpl; tauto | discriminate]).
  - eexists. split; [reflexivity |]. split; [simpl; tauto | discriminate].
  - eexists. split; [reflexivity |]. split; [simpl; tauto | discriminate].
Qed.

(** A status that is neither a key of the table nor a name inherited from
    [Object.prototype] comes back as it is; an inherited name does not
    give a text. *)
Example getStatusText_examples :
  getStatusText "late" = Text "late"
  /\ getStatusText "delayed" = Text "Verspätet"
  /\ getStatusText "toString" = Inherited "toString".
Proof. repeat split. Qed.

(** ** The delay calculator, field by field *)

Lemma or_ostring_not_empty (a b : option string) :
  b <> Some "" -> JS.or_ostring a b <> Some "".
Proof.
  unfold JS.or_ostring, JS.truthy_ostring, JS.truthy_string.
  destruct a as [s |]; [| auto].
  destruct (String.eqb_spec s "") as [-> | Hne]; simpl; [auto |].
  intros _ H. injection H as H. contradiction.
Qed.

(** X19. [calculateDelay] normalises what it passes on. In the record of a
    departure whose times parse, the platform is the departure's platform,
    or else its planned platform, and the platform and the direction are
    never the empty string (an empty or missing field becomes [null]); the
    line name is never empty and is "R7" when the departure names no line;
    the scheduled departure is [null] exactly when the planned time is
    missing; the expected departure is the actual time, or else the planned
    time, and is [null] exactly when both are missing; [cancelled] is
    [false] unless the departure says [true]. The only error it throws is
    "Invalid time value". *)
Theorem calculateDelay_normalises (departure : Departure.t) :
  match calculateDelay departure with
  | Return record =>
      DepartureRecord.platform record <> Some ""
      /\ DepartureRecord.direction record <> Some ""
      /\ (JS.truthy_ostring (Departure.platform departure) = true ->
          DepartureRecord.platform record = Departure.platform departure)
      /\ (JS.truthy_ostring (Departure.platform departure) = false ->
          JS.truthy_ostring (Departure.plannedPlatform departure) = true ->
          DepartureRecord.platform record = Departure.plannedPlatform departure)
      /\ DepartureRecord.lineName record <> ""
      /\ (Departure.line departure = None -> DepartureRecord.lineName record = "R7")
      /\ (DepartureRecord.scheduledDeparture record = None <->
          Departure.plannedWhen departure = None)
      /\ (DepartureRecord.expectedDeparture record = None <->
          Departure.plannedWhen departure = None /\ Departure.when departure = None)
      /\ (forall actual,
            Departure.when departure = Some (ValidDate actual) ->
            DepartureRecord.expectedDeparture record = Some actual)
      /\ (Departure.when departure = None ->
          DepartureRecord.expectedDeparture record
          = DepartureRecord.scheduledDeparture record)
      /\ (DepartureRecord.cancelled record = true <->
          Departure.cancelled departure = Some true)
  | Throw message => message = "Invalid time value"
  end.
Proof.
  destruct (calculateDelay departure) as [record | message] eqn:E;
    [| exact (calculateDelay_message _ _ E)].
  revert E. unfold calculateDelay.
  destruct (Departure.plannedWhen departure) as [[s |] |];
    destruct (Departure.when departure) as [[a |] |]; simpl;
    intros E; try discriminate E; injection E as <-; simpl;
    (split; [apply or_ostring_not_empty, or_ostring_not_empty; discriminate |]);
    (split; [apply or_ostring_not_empty; discriminate |]);
    (split; [unfold JS.or_ostring; intros ->; reflexivity |]);
    (split; [unfold JS.or_ostring; intros -> ->; reflexivity |]);
    (split; [destruct (Departure.line departure) as [[[name |] product] |]; simpl;
             try discriminate;
             unfold JS.truthy_string;
             destruct (String.eqb_spec name "") as [-> | Hne]; simpl;
             [discriminate | exact Hne] |]);
    (split; [intros ->; reflexivity |]);
    (split; [split; intros H; first [ discriminate H | reflexivity ] |]);
    (split; [split; [intros H; first [ discriminate H | split; reflexivity ]
                    | intros [H1 H2]; first [ discriminate H1 | discriminate H2
                                            | reflexivity ]] |]);
    (split; [intros actual H; first [ discriminate H
                                    | injection H as <-; reflexivity ] |]);
    (split; [intros H; first [ discriminate H | reflexivity ] |]);
    destruct (Departure.cancelled departure) as [[|] |]; simpl;
    split; intros H; first [ discriminate H | reflexivity ].
Qed.

(** [Math.round] of a quotient of integers, in integer arithmetic. *)
Lemma Math_round_ratio (a b : Z) :
  0 < b -> JS.Math_round (inject_Z a / inject_Z b) = (2 * a + b) / (2 * b).
Proof.
  intros Hb. destruct b as [| p | p]; try lia.
  unfold JS.Math_round, Qfloor, Qdiv, Qmult, Qinv, Qplus, inject_Z. simpl.
  f_equal; lia.
Qed.

(** X20. The minutes that [calculateDelay] reports, in whole numbers. From
    an explicit delay of [s] seconds, [s] not zero, they are
    [max 0 ((s + 30) / 60)]: a delay of less than thirty seconds counts as
    no delay and gets the status "on-time", and from thirty seconds on the
    minutes reported are within thirty seconds of the delay. Without an
    explicit delay, from times [a] and [p] in milliseconds, they are
    [max 0 ((a - p + 30000) / 60000)]. *)
Theorem calculateDelay_whole_minutes (departure : Departure.t) :
  match calculateDelay departure with
  | Return record =>
      (forall seconds,
         Departure.delay departure = Some seconds -> seconds <> 0 ->
         DepartureRecord.delayMinutes record = Z.max 0 ((seconds + 30) / 60)
         /\ (seconds < 30 ->
             DepartureRecord.delayMinutes record = 0
             /\ DepartureRecord.status record = "on-time")
         /\ (30 <= seconds ->
             60 * DepartureRecord.delayMinutes record - 30 <= seconds
             < 60 * DepartureRecord.delayMinutes record + 30))
      /\ (forall planned actual,
            JS.truthy_onumber (Departure.delay departure) = false ->
            Departure.plannedWhen departure = Some (ValidDate planned) ->
            Departure.when departure = Some (ValidDate actual) ->
            DepartureRecord.delayMinutes record
            = Z.max 0 ((actual - planned + 30000) / 60000))
  | Throw _ => True
  end.
Proof.
  destruct (calculateDelay departure) as [record | message] eqn:E; [| exact I].
  destruct (calculateDelay_fields _ _ E) as (s & a & Hs & Ha & Hd & Hst & _).
  split.
  - intros seconds Hdelay Hne.
    assert (Hcomputed : computedDelayMinutes (Departure.delay departure) s a
                        = (seconds + 30) / 60).
    { rewrite Hdelay. unfold computedDelayMinutes, JS.truthy_onumber.
      destruct (Z.eqb_spec seconds 0) as [| _]; [contradiction |]. simpl negb. cbv iota.
      change 60%Q with (inject_Z 60). rewrite Math_round_ratio by lia.
      Z.div_mod_to_equations. lia. }
    rewrite Hd, Hst, Hcomputed. split; [reflexivity |]. split.
    + intros Hlt. split.
      * Z.div_mod_to_equations. lia.
      * apply getDelayStatus_on_time. Z.div_mod_to_equations. lia.
    + intros Hge. Z.div_mod_to_equations. lia.
  - intros planned actual Hfalsy Hp Hw. rewrite Hp in Hs. rewrite Hw in Ha.
    simpl in Hs, Ha. injection Hs as <-. injection Ha as <-.
    rewrite Hd. unfold computedDelayMinutes. rewrite Hfalsy.
    change (1000 * 60) with 60000. rewrite Math_round_ratio by lia.
    f_equal. Z.div_mod_to_equations. lia.
Qed.
